(** * Brazil Fire Data API: a shallow embedding of [api_fire_data.py]

    The development follows the source file top to bottom: module-level
    globals, [get_fire_data_brazil], then the FastAPI handlers
    [read_fire_data] and [fire_data_summary].

    Modelling conventions.
    - Effects (logging, the outbound GET, reads of the wall clock) are
      threaded through a state-and-exception monad [M].
    - The third-party calls whose results the program cannot control
      ([requests.get], [pandas.read_csv], [pandas.to_datetime], the
      ordering chosen by [DataFrame.sort_values]) are fields of a
      [World]; what pandas documents about them is the predicate
      [pandas_contract].
    - A pandas [Timestamp] is an integer number of nanoseconds since
      1970-01-01, as in pandas itself; calendar fields are computed from
      it.
    - IEEE doubles are idealised as rationals plus a NaN value; rounding
      is not modelled.
    - Text is a [string] of 8-bit characters. *)

From Stdlib Require Import ZArith QArith String Ascii List Lia.
From stdpp Require Import base option list strings gmap sorting pretty.

Open Scope string_scope.
Open Scope Z_scope.

(** ** Calendar arithmetic on the proleptic Gregorian calendar *)

Module Calendar.

Abbreviation Timestamp := Z (only parsing).

Definition NS_PER_SECOND : Z := 1000000000.
Definition NS_PER_DAY : Z := 86400 * NS_PER_SECOND.

(** Days since 1970-01-01 of the instant [t] (floor division, so that
    instants before the epoch fall on the right day). *)
Definition epoch_day (t : Timestamp) : Z := t / NS_PER_DAY.

Definition second_of_day (t : Timestamp) : Z :=
  (t mod NS_PER_DAY) / NS_PER_SECOND.

Definition is_leap (y : Z) : bool :=
  (y mod 4 =? 0) && (negb (y mod 100 =? 0) || (y mod 400 =? 0)).

(** Days since the epoch of the civil date [y]-[m]-[d]. *)
Definition days_from_civil (y m d : Z) : Z :=
  let y' := if m <=? 2 then y - 1 else y in
  let era := y' / 400 in
  let yoe := y' - era * 400 in
  let mp := if m <=? 2 then m + 9 else m - 3 in
  let doy := (153 * mp + 2) / 5 + d - 1 in
  let doe := yoe * 365 + yoe / 4 - yoe / 100 + doy in
  era * 146097 + doe - 719468.

(** The civil date [(year, month, day)] of a day number. *)
Definition civil_from_days (z : Z) : Z * Z * Z :=
  let z := z + 719468 in
  let era := z / 146097 in
  let doe := z - era * 146097 in
  let yoe := (doe - doe / 1460 + doe / 36524 - doe / 146096) / 365 in
  let y := yoe + era * 400 in
  let doy := doe - (365 * yoe + yoe / 4 - yoe / 100) in
  let mp := (5 * doy + 2) / 153 in
  let d := doy - (153 * mp + 2) / 5 + 1 in
  let m := if mp <? 10 then mp + 3 else mp - 9 in
  ((if m <=? 2 then y + 1 else y), m, d).

Definition year_of (t : Timestamp) : Z := (civil_from_days (epoch_day t)).1.1.
Definition month_of (t : Timestamp) : Z := (civil_from_days (epoch_day t)).1.2.
Definition day_of (t : Timestamp) : Z := (civil_from_days (epoch_day t)).2.

(** Monday is 0; 1970-01-01 was a Thursday. *)
Definition weekday_of_day (z : Z) : Z := (z + 3) mod 7.

(** Day number of the Monday that starts ISO week 1 of [y]. *)
Definition isoweek1monday (y : Z) : Z :=
  let firstday := days_from_civil y 1 1 in
  let firstweekday := weekday_of_day firstday in
  let week1monday := firstday - firstweekday in
  if 3 <? firstweekday then week1monday + 7 else week1monday.

(** [isocalendar().week] *)
Definition iso_week (t : Timestamp) : Z :=
  let today := epoch_day t in
  let y := year_of t in
  let week := (today - isoweek1monday y) / 7 in
  if week <? 0 then (today - isoweek1monday (y - 1)) / 7 + 1
  else if (52 <=? week) && (isoweek1monday (y + 1) <=? today) then 1
  else week + 1.

Definition day_name (t : Timestamp) : string :=
  match weekday_of_day (epoch_day t) with
  | 0 => "Monday" | 1 => "Tuesday" | 2 => "Wednesday" | 3 => "Thursday"
  | 4 => "Friday" | 5 => "Saturday" | _ => "Sunday"
  end.

Definition pad2 (z : Z) : string :=
  if z <? 10 then "0" +:+ pretty z else pretty z.

Definition pad4 (z : Z) : string :=
  if z <? 10 then "000" +:+ pretty z
  else if z <? 100 then "00" +:+ pretty z
  else if z <? 1000 then "0" +:+ pretty z
  else pretty z.

(** [strftime('%Y-%m')] *)
Definition strftime_Ym (t : Timestamp) : string :=
  pad4 (year_of t) +:+ "-" +:+ pad2 (month_of t).

(** [strftime('%Y-%m-%d')] *)
Definition strftime_Ymd (t : Timestamp) : string :=
  strftime_Ym t +:+ "-" +:+ pad2 (day_of t).

(** [strftime('%Y-%m-%d %H:%M:%S')] *)
Definition strftime_YmdHMS (t : Timestamp) : string :=
  let s := second_of_day t in
  strftime_Ymd t +:+ " " +:+ pad2 (s / 3600) +:+ ":" +:+
  pad2 ((s mod 3600) / 60) +:+ ":" +:+ pad2 (s mod 60).

(** The instant at midnight that starts the civil date. *)
Definition midnight (y m d : Z) : Timestamp := days_from_civil y m d * NS_PER_DAY.

End Calendar.
Export Calendar.

(** ** Python values, exceptions and results *)

(** A cell of a [DataFrame] or an element of a [Series]. [VNone] is
    Python's [None], [VNaN] the float NaN that pandas uses for a missing
    number, [VNaT] the missing timestamp and [VNA] pandas' [<NA>]. *)
Inductive value : Type :=
| VNone
| VNaN
| VNaT
| VNA
| VInt (z : Z)
| VFloat (q : Q)
| VStr (s : string)
| VTimestamp (t : Timestamp).

Definition isna (v : value) : bool :=
  match v with
  | VNone | VNaN | VNaT | VNA => true
  | _ => false
  end.

(** The exception classes the program can meet. All of them derive from
    [Exception]; [Timeout] and [ConnectionError] derive from
    [RequestException], [ParserError] and [EmptyDataError] from
    [ValueError]. *)
Inductive ExcClass : Type :=
| Timeout
| ConnectionError
| RequestException
| KeyError
| ValueError
| TypeError
| ParserError
| EmptyDataError
| RuntimeError.

Record Exception : Type := mkException { exc_class : ExcClass; exc_str : string }.

Definition isinstance_Timeout (e : Exception) : bool :=
  match exc_class e with
  | Timeout => true
  | _ => false
  end.

Definition isinstance_RequestException (e : Exception) : bool :=
  match exc_class e with
  | Timeout | ConnectionError | RequestException => true
  | _ => false
  end.

Inductive PyResult (A : Type) : Type :=
| Ok (a : A)
| Raise (e : Exception).
Arguments Ok {A} a.
Arguments Raise {A} e.

(** ** Strings *)

Definition len (s : string) : Z := Z.of_nat (String.length s).

(** Characters removed by [str.strip()]: the code points below 256 for
    which [str.isspace()] holds. *)
Definition py_isspace (a : ascii) : bool :=
  let n := Z.of_N (N_of_ascii a) in
  ((9 <=? n) && (n <=? 13)) || ((28 <=? n) && (n <=? 32)) || (n =? 133) || (n =? 160).

Fixpoint lstrip (s : string) : string :=
  match s with
  | String a s' => if py_isspace a then lstrip s' else s
  | EmptyString => EmptyString
  end.

Definition strip (s : string) : string :=
  String.rev (lstrip (String.rev (lstrip s))).

(** [f"{x}"] for an [Optional[str]]. *)
Definition format_optional (o : option string) : string :=
  match o with
  | Some s => s
  | None => "None"
  end.

(** ** Data frames *)

(** A frame is its column index and its rows; a row maps column names to
    cells. Reading a column that the row does not hold gives NaN, which
    is how pandas fills ragged input. *)
Record DataFrame : Type := mkDataFrame {
  columns : list string;
  rows : list (gmap string value)
}.

Definition cell (r : gmap string value) (c : string) : value :=
  default VNaN (r !! c).

Definition has_column (df : DataFrame) (c : string) : bool :=
  bool_decide (c ∈ columns df).

(** [df[c]]: the column as a sequence, [KeyError] when [c] is not a
    column. *)
Definition getitem (df : DataFrame) (c : string) : PyResult (list value) :=
  if has_column df c then Ok ((λ r, cell r c) <$> rows df)
  else Raise (mkException KeyError c).

Definition add_column (cols : list string) (c : string) : list string :=
  if bool_decide (c ∈ cols) then cols else cols ++ [c].

(** [df[c] = series] *)
Definition setitem (df : DataFrame) (c : string) (vals : list value) : DataFrame :=
  {| columns := add_column (columns df) c;
     rows := zip_with (λ r v, <[c := v]> r) (rows df) vals |}.

(** [df[c] = scalar] *)
Definition setitem_scalar (df : DataFrame) (c : string) (v : value) : DataFrame :=
  {| columns := add_column (columns df) c;
     rows := (λ r, <[c := v]> r) <$> rows df |}.

(** [len(df)] *)
Definition df_len (df : DataFrame) : Z := Z.of_nat (length (rows df)).

(** [df.empty]: some axis has length zero. *)
Definition df_empty (df : DataFrame) : bool :=
  match columns df, rows df with
  | _ :: _, _ :: _ => false
  | _, _ => true
  end.

(** [df.to_dict(orient='records')]: one dict per row, keyed by the
    columns in index order. *)
Definition to_dict_records (df : DataFrame) : list (list (string * value)) :=
  (λ r, (λ c, (c, cell r c)) <$> columns df) <$> rows df.

(** [d.get(k)] on a dict kept as an association list. *)
Fixpoint dict_get {V : Type} (d : list (string * V)) (k : string) : option V :=
  match d with
  | [] => None
  | (k', v) :: d' => if bool_decide (k' = k) then Some v else dict_get d' k
  end.

(** The [.dt] accessor, element by element. *)
Definition dt_isocalendar_week (v : value) : value :=
  match v with
  | VTimestamp t => VInt (iso_week t)
  | _ => VNA
  end.

Definition dt_strftime_Ym (v : value) : value :=
  match v with
  | VTimestamp t => VStr (strftime_Ym t)
  | _ => VNaN
  end.

Definition dt_day_name (v : value) : value :=
  match v with
  | VTimestamp t => VStr (day_name t)
  | _ => VNaN
  end.

Definition of_datetime (o : option Timestamp) : value :=
  match o with
  | Some t => VTimestamp t
  | None => VNaT
  end.

(** The sort key of a datetime cell: [None] stands for NaT. *)
Definition sort_key (v : value) : option Timestamp :=
  match v with
  | VTimestamp t => Some t
  | _ => None
  end.

(** [a] may come before [b] in a descending order that keeps NaT last
    ([ascending=False], [na_position='last']). *)
Definition key_desc (a b : option Timestamp) : Prop :=
  match a, b with
  | _, None => True
  | None, Some _ => False
  | Some x, Some y => y ≤ x
  end.

#[global] Instance key_desc_dec : RelDecision key_desc.
Proof. intros [x|] [y|]; simpl; apply _. Defined.

(** ** The world outside the program *)

Record HTTPResponse : Type := mkHTTPResponse { status_code : Z; text : string }.

Record World : Type := mkWorld {
  (** [os.getenv("MAP_KEY")] *)
  environ_MAP_KEY : option string;
  (** the n-th reading of the wall clock ([datetime.now()], [today()]) *)
  wall_clock : nat → Timestamp;
  (** [requests.get(url, timeout=60)] *)
  requests_get : string → PyResult HTTPResponse;
  (** [pd.read_csv(StringIO(text))] *)
  pd_read_csv : string → PyResult DataFrame;
  (** [pd.to_datetime(series)] *)
  pd_to_datetime : list value → PyResult (list (option Timestamp));
  (** the indexer [sort_values(ascending=False)] computes from the key
      column with its default [kind='quicksort'] *)
  argsort_desc : list (option Timestamp) → list nat
}.

(** What pandas documents of these calls: [to_datetime] keeps the length
    of its argument; the indexer is a permutation of the positions that
    puts the keys in descending order, NaT last. Nothing is promised
    about the order of equal keys: [kind='quicksort'] is not stable. *)
Record pandas_contract (W : World) : Prop := mkContract {
  to_datetime_length : ∀ col ts,
    pd_to_datetime W col = Ok ts → length ts = length col;
  argsort_perm : ∀ keys, argsort_desc W keys ≡ₚ seq 0 (length keys);
  argsort_sorted : ∀ keys,
    StronglySorted key_desc ((λ i, keys !!! i) <$> argsort_desc W keys)
}.

(** [df.sort_values(by, ascending=False)] on a datetime column. *)
Definition sort_values_desc (W : World) (df : DataFrame) (by_ : string)
  : PyResult DataFrame :=
  match getitem df by_ with
  | Ok keys =>
      Ok {| columns := columns df;
            rows := (λ i, rows df !!! i) <$> argsort_desc W (sort_key <$> keys) |}
  | Raise e => Raise e
  end.

(** ** Effects: the log, the outbound requests, the clock *)

Inductive Level : Type := INFO | WARNING | ERROR.

Record LogRecord : Type := mkLog { levelname : Level; message : string }.

Record State : Type := mkState {
  log : list LogRecord;     (** records emitted so far, oldest first *)
  fetched : list string;    (** URLs requested so far, oldest first *)
  tick : nat                (** readings of the wall clock so far *)
}.

Definition M (A : Type) : Type := State → PyResult A * State.

Definition ret {A} (a : A) : M A := λ s, (Ok a, s).

Definition bind {A B} (m : M A) (f : A → M B) : M B :=
  λ s, match m s with
       | (Ok a, s') => f a s'
       | (Raise e, s') => (Raise e, s')
       end.

Definition lift {A} (r : PyResult A) : M A := λ s, (r, s).

(** [try: body / except Exception as e: handler e]; the clauses of the
    source are told apart inside [handler]. *)
Definition try_except {A} (body : M A) (handler : Exception → M A) : M A :=
  λ s, match body s with
       | (Ok a, s') => (Ok a, s')
       | (Raise e, s') => handler e s'
       end.

Declare Scope py_scope.
Delimit Scope py_scope with py.
Notation "x <- m ;; k" := (bind m (λ x, k))
  (at level 100, m at next level, right associativity) : py_scope.
Notation "m ;;; k" := (bind m (λ _, k))
  (at level 100, right associativity) : py_scope.
Open Scope py_scope.

Definition logger (lv : Level) (msg : string) : M unit :=
  λ s, (Ok tt, {| log := log s ++ [mkLog lv msg]; fetched := fetched s; tick := tick s |}).

Definition datetime_now (W : World) : M Timestamp :=
  λ s, (Ok (wall_clock W (tick s)),
        {| log := log s; fetched := fetched s; tick := S (tick s) |}).

Definition http_get (W : World) (url : string) : M HTTPResponse :=
  λ s, (requests_get W url,
        {| log := log s; fetched := fetched s ++ [url]; tick := tick s |}).

(** [traceback.format_exc()]; the stack frames are left out. *)
Definition format_exc (e : Exception) : string :=
  "Traceback (most recent call last): " +:+ exc_str e.

(** ** Module-level globals *)

Record Globals : Type := mkGlobals {
  MAP_KEY : option string;
  date_today : string
}.

(** What importing the module computes, once, when the process starts. *)
Definition load_module (W : World) : M Globals :=
  today <- datetime_now W ;;
  ret {| MAP_KEY := environ_MAP_KEY W; date_today := strftime_Ymd today |}.

Definition DAYS_DEFAULT : Z := 10.
Definition AREA_COORDS : string := "-53.1,-25.3,-44.1,-19.8".

(** ** [get_fire_data_brazil] *)

Definition expected_cols : list string :=
  ["latitude"; "longitude"; "bright_ti4"; "acq_date"; "acq_time";
   "confidence"; "frp"; "daynight"; "semana_ano"; "mes_ano"].

Definition build_url (G : Globals) (days : Z) : string :=
  "https://firms.modaps.eosdis.nasa.gov/api/area/csv/" +:+
  format_optional (MAP_KEY G) +:+ "/VIIRS_NOAA20_NRT/" +:+ AREA_COORDS +:+
  "/" +:+ pretty days +:+ "/" +:+ date_today G.

(** The loop [for c in expected_cols: if c not in df.columns: df[c] = None]. *)
Definition fill_expected (df : DataFrame) : DataFrame :=
  fold_left (λ df c, if has_column df c then df else setitem_scalar df c VNone)
            expected_cols df.

(** Lines 77-94: the reshaping of a non-empty parsed frame. *)
Definition transform (W : World) (df : DataFrame) : M DataFrame :=
  col <- lift (getitem df "acq_date") ;;
  ts <- lift (pd_to_datetime W col) ;;
  let df := setitem df "acq_date" (of_datetime <$> ts) in
  now <- datetime_now W ;;
  let df := setitem_scalar df "data_coleta" (VStr (strftime_YmdHMS now)) in
  acq <- lift (getitem df "acq_date") ;;
  let df := setitem df "semana_ano" (dt_isocalendar_week <$> acq) in
  acq <- lift (getitem df "acq_date") ;;
  let df := setitem df "mes_ano" (dt_strftime_Ym <$> acq) in
  acq <- lift (getitem df "acq_date") ;;
  let df := setitem df "dia_semana" (dt_day_name <$> acq) in
  df <- lift (sort_values_desc W df "acq_date") ;;
  let df := fill_expected df in
  logger INFO ("Collected " +:+ pretty (df_len df) +:+ " records") ;;;
  ret df.

(** Lines 60-94: the body of the [try]. *)
Definition fetch (W : World) (url : string) : M (option DataFrame) :=
  response <- http_get W url ;;
  logger INFO ("Status code: " +:+ pretty (status_code response) +:+
               " | size: " +:+ pretty (len (text response)) +:+ " bytes") ;;;
  if existsb (Z.eqb (status_code response)) [400; 403]
     || negb (status_code response =? 200)
  then
    logger ERROR ("HTTP Error " +:+ pretty (status_code response)) ;;;
    ret None
  else if len (strip (text response)) <? 10 then
    logger WARNING "Response too short / no data" ;;;
    ret None
  else
    df <- lift (pd_read_csv W (text response)) ;;
    if df_empty df then
      logger WARNING "Empty DataFrame" ;;;
      ret None
    else
      df <- transform W df ;;
      ret (Some df).

(** Lines 96-106: the three [except] clauses, tried in order. *)
Definition on_exception (e : Exception) : M (option DataFrame) :=
  if isinstance_Timeout e then
    logger ERROR "Timeout connecting to NASA FIRMS (60s)." ;;;
    ret None
  else if isinstance_RequestException e then
    logger ERROR ("Request error: " +:+ exc_str e) ;;;
    ret None
  else
    logger ERROR ("Unexpected error: " +:+ exc_str e) ;;;
    logger ERROR (format_exc e) ;;;
    ret None.

Definition get_fire_data_brazil (W : World) (G : Globals) (days : Z)
  : M (option DataFrame) :=
  days <- (if (days <? 1) || (days >? 10) then
             logger WARNING "Days out of range 1-10. Adjusting to 10." ;;;
             ret 10
           else ret days) ;;
  let url := build_url G days in
  logger INFO ("Requesting NASA FIRMS data: " +:+ url) ;;;
  try_except (fetch W url) on_exception.

(** ** Series reductions used by the handlers *)

(** [series.min()] and [series.max()] of a datetime column: NaT is
    skipped, and is the result when nothing else is there. *)
Definition datetime_min (col : list value) : option Timestamp :=
  match omap sort_key col with
  | [] => None
  | t :: ts => Some (fold_left Z.min ts t)
  end.

Definition datetime_max (col : list value) : option Timestamp :=
  match omap sort_key col with
  | [] => None
  | t :: ts => Some (fold_left Z.max ts t)
  end.

(** [x.strftime('%Y-%m-%d')] for [x] a [Timestamp] or NaT; NaT does not
    support [strftime]. *)
Definition timestamp_strftime_Ymd (x : option Timestamp) : PyResult string :=
  match x with
  | Some t => Ok (strftime_Ymd t)
  | None => Raise (mkException ValueError "NaTType does not support strftime")
  end.

Definition numeric (v : value) : option Q :=
  match v with
  | VInt z => Some (inject_Z z)
  | VFloat q => Some q
  | _ => None
  end.

Definition Qsum (l : list Q) : Q := fold_right Qplus 0%Q l.

(** [series.mean()] with the default [skipna=True]: missing values are
    left out, the mean of nothing is NaN, and a column holding text or
    timestamps cannot be averaged to a number. *)
Definition series_mean (col : list value) : PyResult value :=
  let present := filter (λ v, isna v = false) col in
  if forallb (λ v, bool_decide (is_Some (numeric v))) present then
    match omap numeric present with
    | [] => Ok VNaN
    | q :: qs => Ok (VFloat (Qred (Qsum (q :: qs) / inject_Z (Z.of_nat (length (q :: qs))))))
    end
  else Raise (mkException TypeError "Could not convert to numeric").

(** ** Python objects handed to the JSON encoder *)

#[warnings="-register-all"] Inductive PyValue : Type :=
| PyNone
| PyInt (z : Z)
| PyFloat (q : Q)
| PyNaN
| PyStr (s : string)
| PyDate (ordinal : Z)           (** [datetime.date], by its day number *)
| PyTimestamp (t : Timestamp)
| PyNaT
| PyNA
| PyList (l : list PyValue)
| PyDict (items : list (PyValue * PyValue)).

(** How [to_dict] boxes a cell. *)
Definition box (v : value) : PyValue :=
  match v with
  | VNone => PyNone
  | VNaN => PyNaN
  | VNaT => PyNaT
  | VNA => PyNA
  | VInt z => PyInt z
  | VFloat q => PyFloat q
  | VStr s => PyStr s
  | VTimestamp t => PyTimestamp t
  end.

Definition box_record (d : list (string * value)) : PyValue :=
  PyDict ((λ kv, (PyStr kv.1, box kv.2)) <$> d).

(** [float(x)] for [x] the result of a [mean()]. *)
Definition py_float (v : value) : PyResult PyValue :=
  match v with
  | VInt z => Ok (PyFloat (inject_Z z))
  | VFloat q => Ok (PyFloat q)
  | VNaN => Ok PyNaN
  | _ => Raise (mkException TypeError "float() argument must be a string or a real number")
  end.

(** A dict key [json.dumps] accepts: str, int, float, bool or None. *)
Definition json_key_ok (k : PyValue) : bool :=
  match k with
  | PyNone | PyInt _ | PyFloat _ | PyStr _ => true
  | _ => false
  end.

(** [json.dumps(content, allow_nan=False)], as [JSONResponse.render]
    calls it: the first error met going through [content] in order, if
    any. *)
Fixpoint json_dumps_error (v : PyValue) : option Exception :=
  match v with
  | PyNone | PyInt _ | PyFloat _ | PyStr _ => None
  | PyNaN =>
      Some (mkException ValueError "Out of range float values are not JSON compliant")
  | PyDate _ | PyTimestamp _ | PyNaT | PyNA =>
      Some (mkException TypeError "Object is not JSON serializable")
  | PyList l =>
      (fix go (l : list PyValue) : option Exception :=
         match l with
         | [] => None
         | x :: l' =>
             match json_dumps_error x with
             | Some e => Some e
             | None => go l'
             end
         end) l
  | PyDict items =>
      (fix go (items : list (PyValue * PyValue)) : option Exception :=
         match items with
         | [] => None
         | (k, x) :: items' =>
             if json_key_ok k then
               match json_dumps_error x with
               | Some e => Some e
               | None => go items'
               end
             else Some (mkException TypeError "keys must be str, int, float, bool or None")
         end) items
  end.

(** ** HTTP replies *)

Record Reply : Type := mkReply {
  status : Z;
  content : PyValue;
  headers : list (string * string)
}.

(** [JSONResponse(content=..., headers=...)]: the body is rendered when
    the response object is built, so an object that cannot be encoded
    raises there; the status is the default 200. *)
Definition JSONResponse (c : PyValue) (hs : list (string * string)) : M Reply :=
  match json_dumps_error c with
  | Some e => lift (Raise e)
  | None => ret {| status := 200; content := c; headers := hs |}
  end.

Definition CORS : list (string * string) := [("Access-Control-Allow-Origin", "*")].

(** [series.groupby(keys).size().to_dict()]: one entry per distinct key,
    keys in ascending order, missing keys dropped. *)
Fixpoint count_key (k : Z) (acc : list (Z * Z)) : list (Z * Z) :=
  match acc with
  | [] => [(k, 1)]
  | (k', n) :: acc' =>
      if k <? k' then (k, 1) :: acc
      else if k =? k' then (k', n + 1) :: acc'
      else (k', n) :: count_key k acc'
  end.

Definition groupby_size (keys : list (option Z)) : list (Z * Z) :=
  fold_left (λ acc k, match k with Some k => count_key k acc | None => acc end)
            keys [].

(** [series.dt.date], as a group key. *)
Definition dt_date (v : value) : option Z :=
  match v with
  | VTimestamp t => Some (epoch_day t)
  | _ => None
  end.

Definition week_key (v : value) : option Z :=
  match v with
  | VInt w => Some w
  | _ => None
  end.

(** ** The handlers *)

Definition fallback_metadata (days : Z) (now : Timestamp) : PyValue :=
  PyDict [(PyStr "total_records", PyInt 0);
          (PyStr "period_start", PyNone);
          (PyStr "period_end", PyNone);
          (PyStr "requested_days", PyInt days);
          (PyStr "collection_timestamp", PyStr (strftime_YmdHMS now));
          (PyStr "source", PyStr "NASA FIRMS VIIRS_NOAA20_NRT");
          (PyStr "coordinates", PyStr AREA_COORDS)].

Definition fallback (days : Z) (now : Timestamp) : PyValue :=
  PyDict [(PyStr "metadata", fallback_metadata days now);
          (PyStr "data", PyList [])].

Definition is_usable (df : option DataFrame) : option DataFrame :=
  match df with
  | Some d => if negb (df_empty d) then Some d else None
  | None => None
  end.

(** [GET /fire_data_brazil] *)
Definition read_fire_data (W : World) (G : Globals) (days : Z) : M Reply :=
  df <- get_fire_data_brazil W G days ;;
  match is_usable df with
  | Some df =>
      let data := box_record <$> to_dict_records df in
      acq <- lift (getitem df "acq_date") ;;
      period_start <- lift (timestamp_strftime_Ymd (datetime_min acq)) ;;
      acq <- lift (getitem df "acq_date") ;;
      period_end <- lift (timestamp_strftime_Ymd (datetime_max acq)) ;;
      now <- datetime_now W ;;
      let metadata :=
        PyDict [(PyStr "total_records", PyInt (df_len df));
                (PyStr "period_start", PyStr period_start);
                (PyStr "period_end", PyStr period_end);
                (PyStr "requested_days", PyInt days);
                (PyStr "collection_timestamp", PyStr (strftime_YmdHMS now));
                (PyStr "source", PyStr "NASA FIRMS VIIRS_NOAA20_NRT");
                (PyStr "coordinates", PyStr AREA_COORDS)] in
      JSONResponse (PyDict [(PyStr "metadata", metadata); (PyStr "data", PyList data)]) CORS
  | None =>
      now <- datetime_now W ;;
      JSONResponse (fallback days now) CORS
  end.

Definition empty_summary : PyValue :=
  PyDict [(PyStr "overall_summary", PyDict []);
          (PyStr "by_day", PyDict []);
          (PyStr "by_week", PyDict [])].

(** The dict [summary] that [fire_data_summary] builds on success. *)
Definition summary_of (df : DataFrame) : M PyValue :=
  acq <- lift (getitem df "acq_date") ;;
  period_start <- lift (timestamp_strftime_Ymd (datetime_min acq)) ;;
  acq <- lift (getitem df "acq_date") ;;
  period_end <- lift (timestamp_strftime_Ymd (datetime_max acq)) ;;
  bright <- lift (getitem df "bright_ti4") ;;
  bright_mean <- lift (series_mean bright) ;;
  avg_brightness <- lift (py_float bright_mean) ;;
  avg_radiative_power <-
    (if has_column df "frp" then
       frp <- lift (getitem df "frp") ;;
       frp_mean <- lift (series_mean frp) ;;
       lift (py_float frp_mean)
     else ret PyNone) ;;
  acq <- lift (getitem df "acq_date") ;;
  let by_day := (λ kn, (PyDate kn.1, PyInt kn.2)) <$> groupby_size (dt_date <$> acq) in
  week <- lift (getitem df "semana_ano") ;;
  let by_week := (λ kn, (PyInt kn.1, PyInt kn.2)) <$> groupby_size (week_key <$> week) in
  ret (PyDict
         [(PyStr "overall_summary",
           PyDict [(PyStr "total_fires", PyInt (df_len df));
                   (PyStr "period_start", PyStr period_start);
                   (PyStr "period_end", PyStr period_end);
                   (PyStr "avg_brightness", avg_brightness);
                   (PyStr "avg_radiative_power", avg_radiative_power)]);
          (PyStr "by_day", PyDict by_day);
          (PyStr "by_week", PyDict by_week)]).

(** [GET /fire_data_brazil/summary] *)
Definition fire_data_summary (W : World) (G : Globals) (days : Z) : M Reply :=
  df <- get_fire_data_brazil W G days ;;
  match is_usable df with
  | Some df =>
      summary <- summary_of df ;;
      JSONResponse summary CORS
  | None => JSONResponse empty_summary CORS
  end.

(** ** The routes *)

(** [Query(default=DAYS_DEFAULT, ge=1, le=10)] on an integer parameter. *)
Definition validate_days (q : option Z) : option Z :=
  match q with
  | None => Some DAYS_DEFAULT
  | Some d => if (1 <=? d) && (d <=? 10) then Some d else None
  end.

(** What the server sends for a request to a route: 422 when the query
    is rejected, the handler's response when it returns one, 500 when it
    lets an exception through. *)
Definition serve (handler : Z → M Reply) (q : option Z) (s : State) : Reply * State :=
  match validate_days q with
  | None =>
      ({| status := 422;
          content := PyDict [(PyStr "detail", PyStr "value is not in the range 1..10")];
          headers := [] |}, s)
  | Some d =>
      match handler d s with
      | (Ok r, s') => (r, s')
      | (Raise _, s') =>
          ({| status := 500; content := PyStr "Internal Server Error"; headers := [] |}, s')
      end
  end.

(** ** Reference instances of the library calls

    Small executable stand-ins for the third-party calls, used to run
    the program on concrete feeds. [simple_read_csv] reads unquoted
    comma-separated text with a header line; [iso_to_datetime] accepts
    the feed's [YYYY-MM-DD] dates and missing cells;
    [nargsort_desc] is the indexer pandas computes for
    [sort_values(ascending=False)] with numpy's default quicksort. *)

Fixpoint split_on (sep : ascii) (cur : string) (s : string) : list string :=
  match s with
  | EmptyString => [String.rev cur]
  | String a s' =>
      if bool_decide (a = sep) then String.rev cur :: split_on sep EmptyString s'
      else split_on sep (String a cur) s'
  end.

Definition digit (a : ascii) : option Z :=
  let n := Z.of_N (N_of_ascii a) in
  if (48 <=? n) && (n <=? 57) then Some (n - 48) else None.

Fixpoint digits (acc : Z) (s : string) : option Z :=
  match s with
  | EmptyString => Some acc
  | String a s' =>
      match digit a with
      | Some d => digits (10 * acc + d) s'
      | None => None
      end
  end.

Definition natural (s : string) : option Z :=
  match s with
  | EmptyString => None
  | _ => digits 0 s
  end.

Definition unsigned_number (s : string) : option value :=
  match split_on "." EmptyString s with
  | [i] => VInt <$> natural i
  | [i; f] =>
      match natural i, natural f with
      | Some a, Some b =>
          let scale := 10 ^ Z.of_nat (String.length f) in
          Some (VFloat (Qred (Qmake (a * scale + b) (Z.to_pos scale))))
      | _, _ => None
      end
  | _ => None
  end.

Definition negate (v : value) : value :=
  match v with
  | VInt z => VInt (- z)
  | VFloat q => VFloat (Qopp q)
  | _ => v
  end.

Definition parse_cell (s : string) : value :=
  match s with
  | EmptyString => VNaN
  | String "-" s' =>
      match unsigned_number s' with
      | Some v => negate v
      | None => VStr s
      end
  | _ => default (VStr s) (unsigned_number s)
  end.

Definition parse_row (header : list string) (line : string) : gmap string value :=
  list_to_map (zip header (parse_cell <$> split_on "," EmptyString line)).

Definition simple_read_csv (txt : string) : PyResult DataFrame :=
  match filter (λ l, l ≠ EmptyString) (split_on "010" EmptyString txt) with
  | [] => Raise (mkException EmptyDataError "No columns to parse from file")
  | header :: lines =>
      let cols := split_on "," EmptyString header in
      Ok {| columns := cols; rows := parse_row cols <$> lines |}
  end.

Definition days_in_month (y m : Z) : Z :=
  if m =? 2 then (if is_leap y then 29 else 28)
  else if (m =? 4) || (m =? 6) || (m =? 9) || (m =? 11) then 30
  else 31.

Definition iso_date (s : string) : option Timestamp :=
  match split_on "-" EmptyString s with
  | [ys; ms; ds] =>
      match natural ys, natural ms, natural ds with
      | Some y, Some m, Some d =>
          if (String.length ys =? 4)%nat && (String.length ms =? 2)%nat
             && (String.length ds =? 2)%nat
             && (1 <=? m) && (m <=? 12) && (1 <=? d) && (d <=? days_in_month y m)
          then Some (midnight y m d) else None
      | _, _, _ => None
      end
  | _ => None
  end.

Definition iso_to_datetime_cell (v : value) : PyResult (option Timestamp) :=
  match v with
  | VTimestamp t => Ok (Some t)
  | VStr s =>
      match iso_date s with
      | Some t => Ok (Some t)
      | None => Raise (mkException ValueError ("Unknown datetime string format: " +:+ s))
      end
  | VNone | VNaN | VNaT | VNA => Ok None
  | VInt _ | VFloat _ =>
      Raise (mkException ValueError "numeric dates are outside this reader")
  end.

Fixpoint iso_to_datetime (col : list value) : PyResult (list (option Timestamp)) :=
  match col with
  | [] => Ok []
  | v :: col' =>
      match iso_to_datetime_cell v, iso_to_datetime col' with
      | Ok t, Ok ts => Ok (t :: ts)
      | Raise e, _ => Raise e
      | _, Raise e => Raise e
      end
  end.

(** *** numpy's [argsort(kind='quicksort')]

    The sort works on an array [arr] of positions, compared through
    their keys [v]. A segment [pl..pr] of fewer than 17 positions is
    sorted by insertion; a longer one is partitioned around the median
    of its first, middle and last keys, and both sides are sorted in
    turn. *)

(** [INTP_SWAP(arr[i], arr[j])]. *)
Definition intp_swap (arr : list nat) (i j : nat) : list nat :=
  <[i := arr !!! j]> (<[j := arr !!! i]> arr).

(** [if (v[arr[i]] < v[arr[j]]) INTP_SWAP(arr[i], arr[j])]. *)
Definition swap_if_less (v : nat → Z) (arr : list nat) (i j : nat) : list nat :=
  if v (arr !!! i) <? v (arr !!! j) then intp_swap arr i j else arr.

(** [do ++pi; while (v[arr[pi]] < vp)]: the position where the scan
    stops. *)
Fixpoint scan_up (v : nat → Z) (vp : Z) (arr : list nat) (fuel pi : nat) : nat :=
  match fuel with
  | O => S pi
  | S f => if v (arr !!! S pi) <? vp then scan_up v vp arr f (S pi) else S pi
  end.

(** [do --pj; while (vp < v[arr[pj]])]. *)
Fixpoint scan_down (v : nat → Z) (vp : Z) (arr : list nat) (fuel pj : nat) : nat :=
  match fuel with
  | O => pred pj
  | S f => if vp <? v (arr !!! pred pj) then scan_down v vp arr f (pred pj) else pred pj
  end.

(** The loop that scans up, scans down, stops when [pi >= pj] and
    else swaps [arr[pi]] and [arr[pj]]; it gives the array and the final
    [pi]. *)
Fixpoint hoare_loop (v : nat → Z) (vp : Z) (fuel : nat) (arr : list nat) (pi pj : nat)
  : list nat * nat :=
  match fuel with
  | O => (arr, pi)
  | S f =>
      let pi' := scan_up v vp arr (length arr) pi in
      let pj' := scan_down v vp arr (length arr) pj in
      if (pj' <=? pi')%nat then (arr, pi')
      else hoare_loop v vp f (intp_swap arr pi' pj') pi' pj'
  end.

(** One partition step on the segment [pl..pr]: the median of three
    goes to [pr - 1], the loop runs between [pl] and [pr - 1], and the
    pivot is put back at the position [pi] where the scans met. *)
Definition partition (v : nat → Z) (arr : list nat) (pl pr : nat) : list nat * nat :=
  let pm := (pl + (pr - pl) / 2)%nat in
  let arr := swap_if_less v arr pm pl in
  let arr := swap_if_less v arr pr pm in
  let arr := swap_if_less v arr pm pl in
  let vp := v (arr !!! pm) in
  let arr := intp_swap arr pm (pr - 1) in
  let '(arr, pi) := hoare_loop v vp (length arr) arr pl (pr - 1) in
  (intp_swap arr pi (pr - 1), pi).

(** The insertion sort of a segment. The sorted prefix is kept with its
    last element first; a new position moves left past the positions of
    strictly greater key. *)
Fixpoint insert_right (v : nat → Z) (x : nat) (rp : list nat) : list nat :=
  match rp with
  | [] => [x]
  | y :: rest => if v x <? v y then y :: insert_right v x rest else x :: rp
  end.

Definition insertion_sort (v : nat → Z) (seg : list nat) : list nat :=
  reverse (fold_left (λ rp x, insert_right v x rp) seg []).

(** The positions [pl..pr] of [arr]. *)
Definition segment (arr : list nat) (pl pr : nat) : list nat :=
  take (S pr - pl) (drop pl arr).

Definition sort_small (v : nat → Z) (arr : list nat) (pl pr : nat) : list nat :=
  (take pl arr ++ insertion_sort v (segment arr pl pr) ++ drop (S pr) arr)%list.

(** The sort of the segment [pl..pr]. numpy keeps the pending segments
    on a stack; [cdepth] is its depth allowance, [2 * floor(log2 n)],
    after which it gives the segment to a heap sort: the insertion sort
    stands in for the heap sort here, and can differ from it only in
    the order of equal keys. *)
Fixpoint aquicksort_from (v : nat → Z) (fuel : nat) (cdepth : Z) (arr : list nat)
    (pl pr : nat) : list nat :=
  match fuel with
  | O => sort_small v arr pl pr
  | S f =>
      if cdepth <? 0 then sort_small v arr pl pr
      else if (16 <=? pr - pl)%nat then
        let '(arr, pi) := partition v arr pl pr in
        let arr := aquicksort_from v f (cdepth - 1) arr pl (pi - 1) in
        aquicksort_from v f (cdepth - 1) arr (pi + 1) pr
      else sort_small v arr pl pr
  end.

(** [np.argsort(keys, kind='quicksort')]: the positions of [keys] in
    ascending order of key. *)
Definition np_argsort (keys : list Z) : list nat :=
  let n := length keys in
  aquicksort_from (λ i, keys !!! i) n (2 * Z.log2 (Z.of_nat n)) (seq 0 n) 0 (n - 1).

(** *** pandas' [nargsort(items, ascending=False, na_position='last')]

    The positions of the keys that are not NaT are reversed, sorted
    ascending with numpy's quicksort and reversed again; the positions
    of the NaT keys follow, in input order. *)
Definition nargsort_desc (keys : list (option Timestamp)) : list nat :=
  let idx := seq 0 (length keys) in
  let non_nan_idx := filter (λ i, is_Some (keys !!! i)) idx in
  let nan_idx := filter (λ i, ¬ is_Some (keys !!! i)) idx in
  let rev_idx := reverse non_nan_idx in
  let rev_keys := (λ i, default 0 (keys !!! i)) <$> rev_idx in
  (reverse ((λ j, rev_idx !!! j) <$> np_argsort rev_keys) ++ nan_idx)%list.

(** *** What it is for a segment to be sorted in place *)

(** [out] is [arr] with the positions [pl..pr] rearranged. *)
Record rearranged (pl pr : nat) (arr out : list nat) : Prop := mkRearranged {
  re_length : length out = length arr;
  re_perm : out ≡ₚ arr;
  re_outside : ∀ i, (i < pl ∨ pr < i)%nat → out !! i = arr !! i
}.

(** The segment [pl..pr] of [out] holds what it held in [arr], in
    ascending order of key; the rest of the array is as it was. *)
Definition sorts (v : nat → Z) (pl pr : nat) (arr out : list nat) : Prop :=
  rearranged pl pr arr out ∧ StronglySorted (λ a b, v a ≤ v b) (segment out pl pr).

(** A world whose upstream gives the same answer to every request, with
    a clock that advances one second per reading. *)
Definition world (start : Timestamp) (answer : PyResult HTTPResponse)
    (indexer : list (option Timestamp) → list nat) : World :=
  {| environ_MAP_KEY := Some "KEY";
     wall_clock := λ n, start + Z.of_nat n * NS_PER_SECOND;
     requests_get := λ _, answer;
     pd_read_csv := simple_read_csv;
     pd_to_datetime := iso_to_datetime;
     argsort_desc := indexer |}.

Definition s0 : State := {| log := []; fetched := []; tick := 0 |}.

Definition newline : string := String "010" EmptyString.

Definition unlines (ls : list string) : string :=
  fold_right (λ l acc, l +:+ newline +:+ acc) "" ls.

(** ** The reshaping as a function

    [transform] run on a frame whose [acq_date] column parses; the
    theorems below go through these. *)

Definition column (df : DataFrame) (c : string) : list value :=
  (λ r, cell r c) <$> rows df.

(** Lines 77-81, before the sort. *)
Definition derive (now : Timestamp) (df : DataFrame) (ts : list (option Timestamp))
  : DataFrame :=
  let df := setitem df "acq_date" (of_datetime <$> ts) in
  let df := setitem_scalar df "data_coleta" (VStr (strftime_YmdHMS now)) in
  let df := setitem df "semana_ano" (dt_isocalendar_week <$> column df "acq_date") in
  let df := setitem df "mes_ano" (dt_strftime_Ym <$> column df "acq_date") in
  setitem df "dia_semana" (dt_day_name <$> column df "acq_date").

(** The positions of the rows of [df], in the order line 82 puts them. *)
Definition row_order (W : World) (df : DataFrame) : list nat :=
  argsort_desc W (sort_key <$> column df "acq_date").

Definition reorder (df : DataFrame) (idx : list nat) : DataFrame :=
  {| columns := columns df; rows := (λ i, rows df !!! i) <$> idx |}.

Definition reshape (W : World) (now : Timestamp) (df : DataFrame)
    (ts : list (option Timestamp)) : DataFrame :=
  let d := derive now df ts in
  fill_expected (reorder d (row_order W d)).

(** The records a caller gets out of the result: none for the "no data"
    signal. *)
Definition records_of (r : option DataFrame) : list (list (string * value)) :=
  match r with
  | Some df => to_dict_records df
  | None => []
  end.

Definition record_key (rec : list (string * value)) : option Timestamp :=
  sort_key (default VNaT (dict_get rec "acq_date")).

(** The value of [days] after lines 49-51. *)
Definition clamp_days (days : Z) : Z :=
  if (days <? 1) || (days >? 10) then 10 else days.

Definition add_log (s : State) (l : list LogRecord) : State :=
  {| log := log s ++ l; fetched := fetched s; tick := tick s |}.


(** ** Feed outcomes

    The ways a fetch at [url] can go, read off the answers of the
    outside world. *)

(** The upstream answered 200 with a body of at least ten characters
    after trimming, and the body parsed to the frame [df]. *)
Inductive feed_parsed (W : World) (url : string) (df : DataFrame) : Prop :=
| Parsed (r : HTTPResponse)
    (Hget : requests_get W url = Ok r)
    (Hstatus : status_code r = 200)
    (Hlen : 10 ≤ len (strip (text r)))
    (Hcsv : pd_read_csv W (text r) = Ok df).

Inductive feed_failure (W : World) (url : string) : Prop :=
| upstream_unreachable (e : Exception)
    (Hget : requests_get W url = Raise e)
| non_200_status (r : HTTPResponse)
    (Hget : requests_get W url = Ok r)
    (Hstatus : status_code r ≠ 200)
| too_short_body (r : HTTPResponse)
    (Hget : requests_get W url = Ok r)
    (Hstatus : status_code r = 200)
    (Hlen : len (strip (text r)) < 10)
| csv_parse_error (r : HTTPResponse) (e : Exception)
    (Hget : requests_get W url = Ok r)
    (Hstatus : status_code r = 200)
    (Hlen : 10 ≤ len (strip (text r)))
    (Hcsv : pd_read_csv W (text r) = Raise e)
| empty_table (df : DataFrame)
    (Hparsed : feed_parsed W url df)
    (Hempty : df_empty df = true)
| acq_date_missing (df : DataFrame)
    (Hparsed : feed_parsed W url df)
    (Hempty : df_empty df = false)
    (Hcol : "acq_date" ∉ columns df)
| acq_date_unparseable (df : DataFrame) (e : Exception)
    (Hparsed : feed_parsed W url df)
    (Hempty : df_empty df = false)
    (Hcol : "acq_date" ∈ columns df)
    (Hdates : pd_to_datetime W (column df "acq_date") = Raise e).

(** The body parsed to a non-empty frame whose [acq_date] column parsed
    to the timestamps [ts]. *)
Record feed_success (W : World) (url : string) (df : DataFrame)
    (ts : list (option Timestamp)) : Prop := mkSuccess {
  success_parsed : feed_parsed W url df;
  success_nonempty : df_empty df = false;
  success_column : "acq_date" ∈ columns df;
  success_dates : pd_to_datetime W (column df "acq_date") = Ok ts
}.

(** The records logged before the request goes out. *)
Definition preamble (G : Globals) (days : Z) : list LogRecord :=
  (if (days <? 1) || (days >? 10)
   then [mkLog WARNING "Days out of range 1-10. Adjusting to 10."] else []) ++
  [mkLog INFO ("Requesting NASA FIRMS data: " +:+ build_url G (clamp_days days))].

Definition status_line (r : HTTPResponse) : LogRecord :=
  mkLog INFO ("Status code: " +:+ pretty (status_code r) +:+
              " | size: " +:+ pretty (len (text r)) +:+ " bytes").

Definition sent (s : State) (url : string) : State :=
  {| log := log s; fetched := fetched s ++ [url]; tick := tick s |}.

(** What lines 77-81 do to one row whose date parsed to [t]. *)
Definition enrich (now : Timestamp) (r : gmap string value) (t : option Timestamp)
  : gmap string value :=
  <["dia_semana" := dt_day_name (of_datetime t)]>
    (<["mes_ano" := dt_strftime_Ym (of_datetime t)]>
      (<["semana_ano" := dt_isocalendar_week (of_datetime t)]>
        (<["data_coleta" := VStr (strftime_YmdHMS now)]>
          (<["acq_date" := of_datetime t]> r)))).

(** What the loop of lines 89-91 does to the column index and to one
    row, [cols] being the columns present when the loop starts. *)
Fixpoint fill_columns (cols cs : list string) : list string :=
  match cs with
  | [] => cols
  | c :: cs' => fill_columns (add_column cols c) cs'
  end.

Fixpoint fill_row (cols cs : list string) (r : gmap string value) : gmap string value :=
  match cs with
  | [] => r
  | c :: cs' =>
      if bool_decide (c ∈ cols) then fill_row cols cs' r
      else fill_row (add_column cols c) cs' (<[c := VNone]> r)
  end.

(** ** Reading a response *)

(** [d[k]] for a string key of a dict handed to the encoder. *)
Definition py_item (v : PyValue) (k : string) : option PyValue :=
  match v with
  | PyDict items =>
      (fix go (items : list (PyValue * PyValue)) : option PyValue :=
         match items with
         | [] => None
         | (PyStr k', x) :: items' => if bool_decide (k' = k) then Some x else go items'
         | _ :: items' => go items'
         end) items
  | _ => None
  end.

Definition py_path (v : PyValue) (k1 k2 : string) : option PyValue :=
  match py_item v k1 with
  | Some d => py_item d k2
  | None => None
  end.

(** ** Sample feeds *)

(** Three detections on the dates D1, D1, D2 = 2024-01-02, 2024-01-02,
    2024-01-03, with every column of the feed. *)
Definition csv_three_rows : string :=
  unlines ["latitude,longitude,bright_ti4,acq_date,acq_time,confidence,frp,daynight";
           "-20.5,-50.25,330.5,2024-01-02,1630,n,4.5,D";
           "-21.5,-51.25,310.5,2024-01-02,1631,h,5.5,D";
           "-22.5,-52.25,300.0,2024-01-03,430,l,2.0,N"].

(** The same feed without the [frp] column. *)
Definition csv_without_frp : string :=
  unlines ["latitude,longitude,bright_ti4,acq_date,acq_time,confidence,daynight";
           "-20.5,-50.25,330.5,2024-01-02,1630,n,D";
           "-21.5,-51.25,310.5,2024-01-02,1631,h,D";
           "-22.5,-52.25,300.0,2024-01-03,430,l,N"].

(** The same feed without the [bright_ti4] column. *)
Definition csv_without_bright_ti4 : string :=
  unlines ["latitude,longitude,acq_date,acq_time,confidence,frp,daynight";
           "-20.5,-50.25,2024-01-02,1630,n,4.5,D";
           "-21.5,-51.25,2024-01-02,1631,h,5.5,D";
           "-22.5,-52.25,2024-01-03,430,l,2.0,N"].

(** Two detections of the same day. *)
Definition csv_same_day : string :=
  unlines ["latitude,acq_date"; "1,2024-01-02"; "2,2024-01-02"].

(** Seventeen detections of the same day, numbered 1 to 17 by their
    latitude. *)
Definition csv_seventeen_same_day : string :=
  unlines ["latitude,acq_date";
           "1,2024-01-02"; "2,2024-01-02"; "3,2024-01-02"; "4,2024-01-02";
           "5,2024-01-02"; "6,2024-01-02"; "7,2024-01-02"; "8,2024-01-02";
           "9,2024-01-02"; "10,2024-01-02"; "11,2024-01-02"; "12,2024-01-02";
           "13,2024-01-02"; "14,2024-01-02"; "15,2024-01-02"; "16,2024-01-02";
           "17,2024-01-02"].

(** The process starts on 2024-01-05 at 23:59:59, so the first request
    is answered on the next day. *)
Definition start_time : Timestamp := midnight 2024 1 5 + 86399 * NS_PER_SECOND.

Definition upstream_200 (body : string) : PyResult HTTPResponse :=
  Ok (mkHTTPResponse 200 body).

Definition upstream_down : PyResult HTTPResponse :=
  Raise (mkException ConnectionError "Connection refused").

(** The globals of a process started in [W], and the state the first
    request finds. *)
Definition started (W : World) : Globals * State :=
  match load_module W s0 with
  | (Ok G, s) => (G, s)
  | (Raise _, s) => ({| MAP_KEY := None; date_today := "" |}, s)
  end.

Definition D1 : Z := days_from_civil 2024 1 2.
Definition D2 : Z := days_from_civil 2024 1 3.

(** ** Sample worlds *)

Definition world_down : World :=
  world start_time upstream_down nargsort_desc.

Definition world_three_rows : World :=
  world start_time (upstream_200 csv_three_rows) nargsort_desc.

Definition world_without_frp : World :=
  world start_time (upstream_200 csv_without_frp) nargsort_desc.

Definition world_without_bright_ti4 : World :=
  world start_time (upstream_200 csv_without_bright_ti4) nargsort_desc.

Definition world_same_day : World :=
  world start_time (upstream_200 csv_same_day) nargsort_desc.

Definition world_seventeen_same_day : World :=
  world start_time (upstream_200 csv_seventeen_same_day) nargsort_desc.

(** The result and the final state of a run. *)
Definition returned {A} (x : PyResult A * State) : PyResult A := x.1.
Definition final {A} (x : PyResult A * State) : State := x.2.

(** What [simple_read_csv] makes of [csv_three_rows]. *)
Definition frame_three_rows : DataFrame :=
  {| columns := ["latitude"; "longitude"; "bright_ti4"; "acq_date"; "acq_time";
                 "confidence"; "frp"; "daynight"];
     rows := parse_row ["latitude"; "longitude"; "bright_ti4"; "acq_date"; "acq_time";
                        "confidence"; "frp"; "daynight"]
             <$> ["-20.5,-50.25,330.5,2024-01-02,1630,n,4.5,D";
                  "-21.5,-51.25,310.5,2024-01-02,1631,h,5.5,D";
                  "-22.5,-52.25,300.0,2024-01-03,430,l,2.0,N"] |}.

Definition dates_three_rows : list (option Timestamp) :=
  [Some (midnight 2024 1 2); Some (midnight 2024 1 2); Some (midnight 2024 1 3)].

(** What [simple_read_csv] makes of [csv_without_frp]. *)
Definition frame_without_frp : DataFrame :=
  {| columns := ["latitude"; "longitude"; "bright_ti4"; "acq_date"; "acq_time";
                 "confidence"; "daynight"];
     rows := parse_row ["latitude"; "longitude"; "bright_ti4"; "acq_date"; "acq_time";
                        "confidence"; "daynight"]
             <$> ["-20.5,-50.25,330.5,2024-01-02,1630,n,D";
                  "-21.5,-51.25,310.5,2024-01-02,1631,h,D";
                  "-22.5,-52.25,300.0,2024-01-03,430,l,N"] |}.

(** The latitudes 1 to 17 of [csv_seventeen_same_day], as read. *)
Definition latitudes_seventeen : list value :=
  VInt <$> [1; 2; 3; 4; 5; 6; 7; 8; 9; 10; 11; 12; 13; 14; 15; 16; 17].

(** A 200 answer of twelve blanks and line ends. *)
Definition blank_body : string :=
  "     " +:+ newline +:+ "     " +:+ newline.

Definition world_blank : World :=
  world start_time (upstream_200 blank_body) nargsort_desc.

(** Two detections whose [acq_date] cell is empty. *)
Definition csv_no_dates : string :=
  unlines ["latitude,acq_date"; "1,"; "2,"].

Definition world_no_dates : World :=
  world start_time (upstream_200 csv_no_dates) nargsort_desc.

Definition frame_no_dates : DataFrame :=
  {| columns := ["latitude"; "acq_date"];
     rows := parse_row ["latitude"; "acq_date"] <$> ["1,"; "2,"] |}.

(** ** Counting *)

(** The count a [groupby(...).size()] result holds for a key, 0 when
    the key is not there. *)
Fixpoint count_of (d : list (Z * Z)) (k : Z) : Z :=
  match d with
  | [] => 0
  | (k', n) :: d' => if k =? k' then n else count_of d' k
  end.

(** The number of elements of [keys] that are the key [k]. *)
Fixpoint occurrences (k : Z) (keys : list (option Z)) : Z :=
  match keys with
  | [] => 0
  | Some k' :: keys' => (if k =? k' then 1 else 0) + occurrences k keys'
  | None :: keys' => occurrences k keys'
  end.

(** The frame [get_fire_data_brazil] returns for [csv_three_rows] and
    the summary dict built from it. *)
Definition returned_three_rows : DataFrame :=
  reshape world_three_rows
    (wall_clock world_three_rows (tick (started world_three_rows).2))
    frame_three_rows dates_three_rows.

Definition summary_three_rows : PyValue :=
  PyDict
    [(PyStr "overall_summary",
      PyDict [(PyStr "total_fires", PyInt 3);
              (PyStr "period_start", PyStr "2024-01-02");
              (PyStr "period_end", PyStr "2024-01-03");
              (PyStr "avg_brightness", PyFloat (941 # 3));
              (PyStr "avg_radiative_power", PyFloat (4 # 1))]);
     (PyStr "by_day", PyDict [(PyDate D1, PyInt 2); (PyDate D2, PyInt 1)]);
     (PyStr "by_week", PyDict [(PyInt 1, PyInt 3)])].

(** The records the [except] clauses log for the exception [e]. *)
Definition exception_report (e : Exception) : list LogRecord :=
  match exc_class e with
  | Timeout => [mkLog ERROR "Timeout connecting to NASA FIRMS (60s)."]
  | ConnectionError | RequestException =>
      [mkLog ERROR ("Request error: " +:+ exc_str e)]
  | _ => [mkLog ERROR ("Unexpected error: " +:+ exc_str e);
          mkLog ERROR (format_exc e)]
  end.

Definition upstream_timeout : PyResult HTTPResponse :=
  Raise (mkException Timeout "Read timed out. (read timeout=60)").

Definition world_timeout : World :=
  world start_time upstream_timeout nargsort_desc.
(** * Properties *)

(** ** Columns *)

Lemma elem_of_add_column (cols : list string) (c c' : string) :
  c ∈ add_column cols c' ↔ c ∈ cols ∨ c = c'.
Proof.
  unfold add_column. case_bool_decide.
  - split; [auto | intros [?| ->]; auto].
  - rewrite elem_of_app, list_elem_of_singleton. tauto.
Qed.

Lemma has_column_true (df : DataFrame) (c : string) :
  has_column df c = true ↔ c ∈ columns df.
Proof. unfold has_column. apply bool_decide_eq_true. Qed.

Lemma getitem_column (df : DataFrame) (c : string) :
  c ∈ columns df → getitem df c = Ok (column df c).
Proof.
  intros H. unfold getitem. apply has_column_true in H. rewrite H. reflexivity.
Qed.

Lemma getitem_Ok (df : DataFrame) (c : string) (col : list value) :
  getitem df c = Ok col → c ∈ columns df ∧ col = column df c.
Proof.
  unfold getitem. destruct (has_column df c) eqn:E; [|discriminate].
  intros [= <-]. split; [by apply has_column_true | reflexivity].
Qed.

Lemma getitem_Raise (df : DataFrame) (c : string) (e : Exception) :
  getitem df c = Raise e → c ∉ columns df.
Proof.
  unfold getitem. destruct (has_column df c) eqn:E; [discriminate|].
  intros _ Hin. apply has_column_true in Hin. congruence.
Qed.

Lemma acq_date_in_derive now df ts : "acq_date" ∈ columns (derive now df ts).
Proof.
  unfold derive, setitem, setitem_scalar; simpl.
  rewrite !elem_of_add_column. auto 10.
Qed.

(** ** [transform] computes [reshape] *)



Lemma transform_reshape W df col ts s :
  getitem df "acq_date" = Ok col →
  pd_to_datetime W col = Ok ts →
  transform W df s =
    (Ok (reshape W (wall_clock W (tick s)) df ts),
     {| log := log s ++ [mkLog INFO ("Collected " +:+
                 pretty (df_len (reshape W (wall_clock W (tick s)) df ts)) +:+ " records")];
        fetched := fetched s; tick := S (tick s) |}).
Proof.
  intros Hcol Hts. unfold transform, bind, lift. rewrite Hcol, Hts.
  cbn [datetime_now].
  set (d1 := setitem df "acq_date" (of_datetime <$> ts)).
  set (d2 := setitem_scalar d1 "data_coleta" _).
  assert (H2 : "acq_date" ∈ columns d2).
  { unfold d2, d1, setitem, setitem_scalar; cbn [columns]. rewrite !elem_of_add_column. auto. }
  rewrite (getitem_column d2 _ H2).
  set (d3 := setitem d2 "semana_ano" _).
  assert (H3 : "acq_date" ∈ columns d3).
  { unfold d3, setitem; cbn [columns]. rewrite elem_of_add_column. auto. }
  rewrite (getitem_column d3 _ H3).
  set (d4 := setitem d3 "mes_ano" _).
  assert (H4 : "acq_date" ∈ columns d4).
  { unfold d4, setitem; cbn [columns]. rewrite elem_of_add_column. auto. }
  rewrite (getitem_column d4 _ H4).
  set (d5 := setitem d4 "dia_semana" _).
  assert (H5 : "acq_date" ∈ columns d5).
  { unfold d5, setitem; cbn [columns]. rewrite elem_of_add_column. auto. }
  unfold sort_values_desc. rewrite (getitem_column d5 _ H5).
  unfold logger, ret. cbn [log fetched tick].
  unfold reshape. change (derive (wall_clock W (tick s)) df ts) with d5. cbv zeta.
  unfold reorder, row_order. reflexivity.
Qed.

(** ** The outcome of a fetch, class by class *)

Lemma status_test (st : Z) :
  existsb (Z.eqb st) [400; 403] || negb (st =? 200) = negb (st =? 200).
Proof.
  cbn [existsb]. destruct (st =? 200) eqn:E; [|by rewrite orb_true_r].
  apply Z.eqb_eq in E. subst st. reflexivity.
Qed.

Lemma on_exception_None (e : Exception) (s : State) :
  ∃ l, on_exception e s = (Ok None, add_log s l) ∧
       Forall (λ r, levelname r = ERROR) l ∧ l ≠ [].
Proof.
  unfold on_exception, bind, logger, ret, add_log.
  destruct (isinstance_Timeout e); [|destruct (isinstance_RequestException e)];
    cbn [log fetched tick].
  - eexists [_]. split; [reflexivity|]. split; [repeat constructor|discriminate].
  - eexists [_]. split; [reflexivity|]. split; [repeat constructor|discriminate].
  - rewrite <- app_assoc. eexists [_; _]. split; [reflexivity|].
    split; [repeat constructor|discriminate].
Qed.

Lemma get_fire_data_brazil_unfold W G days s :
  get_fire_data_brazil W G days s =
  try_except (fetch W (build_url G (clamp_days days))) on_exception
             (add_log s (preamble G days)).
Proof.
  unfold get_fire_data_brazil, preamble, clamp_days, bind, logger, ret, add_log.
  destruct ((days <? 1) || (days >? 10)); cbn [log fetched tick app];
    rewrite <- ?app_assoc; reflexivity.
Qed.

(** The request is unreachable: one of the [except] clauses answers. *)
Lemma fetch_unreachable W url e s :
  requests_get W url = Raise e →
  ∃ l, try_except (fetch W url) on_exception s = (Ok None, add_log (sent s url) l).
Proof.
  intros Hget. unfold try_except, fetch, bind, http_get. rewrite Hget.
  destruct (on_exception_None e (sent s url)) as (l & Hl & _).
  exists l. exact Hl.
Qed.

Lemma fetch_non_200 W url r s :
  requests_get W url = Ok r → status_code r ≠ 200 →
  try_except (fetch W url) on_exception s =
    (Ok None, add_log (sent s url)
       [status_line r; mkLog ERROR ("HTTP Error " +:+ pretty (status_code r))]).
Proof.
  intros Hget Hst. unfold try_except, fetch, bind, http_get. rewrite Hget.
  unfold logger at 1. cbn [log fetched tick]. rewrite status_test.
  apply Z.eqb_neq in Hst. rewrite Hst. cbn [negb].
  unfold logger, ret, add_log, sent, status_line. cbn [log fetched tick].
  rewrite <- app_assoc. reflexivity.
Qed.

Lemma fetch_too_short W url r s :
  requests_get W url = Ok r → status_code r = 200 → len (strip (text r)) < 10 →
  try_except (fetch W url) on_exception s =
    (Ok None, add_log (sent s url)
       [status_line r; mkLog WARNING "Response too short / no data"]).
Proof.
  intros Hget Hst Hlen. unfold try_except, fetch, bind, http_get. rewrite Hget.
  unfold logger at 1. cbn [log fetched tick]. rewrite status_test.
  apply Z.eqb_eq in Hst. rewrite Hst. cbn [negb].
  apply Z.ltb_lt in Hlen. rewrite Hlen.
  unfold logger, ret, add_log, sent, status_line. cbn [log fetched tick].
  rewrite <- app_assoc. reflexivity.
Qed.

(** Up to the parse: what is left of [fetch] once the status and length
    tests have let the response through. *)
Lemma fetch_long_200 W url r s :
  requests_get W url = Ok r → status_code r = 200 → 10 ≤ len (strip (text r)) →
  fetch W url s =
    match pd_read_csv W (text r) with
    | Ok df =>
        if df_empty df then
          (Ok None, add_log (sent s url) [status_line r; mkLog WARNING "Empty DataFrame"])
        else
          bind (transform W df) (λ df, ret (Some df)) (add_log (sent s url) [status_line r])
    | Raise e => (Raise e, add_log (sent s url) [status_line r])
    end.
Proof.
  intros Hget Hst Hlen. unfold fetch, bind at 1 2, http_get. rewrite Hget.
  unfold logger at 1. cbn [log fetched tick]. rewrite status_test.
  apply Z.eqb_eq in Hst. rewrite Hst. cbn [negb].
  apply Z.ltb_ge in Hlen. rewrite Hlen.
  unfold bind at 1, lift.
  change {| log := log s ++ [_]; fetched := fetched s ++ [url]; tick := tick s |}
    with (add_log (sent s url) [status_line r]).
  destruct (pd_read_csv W (text r)) as [df|e]; [|reflexivity].
  destruct (df_empty df); [|reflexivity].
  unfold bind, logger, ret, add_log. cbn [log fetched tick].
  rewrite <- app_assoc. reflexivity.
Qed.

Lemma transform_missing_column W df s :
  "acq_date" ∉ columns df →
  transform W df s = (Raise (mkException KeyError "acq_date"), s).
Proof.
  intros Hcol. unfold transform, bind, lift, getitem.
  destruct (has_column df "acq_date") eqn:E; [|reflexivity].
  apply has_column_true in E. contradiction.
Qed.

Lemma transform_unparseable W df e s :
  "acq_date" ∈ columns df →
  pd_to_datetime W (column df "acq_date") = Raise e →
  transform W df s = (Raise e, s).
Proof.
  intros Hcol Hts. unfold transform, bind, lift.
  rewrite (getitem_column _ _ Hcol), Hts. reflexivity.
Qed.

(** Every class of failure ends in the "no data" signal, with the
    request sent and the clock not read. *)
Lemma fetch_failure W url s :
  feed_failure W url →
  ∃ l, try_except (fetch W url) on_exception s = (Ok None, add_log (sent s url) l).
Proof.
  assert (Hadd : ∀ s0 l1 l2, add_log (add_log s0 l1) l2 = add_log s0 (l1 ++ l2)).
  { intros. unfold add_log. cbn [log fetched tick]. by rewrite <- app_assoc. }
  intros [e Hget | r Hget Hst | r Hget Hst Hlen | r e Hget Hst Hlen Hcsv
         | df [r Hget Hst Hlen Hcsv] Hempty
         | df [r Hget Hst Hlen Hcsv] Hempty Hcol
         | df e [r Hget Hst Hlen Hcsv] Hempty Hcol Hdates].
  - by apply fetch_unreachable with e.
  - eexists. by apply fetch_non_200.
  - eexists. by apply fetch_too_short.
  - unfold try_except. rewrite (fetch_long_200 _ _ _ _ Hget Hst Hlen), Hcsv.
    destruct (on_exception_None e (add_log (sent s url) [status_line r])) as (l & -> & _).
    rewrite Hadd. eauto.
  - unfold try_except. rewrite (fetch_long_200 _ _ _ _ Hget Hst Hlen), Hcsv, Hempty.
    eauto.
  - unfold try_except. rewrite (fetch_long_200 _ _ _ _ Hget Hst Hlen), Hcsv, Hempty.
    unfold bind. rewrite (transform_missing_column _ _ _ Hcol).
    destruct (on_exception_None (mkException KeyError "acq_date")
                (add_log (sent s url) [status_line r])) as (l & -> & _).
    rewrite Hadd. eauto.
  - unfold try_except. rewrite (fetch_long_200 _ _ _ _ Hget Hst Hlen), Hcsv, Hempty.
    unfold bind. rewrite (transform_unparseable _ _ _ _ Hcol Hdates).
    destruct (on_exception_None e (add_log (sent s url) [status_line r])) as (l & -> & _).
    rewrite Hadd. eauto.
Qed.

Lemma fetch_success W url df ts s :
  feed_success W url df ts →
  ∃ l, try_except (fetch W url) on_exception s =
    (Ok (Some (reshape W (wall_clock W (tick s)) df ts)),
     {| log := log s ++ l; fetched := fetched s ++ [url]; tick := S (tick s) |}).
Proof.
  intros [[r Hget Hst Hlen Hcsv] Hempty Hcol Hdates].
  unfold try_except. rewrite (fetch_long_200 _ _ _ _ Hget Hst Hlen), Hcsv, Hempty.
  unfold bind.
  rewrite (transform_reshape _ _ _ _ _ (getitem_column _ _ Hcol) Hdates).
  unfold ret, add_log, sent. cbn [log fetched tick].
  rewrite <- app_assoc. eauto.
Qed.

(** The classes are exhaustive: a fetch either fails in one of the ways
    of [feed_failure] or succeeds. *)
Lemma feed_failure_or_success W url :
  feed_failure W url ∨ ∃ df ts, feed_success W url df ts.
Proof.
  destruct (requests_get W url) as [r|e] eqn:Hget;
    [|left; by eapply upstream_unreachable].
  destruct (decide (status_code r = 200)) as [Hst|Hst];
    [|left; by eapply non_200_status].
  destruct (decide (len (strip (text r)) < 10)) as [Hlen|Hlen];
    [left; by eapply too_short_body|].
  apply Z.nlt_ge in Hlen.
  destruct (pd_read_csv W (text r)) as [df|e] eqn:Hcsv;
    [|left; by eapply csv_parse_error].
  assert (Hp : feed_parsed W url df) by by econstructor.
  destruct (df_empty df) eqn:Hempty; [left; by eapply empty_table|].
  destruct (decide ("acq_date" ∈ columns df)) as [Hcol|Hcol];
    [|left; by eapply acq_date_missing].
  destruct (pd_to_datetime W (column df "acq_date")) as [ts|e] eqn:Hdates;
    [|left; by eapply acq_date_unparseable].
  right. exists df, ts. by constructor.
Qed.

Lemma get_fire_data_brazil_failure W G days s :
  feed_failure W (build_url G (clamp_days days)) →
  ∃ l, get_fire_data_brazil W G days s =
       (Ok None, add_log (sent s (build_url G (clamp_days days))) l).
Proof.
  intros Hf. rewrite get_fire_data_brazil_unfold.
  destruct (fetch_failure _ _ (add_log s (preamble G days)) Hf) as (l & ->).
  exists ((preamble G days ++ l)%list). unfold add_log, sent. cbn [log fetched tick].
  by rewrite <- app_assoc.
Qed.

Lemma get_fire_data_brazil_success W G days df ts s :
  feed_success W (build_url G (clamp_days days)) df ts →
  ∃ l, get_fire_data_brazil W G days s =
    (Ok (Some (reshape W (wall_clock W (tick s)) df ts)),
     {| log := log s ++ l;
        fetched := fetched s ++ [build_url G (clamp_days days)];
        tick := S (tick s) |}).
Proof.
  intros Hs. rewrite get_fire_data_brazil_unfold.
  destruct (fetch_success _ _ _ _ (add_log s (preamble G days)) Hs) as (l & ->).
  exists ((preamble G days ++ l)%list). unfold add_log. cbn [log fetched tick].
  by rewrite <- app_assoc.
Qed.

(** ** Rows of the reshaped frame *)

Lemma zip_with_fmap_same {A B C} (f : A → B → C) (g : A → B) (l : list A) :
  zip_with f l (g <$> l) = (λ x, f x (g x)) <$> l.
Proof. induction l as [|x l IH]; [reflexivity|]. cbn. by rewrite IH. Qed.

Lemma cell_insert (r : gmap string value) (c c' : string) (v : value) :
  cell (<[c := v]> r) c' = if decide (c = c') then v else cell r c'.
Proof.
  unfold cell. rewrite lookup_insert. destruct (decide (c = c')); reflexivity.
Qed.

Lemma column_setitem_same (df : DataFrame) (c : string) (vals : list value) :
  length vals = length (rows df) → column (setitem df c vals) c = vals.
Proof.
  unfold column, setitem. cbn [rows]. generalize (rows df) as l.
  induction vals as [|v vals IH]; intros [|r l] Hlen; try discriminate; [reflexivity|].
  cbn. rewrite cell_insert. destruct (decide (c = c)); [|congruence].
  f_equal. apply IH. by injection Hlen.
Qed.

Lemma rows_derive now df ts :
  length ts = length (rows df) →
  rows (derive now df ts) = zip_with (enrich now) (rows df) ts.
Proof.
  intros Hlen. unfold derive.
  set (d1 := setitem df "acq_date" (of_datetime <$> ts)).
  assert (Hr1 : rows d1 = zip_with (λ r t, <["acq_date" := of_datetime t]> r) (rows df) ts).
  { unfold d1, setitem. cbn [rows]. by rewrite zip_with_fmap_r. }
  set (d2 := setitem_scalar d1 "data_coleta" _).
  assert (Hc2 : column d2 "acq_date" = column d1 "acq_date").
  { unfold column, d2, setitem_scalar. cbn [rows]. rewrite <- list_fmap_compose.
    apply list_fmap_ext. intros _ r _. cbn. by rewrite cell_insert. }
  set (d3 := setitem d2 "semana_ano" _).
  assert (Hr3 : rows d3 = (λ r, <["semana_ano" := dt_isocalendar_week (cell r "acq_date")]> r) <$> rows d2).
  { unfold d3, setitem. cbn [rows]. unfold column. rewrite <- list_fmap_compose.
    exact (zip_with_fmap_same (λ r v, <["semana_ano" := v]> r) (λ r, dt_isocalendar_week (cell r "acq_date")) _). }
  set (d4 := setitem d3 "mes_ano" _).
  assert (Hr4 : rows d4 = (λ r, <["mes_ano" := dt_strftime_Ym (cell r "acq_date")]> r) <$> rows d3).
  { unfold d4, setitem. cbn [rows]. unfold column. rewrite <- list_fmap_compose.
    exact (zip_with_fmap_same (λ r v, <["mes_ano" := v]> r) (λ r, dt_strftime_Ym (cell r "acq_date")) _). }
  assert (Hr5 : rows (setitem d4 "dia_semana" (dt_day_name <$> column d4 "acq_date"))
                = (λ r, <["dia_semana" := dt_day_name (cell r "acq_date")]> r) <$> rows d4).
  { unfold setitem. cbn [rows]. unfold column. rewrite <- list_fmap_compose.
    exact (zip_with_fmap_same (λ r v, <["dia_semana" := v]> r) (λ r, dt_day_name (cell r "acq_date")) _). }
  rewrite Hr5, Hr4, Hr3. unfold d2, setitem_scalar. cbn [rows]. rewrite Hr1.
  rewrite <- !list_fmap_compose.
  clear. revert ts. generalize (rows df) as l.
  induction l as [|r l IH]; intros [|t ts]; try reflexivity.
  cbn [zip_with fmap list_fmap]. rewrite IH. f_equal.
  cbn. unfold enrich. rewrite !cell_insert. cbn. reflexivity.
Qed.

Lemma fill_expected_fold (cs : list string) (df : DataFrame) :
  fold_left (λ df c, if has_column df c then df else setitem_scalar df c VNone) cs df
  = {| columns := fill_columns (columns df) cs;
       rows := fill_row (columns df) cs <$> rows df |}.
Proof.
  revert df. induction cs as [|c cs IH]; intros df.
  - cbn. rewrite list_fmap_id. by destruct df.
  - cbn [fold_left fill_columns fill_row]. rewrite IH. unfold has_column, add_column.
    case_bool_decide.
    + reflexivity.
    + unfold setitem_scalar, add_column. cbn [columns rows].
      rewrite bool_decide_eq_false_2 by done.
      rewrite <- list_fmap_compose. reflexivity.
Qed.

Lemma elem_of_fill_columns (cols cs : list string) (c : string) :
  c ∈ fill_columns cols cs ↔ c ∈ cols ∨ c ∈ cs.
Proof.
  revert cols. induction cs as [|c' cs IH]; intros cols; cbn.
  - rewrite elem_of_nil. tauto.
  - rewrite IH, elem_of_add_column, elem_of_cons. tauto.
Qed.

Lemma lookup_fill_row (cols cs : list string) (r : gmap string value) (c : string) :
  fill_row cols cs r !! c =
    if decide (c ∈ cs ∧ c ∉ cols) then Some VNone else r !! c.
Proof.
  revert cols r. induction cs as [|c' cs IH]; intros cols r; cbn [fill_row].
  - rewrite decide_False; [reflexivity|]. intros [H _]. by apply elem_of_nil in H.
  - case_bool_decide as Hc'.
    + rewrite IH. apply decide_ext. rewrite elem_of_cons.
      split; [tauto|]. intros [[->|?] ?]; tauto.
    + rewrite IH. destruct (decide (c = c')) as [->|Hne].
      * rewrite (decide_True _ _ (conj (list_elem_of_here _ _) Hc')).
        rewrite lookup_insert_eq. by destruct (decide _).
      * rewrite lookup_insert_ne by done. apply decide_ext.
        rewrite elem_of_cons, elem_of_add_column. split; [tauto|].
        intros [[?|?] ?]; [congruence|]. split; [done|]. intros [?|?]; [tauto|congruence].
Qed.

Lemma elem_of_columns_derive now df ts c :
  c ∈ columns (derive now df ts) ↔
  c ∈ columns df ∨ c ∈ ["acq_date"; "data_coleta"; "semana_ano"; "mes_ano"; "dia_semana"].
Proof.
  unfold derive, setitem, setitem_scalar. cbn [columns].
  rewrite !elem_of_add_column, !elem_of_cons, elem_of_nil. tauto.
Qed.

Lemma reshape_eq W now df ts :
  reshape W now df ts =
  {| columns := fill_columns (columns (derive now df ts)) expected_cols;
     rows := (λ i, fill_row (columns (derive now df ts)) expected_cols
                     (rows (derive now df ts) !!! i))
             <$> row_order W (derive now df ts) |}.
Proof.
  unfold reshape, fill_expected. cbv zeta. rewrite fill_expected_fold.
  unfold reorder. cbn [columns rows]. by rewrite <- list_fmap_compose.
Qed.

Lemma row_order_perm W now df ts :
  pandas_contract W → length ts = length (rows df) →
  row_order W (derive now df ts) ≡ₚ seq 0 (length (rows df)).
Proof.
  intros HW Hlen. unfold row_order. rewrite (argsort_perm W HW).
  unfold column. rewrite !length_fmap, rows_derive by done.
  by rewrite length_zip_with_l_eq.
Qed.

Lemma length_reshape W now df ts :
  pandas_contract W → length ts = length (rows df) →
  length (rows (reshape W now df ts)) = length (rows df).
Proof.
  intros HW Hlen. rewrite reshape_eq. cbn [rows]. rewrite length_fmap.
  rewrite (Permutation_length (row_order_perm W now df ts HW Hlen)).
  apply length_seq.
Qed.

Lemma expected_in_reshape W now df ts c :
  c ∈ expected_cols → c ∈ columns (reshape W now df ts).
Proof.
  intros Hc. rewrite reshape_eq. cbn [columns]. apply elem_of_fill_columns. by right.
Qed.

(** ** Records *)

Lemma dict_get_record (cols : list string) (r : gmap string value) (c : string) :
  c ∈ cols → dict_get ((λ c, (c, cell r c)) <$> cols) c = Some (cell r c).
Proof.
  induction cols as [|c' cols IH]; intros Hc; [by apply elem_of_nil in Hc|].
  cbn. case_bool_decide as E; [by subst|].
  apply IH. apply elem_of_cons in Hc as [->|?]; [congruence|done].
Qed.

Lemma elem_of_to_dict_records df rec :
  rec ∈ to_dict_records df →
  ∃ r, r ∈ rows df ∧ rec = (λ c, (c, cell r c)) <$> columns df.
Proof.
  unfold to_dict_records. intros (r & -> & Hr)%list_elem_of_fmap_1. eauto.
Qed.

Lemma record_keys df :
  "acq_date" ∈ columns df →
  record_key <$> to_dict_records df = sort_key <$> column df "acq_date".
Proof.
  intros Hc. unfold to_dict_records, column. rewrite <- !list_fmap_compose.
  apply list_fmap_ext. intros _ r _. cbn. unfold record_key.
  by rewrite (dict_get_record _ _ _ Hc).
Qed.

Lemma cell_fill_row_present cols cs r c :
  c ∈ cols → cell (fill_row cols cs r) c = cell r c.
Proof.
  intros Hc. unfold cell. rewrite lookup_fill_row, decide_False; [done|tauto].
Qed.

Lemma cell_fill_row_absent cols cs r c :
  c ∈ cs → c ∉ cols → cell (fill_row cols cs r) c = VNone.
Proof.
  intros Hc Hn. unfold cell. by rewrite lookup_fill_row, decide_True.
Qed.

(** The key column of the reshaped frame is the key column before the
    sort, read in the order of the indexer. *)
Lemma keys_reshape W now df ts :
  pandas_contract W → length ts = length (rows df) →
  sort_key <$> column (reshape W now df ts) "acq_date" =
  (λ i, (sort_key <$> column (derive now df ts) "acq_date") !!! i)
    <$> row_order W (derive now df ts).
Proof.
  intros HW Hlen. rewrite reshape_eq. unfold column at 1. cbn [rows].
  rewrite <- !list_fmap_compose.
  apply Forall_fmap_ext_1, Forall_forall. intros i Hi. unfold compose.
  rewrite (row_order_perm W now df ts HW Hlen), elem_of_seq in Hi.
  rewrite cell_fill_row_present by apply acq_date_in_derive.
  unfold column. rewrite <- list_fmap_compose.
  assert (Hi' : (i < length (rows (derive now df ts)))%nat).
  { rewrite rows_derive, length_zip_with_l_eq by done. lia. }
  symmetry.
  exact (list_lookup_total_fmap
           (sort_key ∘ (λ r : gmap string value, cell r "acq_date")) _ _ Hi').
Qed.

Lemma sorted_reshape W now df ts :
  pandas_contract W → length ts = length (rows df) →
  StronglySorted key_desc (sort_key <$> column (reshape W now df ts) "acq_date").
Proof.
  intros HW Hlen. rewrite keys_reshape by done. apply (argsort_sorted W HW).
Qed.

(** ** The reference sort meets the contract *)

Lemma StronglySorted_reverse {A} (R : relation A) l :
  StronglySorted R l → StronglySorted (flip R) (reverse l).
Proof.
  induction 1 as [|x l Hs IH Hx]; [constructor|].
  rewrite reverse_cons. apply StronglySorted_app_2; [|done|repeat constructor].
  intros x1 x2 Hx1 ->%list_elem_of_singleton. rewrite elem_of_reverse in Hx1.
  unfold flip. by eapply Forall_forall in Hx.
Qed.

Section quicksort.
Variable v : nat → Z.

Lemma intp_swap_length arr i j : length (intp_swap arr i j) = length arr.
Proof. unfold intp_swap. by rewrite !length_insert. Qed.

Lemma intp_swap_lookup arr i j x :
  (i < length arr)%nat → (j < length arr)%nat →
  intp_swap arr i j !! x =
    if decide (x = i) then arr !! j else if decide (x = j) then arr !! i else arr !! x.
Proof.
  intros Hi Hj. unfold intp_swap.
  rewrite list_lookup_insert, length_insert.
  destruct (decide (x = i)) as [->|Hxi].
  - rewrite decide_True by done. symmetry. by apply list_lookup_lookup_total_lt.
  - rewrite decide_False by (intros [? _]; congruence).
    rewrite list_lookup_insert.
    destruct (decide (x = j)) as [->|Hxj].
    + rewrite decide_True by done. symmetry. by apply list_lookup_lookup_total_lt.
    + rewrite decide_False by (intros [? _]; congruence). done.
Qed.

Lemma intp_swap_lookup_total arr i j x :
  (i < length arr)%nat → (j < length arr)%nat →
  intp_swap arr i j !!! x =
    if decide (x = i) then arr !!! j else if decide (x = j) then arr !!! i else arr !!! x.
Proof.
  intros Hi Hj. rewrite !list_lookup_total_alt, intp_swap_lookup by done.
  by repeat case_decide.
Qed.

Lemma intp_swap_perm arr i j :
  (i < length arr)%nat → (j < length arr)%nat → intp_swap arr i j ≡ₚ arr.
Proof.
  intros Hi Hj. apply Permutation_inj. split; [apply intp_swap_length|].
  exists (λ x, if decide (x = i) then j else if decide (x = j) then i else x). split.
  - intros x y. repeat case_decide; congruence.
  - intros x. rewrite intp_swap_lookup by done. by repeat case_decide; subst.
Qed.

Lemma rearranged_refl pl pr arr : rearranged pl pr arr arr.
Proof. by constructor. Qed.

Lemma rearranged_trans pl pr a b c :
  rearranged pl pr a b → rearranged pl pr b c → rearranged pl pr a c.
Proof.
  intros [? ? Ho1] [? ? Ho2]. constructor; [congruence|by etrans|].
  intros i Hi. by rewrite Ho2, Ho1.
Qed.

Lemma rearranged_mono pl pr pl' pr' a b :
  (pl ≤ pl')%nat → (pr' ≤ pr)%nat → rearranged pl' pr' a b → rearranged pl pr a b.
Proof. intros ? ? [? ? Ho]. constructor; [done..|]. intros i Hi. apply Ho. lia. Qed.

Lemma rearranged_swap pl pr arr i j :
  (pl ≤ i ≤ pr)%nat → (pl ≤ j ≤ pr)%nat → (pr < length arr)%nat →
  rearranged pl pr arr (intp_swap arr i j).
Proof.
  intros Hi Hj Hpr. constructor.
  - apply intp_swap_length.
  - apply intp_swap_perm; lia.
  - intros x Hx. rewrite intp_swap_lookup by lia.
    rewrite !decide_False by lia. done.
Qed.

Lemma rearranged_lookup_total pl pr arr out i :
  rearranged pl pr arr out → (i < pl ∨ pr < i)%nat → out !!! i = arr !!! i.
Proof. intros [_ _ Ho] Hi. by rewrite !list_lookup_total_alt, Ho. Qed.

(** The scans stop at a sentinel. *)
Lemma scan_up_spec vp arr fuel pi k :
  (pi < k)%nat → (k - pi ≤ fuel)%nat → ¬ v (arr !!! k) < vp →
  let r := scan_up v vp arr fuel pi in
  (pi < r ≤ k)%nat ∧ vp ≤ v (arr !!! r) ∧
  ∀ m, (pi < m < r)%nat → v (arr !!! m) < vp.
Proof.
  revert pi. induction fuel as [|f IH]; intros pi Hk Hf Hs; [lia|].
  cbn [scan_up]. destruct (Z.ltb_spec (v (arr !!! S pi)) vp) as [Hlt|Hge].
  - assert (k ≠ S pi) by (intros ->; lia).
    destruct (IH (S pi)) as (Hr & Hv & Hm); [lia..|done|].
    split; [lia|]. split; [done|]. intros m Hm'.
    destruct (decide (m = S pi)) as [->|]; [done|]. apply Hm. lia.
  - split; [lia|]. split; [done|]. intros m Hm. lia.
Qed.

Lemma scan_down_spec vp arr fuel pj k :
  (k < pj)%nat → (pj - k ≤ fuel)%nat → ¬ vp < v (arr !!! k) →
  let r := scan_down v vp arr fuel pj in
  (k ≤ r < pj)%nat ∧ v (arr !!! r) ≤ vp ∧
  ∀ m, (r < m < pj)%nat → vp < v (arr !!! m).
Proof.
  revert pj. induction fuel as [|f IH]; intros pj Hk Hf Hs; [lia|].
  cbn [scan_down]. destruct (Z.ltb_spec vp (v (arr !!! pred pj))) as [Hlt|Hge].
  - assert (k ≠ pred pj) by (intros ->; lia).
    destruct (IH (pred pj)) as (Hr & Hv & Hm); [lia..|done|].
    split; [lia|]. split; [done|]. intros m Hm'.
    destruct (decide (m = pred pj)) as [->|]; [done|]. apply Hm. lia.
  - split; [lia|]. split; [done|]. intros m Hm. lia.
Qed.

Lemma swap_if_less_lookup arr i j x :
  (i < length arr)%nat → (j < length arr)%nat →
  swap_if_less v arr i j !!! x =
    if v (arr !!! i) <? v (arr !!! j)
    then (if decide (x = i) then arr !!! j else if decide (x = j) then arr !!! i
          else arr !!! x)
    else arr !!! x.
Proof.
  intros Hi Hj. unfold swap_if_less. destruct (_ <? _); [|done].
  by apply intp_swap_lookup_total.
Qed.

Lemma rearranged_swap_if_less pl pr arr i j :
  (pl ≤ i ≤ pr)%nat → (pl ≤ j ≤ pr)%nat → (pr < length arr)%nat →
  rearranged pl pr arr (swap_if_less v arr i j).
Proof.
  intros. unfold swap_if_less. destruct (_ <? _).
  - by apply rearranged_swap.
  - apply rearranged_refl.
Qed.

(** The partition loop: on the left of the meeting point the keys are
    at most the pivot, from it on they are at least the pivot. *)
Lemma hoare_loop_spec vp pl pr fuel arr pi pj :
  (pr < length arr)%nat →
  (pl ≤ pi)%nat → (pi < pj)%nat → (pj ≤ pr - 1)%nat → (pj - pi ≤ fuel)%nat →
  (∀ m, (pl ≤ m ≤ pi)%nat → v (arr !!! m) ≤ vp) →
  (∀ m, (pj ≤ m ≤ pr - 1)%nat → vp ≤ v (arr !!! m)) →
  ∃ out r, hoare_loop v vp fuel arr pi pj = (out, r) ∧
    rearranged (S pi) (pred pj) arr out ∧ (pi < r ≤ pj)%nat ∧
    (∀ m, (pl ≤ m < r)%nat → v (out !!! m) ≤ vp) ∧
    (∀ m, (r ≤ m ≤ pr - 1)%nat → vp ≤ v (out !!! m)).
Proof.
  revert arr pi pj. induction fuel as [|f IH]; intros arr pi pj Hlen Hpl Hij Hpr Hf Hlo Hhi;
    [lia|].
  cbn [hoare_loop].
  destruct (scan_up_spec vp arr (length arr) pi pj) as (Hi' & Hvi & Hmi); [lia..| |].
  { specialize (Hhi pj). lia. }
  destruct (scan_down_spec vp arr (length arr) pj pi) as (Hj' & Hvj & Hmj); [lia..| |].
  { specialize (Hlo pi). lia. }
  set (pi' := scan_up v vp arr (length arr) pi) in *.
  set (pj' := scan_down v vp arr (length arr) pj) in *.
  destruct (Nat.leb_spec pj' pi') as [Hle|Hlt].
  - eexists _, _. split; [reflexivity|]. split; [apply rearranged_refl|].
    split; [lia|]. split.
    + intros m Hm. destruct (decide (m ≤ pi)%nat); [apply Hlo; lia|].
      specialize (Hmi m). lia.
    + intros m Hm. destruct (decide (m = pi')) as [->|]; [done|].
      destruct (decide (pj ≤ m)%nat); [apply Hhi; lia|].
      specialize (Hmj m). lia.
  - destruct (IH (intp_swap arr pi' pj') pi' pj') as (out & r & Heq & Hre & Hr & Hlo' & Hhi').
    + by rewrite intp_swap_length.
    + lia.
    + lia.
    + lia.
    + lia.
    + intros m Hm. rewrite intp_swap_lookup_total by lia.
      destruct (decide (m = pi')) as [->|]; [done|].
      rewrite decide_False by lia.
      destruct (decide (m ≤ pi)%nat); [apply Hlo; lia|].
      specialize (Hmi m). lia.
    + intros m Hm. rewrite intp_swap_lookup_total by lia.
      rewrite decide_False by lia.
      destruct (decide (m = pj')) as [->|]; [done|].
      destruct (decide (pj ≤ m)%nat); [apply Hhi; lia|].
      specialize (Hmj m). lia.
    + exists out, r. split; [done|]. split; [|split; [lia|done]].
      apply rearranged_trans with (intp_swap arr pi' pj').
      * apply rearranged_swap; lia.
      * apply (rearranged_mono _ _ (S pi') (pred pj')); [lia..|done].
Qed.

(** One partition step: the pivot ends at [pi], strictly inside the
    segment, with no greater key before it and no smaller key after
    it. *)
Lemma partition_spec arr pl pr :
  (2 ≤ pr - pl)%nat → (pr < length arr)%nat →
  ∃ out pi, partition v arr pl pr = (out, pi) ∧
    rearranged pl pr arr out ∧ (pl < pi < pr)%nat ∧
    (∀ m, (pl ≤ m < pi)%nat → v (out !!! m) ≤ v (out !!! pi)) ∧
    (∀ m, (pi < m ≤ pr)%nat → v (out !!! pi) ≤ v (out !!! m)).
Proof.
  intros Hseg Hlen. unfold partition.
  set (pm := (pl + (pr - pl) / 2)%nat).
  assert (Hpm : (pl < pm < pr)%nat).
  { pose proof (Nat.div_mod_eq (pr - pl) 2).
    pose proof (Nat.mod_upper_bound (pr - pl) 2). unfold pm. lia. }
  clearbody pm.
  set (a1 := swap_if_less v arr pm pl).
  assert (R1 : rearranged pl pr arr a1) by (apply rearranged_swap_if_less; lia).
  assert (L1 : length a1 = length arr) by apply R1.
  assert (H1 : v (a1 !!! pl) ≤ v (a1 !!! pm)).
  { unfold a1. rewrite !swap_if_less_lookup by lia.
    destruct (Z.ltb_spec (v (arr !!! pm)) (v (arr !!! pl)));
      repeat case_decide; lia. }
  set (a2 := swap_if_less v a1 pr pm).
  assert (R2 : rearranged pl pr a1 a2) by (apply rearranged_swap_if_less; lia).
  assert (L2 : length a2 = length arr) by (rewrite <- L1; apply R2).
  assert (H2 : v (a2 !!! pm) ≤ v (a2 !!! pr) ∧ v (a2 !!! pl) ≤ v (a2 !!! pr)).
  { unfold a2. rewrite !swap_if_less_lookup by lia.
    destruct (Z.ltb_spec (v (a1 !!! pr)) (v (a1 !!! pm)));
      repeat case_decide; lia. }
  set (a3 := swap_if_less v a2 pm pl).
  assert (R3 : rearranged pl pr a2 a3) by (apply rearranged_swap_if_less; lia).
  assert (L3 : length a3 = length arr) by (rewrite <- L2; apply R3).
  assert (H3 : v (a3 !!! pl) ≤ v (a3 !!! pm) ∧ v (a3 !!! pm) ≤ v (a3 !!! pr)).
  { unfold a3. rewrite !swap_if_less_lookup by lia.
    destruct (Z.ltb_spec (v (a2 !!! pm)) (v (a2 !!! pl)));
      repeat case_decide; lia. }
  set (vp := v (a3 !!! pm)).
  set (a4 := intp_swap a3 pm (pr - 1)).
  assert (R4 : rearranged pl pr a3 a4) by (apply rearranged_swap; lia).
  assert (L4 : length a4 = length arr) by (rewrite <- L3; apply R4).
  assert (H4 : v (a4 !!! pl) ≤ vp ∧ v (a4 !!! (pr - 1)%nat) = vp ∧ vp ≤ v (a4 !!! pr)).
  { unfold a4, vp. rewrite !intp_swap_lookup_total by lia.
    repeat case_decide; subst; try lia. }
  destruct (hoare_loop_spec vp pl pr (length a4) a4 pl (pr - 1)%nat)
    as (a5 & pi & -> & R5 & Hpi & Hlo & Hhi); [lia..| | |].
  { intros m Hm. replace m with pl by lia. apply H4. }
  { intros m Hm. replace m with (pr - 1)%nat by lia. lia. }
  assert (L5 : length a5 = length arr) by (rewrite <- L4; apply R5).
  assert (E5 : a5 !!! (pr - 1)%nat = a4 !!! (pr - 1)%nat).
  { apply (rearranged_lookup_total _ _ _ _ _ R5). lia. }
  assert (E5' : a5 !!! pr = a4 !!! pr).
  { apply (rearranged_lookup_total _ _ _ _ _ R5). lia. }
  destruct H4 as (_ & H4m & H4r). rewrite <- E5 in H4m. rewrite <- E5' in H4r.
  eexists _, _. split; [reflexivity|]. split; [|split; [lia|split]].
  - apply rearranged_trans with a5.
    + apply rearranged_trans with a4;
        [|apply (rearranged_mono _ _ (S pl) (pred (pr - 1))); [lia..|done]].
      apply rearranged_trans with a3; [|done].
      apply rearranged_trans with a2; [|done].
      by apply rearranged_trans with a1.
    + apply rearranged_swap; lia.
  - intros m Hm. rewrite !intp_swap_lookup_total by lia.
    repeat case_decide; try lia.
    all: rewrite H4m; apply Hlo; lia.
  - intros m Hm. rewrite !intp_swap_lookup_total by lia.
    repeat case_decide; try lia.
    all: rewrite ?H4m; destruct (decide (m = pr)) as [->|];
      first [lia | exact H4r | apply Hhi; lia].
Qed.

(** The insertion sort. *)
Lemma insert_right_perm x rp : insert_right v x rp ≡ₚ x :: rp.
Proof.
  induction rp as [|y rest IH]; cbn [insert_right]; [done|].
  destruct (_ <? _); [|done]. rewrite IH. apply perm_swap.
Qed.

Lemma insert_right_sorted x rp :
  StronglySorted (λ a b, v b ≤ v a) rp →
  StronglySorted (λ a b, v b ≤ v a) (insert_right v x rp).
Proof.
  induction 1 as [|y rest Hs IH Hy]; cbn [insert_right].
  - repeat constructor.
  - destruct (Z.ltb_spec (v x) (v y)).
    + constructor; [done|]. rewrite insert_right_perm. constructor; [lia|done].
    + constructor; [by constructor|]. constructor; [lia|].
      eapply Forall_impl; [exact Hy|]. cbn. intros; lia.
Qed.

Lemma insertion_fold_perm s acc :
  fold_left (λ rp x, insert_right v x rp) s acc ≡ₚ (s ++ acc)%list.
Proof.
  revert acc. induction s as [|x s IH]; intros acc; cbn; [done|].
  rewrite IH, insert_right_perm. by rewrite Permutation_middle.
Qed.

Lemma insertion_fold_sorted s acc :
  StronglySorted (λ a b, v b ≤ v a) acc →
  StronglySorted (λ a b, v b ≤ v a) (fold_left (λ rp x, insert_right v x rp) s acc).
Proof.
  revert acc. induction s as [|x s IH]; intros acc Hacc; cbn; [done|].
  by apply IH, insert_right_sorted.
Qed.

Lemma insertion_sort_perm s : insertion_sort v s ≡ₚ s.
Proof.
  unfold insertion_sort. by rewrite reverse_Permutation, insertion_fold_perm, app_nil_r.
Qed.

Lemma insertion_sort_sorted s : StronglySorted (λ a b, v a ≤ v b) (insertion_sort v s).
Proof.
  unfold insertion_sort.
  apply (StronglySorted_reverse (λ a b, v b ≤ v a)), insertion_fold_sorted. constructor.
Qed.

(** Segments of an array. *)
Lemma segment_lookup arr pl pr i :
  segment arr pl pr !! i = if decide (i < S pr - pl)%nat then arr !! (pl + i)%nat else None.
Proof. unfold segment. rewrite lookup_take. case_decide; [|done]. apply lookup_drop. Qed.

Lemma segment_length arr pl pr :
  (pl ≤ S pr)%nat → (pr < length arr)%nat → length (segment arr pl pr) = (S pr - pl)%nat.
Proof. intros. unfold segment. rewrite length_take, length_drop. lia. Qed.

Lemma segment_decompose arr pl pr :
  (pl ≤ S pr)%nat →
  arr = (take pl arr ++ segment arr pl pr ++ drop (S pr) arr)%list.
Proof.
  intros. unfold segment.
  rewrite <- (take_drop pl arr) at 1. f_equal.
  rewrite <- (take_drop (S pr - pl) (drop pl arr)) at 1. f_equal.
  rewrite drop_drop. f_equal. lia.
Qed.

Lemma rearranged_take pl pr arr out :
  rearranged pl pr arr out → take pl out = take pl arr.
Proof.
  intros [_ _ Ho]. apply list_eq. intros i. rewrite !lookup_take.
  case_decide; [|done]. apply Ho. lia.
Qed.

Lemma rearranged_drop pl pr arr out :
  rearranged pl pr arr out → drop (S pr) out = drop (S pr) arr.
Proof.
  intros [_ _ Ho]. apply list_eq. intros i. rewrite !lookup_drop. apply Ho. lia.
Qed.

Lemma rearranged_segment pl pr arr out :
  (pl ≤ S pr)%nat → rearranged pl pr arr out → segment out pl pr ≡ₚ segment arr pl pr.
Proof.
  intros Hle Hre. pose proof (re_perm _ _ _ _ Hre) as Hp.
  rewrite (segment_decompose arr pl pr Hle) in Hp.
  rewrite (segment_decompose out pl pr Hle) in Hp.
  rewrite (rearranged_take _ _ _ _ Hre), (rearranged_drop _ _ _ _ Hre) in Hp.
  apply Permutation_app_inv_l in Hp. by apply Permutation_app_inv_r in Hp.
Qed.

Lemma segment_outside a b pl pr arr out :
  rearranged a b arr out → (pr < a ∨ b < pl)%nat → segment out pl pr = segment arr pl pr.
Proof.
  intros [_ _ Ho] Hd. apply list_eq. intros i. rewrite !segment_lookup.
  case_decide; [|done]. apply Ho. lia.
Qed.

Lemma Forall_segment (P : nat → Prop) arr pl pr :
  (pr < length arr)%nat →
  Forall P (segment arr pl pr) ↔ ∀ m, (pl ≤ m ≤ pr)%nat → P (arr !!! m).
Proof.
  intros Hpr. rewrite Forall_lookup. split.
  - intros H m Hm. apply (H (m - pl)%nat). rewrite segment_lookup.
    rewrite decide_True by lia. replace (pl + (m - pl))%nat with m by lia.
    apply list_lookup_lookup_total_lt. lia.
  - intros H i x. rewrite segment_lookup. case_decide; [|done].
    intros Hx. rewrite <- (list_lookup_total_correct _ _ _ Hx). apply H. lia.
Qed.

Lemma segment_split arr pl pi pr :
  (pl < pi)%nat → (pi ≤ pr)%nat → (pr < length arr)%nat →
  segment arr pl pr =
  (segment arr pl (pi - 1) ++ arr !!! pi :: segment arr (S pi) pr)%list.
Proof.
  intros Hpl Hpi Hpr. apply list_eq. intros i.
  assert (Hl : length (segment arr pl (pi - 1)) = (pi - pl)%nat).
  { rewrite segment_length by lia. lia. }
  destruct (decide (i < pi - pl)%nat).
  - rewrite lookup_app_l by lia. rewrite !segment_lookup.
    by rewrite !decide_True by lia.
  - rewrite lookup_app_r by lia. rewrite Hl.
    change (arr !!! pi :: segment arr (S pi) pr)
      with ([arr !!! pi] ++ segment arr (S pi) pr)%list.
    destruct (decide (i = pi - pl)%nat) as [->|].
    + rewrite Nat.sub_diag, lookup_app_l by (cbn; lia).
      rewrite segment_lookup, decide_True by lia. cbn [lookup list_lookup].
      replace (pl + (pi - pl))%nat with pi by lia.
      apply list_lookup_lookup_total_lt. lia.
    + rewrite lookup_app_r by (cbn; lia). cbn [length].
      rewrite !segment_lookup. repeat case_decide; try lia; [|done].
      f_equal. lia.
Qed.

Lemma sort_small_spec arr pl pr :
  (pl ≤ pr)%nat → (pr < length arr)%nat → sorts v pl pr arr (sort_small v arr pl pr).
Proof.
  intros Hpl Hpr. unfold sort_small.
  set (s := insertion_sort v (segment arr pl pr)).
  assert (Hs : s ≡ₚ segment arr pl pr) by apply insertion_sort_perm.
  assert (Hls : length s = (S pr - pl)%nat).
  { rewrite (Permutation_length Hs). apply segment_length; lia. }
  assert (Hlt : length (take pl arr) = pl) by (rewrite length_take; lia).
  split; [constructor|].
  - rewrite !length_app, Hls, Hlt, length_drop. lia.
  - rewrite Hs. by rewrite <- segment_decompose by lia.
  - intros i [Hi|Hi].
    + rewrite lookup_app_l by lia. by rewrite lookup_take_lt.
    + rewrite lookup_app_r by lia. rewrite lookup_app_r by lia.
      rewrite lookup_drop. f_equal. lia.
  - unfold segment. rewrite drop_app_length' by done.
    rewrite take_app_length' by done. apply insertion_sort_sorted.
Qed.

(** The quicksort sorts its segment. *)
Lemma aquicksort_from_spec fuel cdepth arr pl pr :
  (pl ≤ pr)%nat → (pr < length arr)%nat →
  sorts v pl pr arr (aquicksort_from v fuel cdepth arr pl pr).
Proof.
  revert cdepth arr pl pr.
  induction fuel as [|f IH]; intros cdepth arr pl pr Hpl Hpr; cbn [aquicksort_from].
  { by apply sort_small_spec. }
  destruct (cdepth <? 0); [by apply sort_small_spec|].
  destruct (Nat.leb_spec 16 (pr - pl)) as [Hbig|_]; [|by apply sort_small_spec].
  destruct (partition_spec arr pl pr) as (a1 & pi & -> & R1 & Hpi & Hlo & Hhi); [lia..|].
  assert (L1 : length a1 = length arr) by apply R1.
  destruct (IH (cdepth - 1) a1 pl (pi - 1)%nat) as [R2 S2]; [lia..|].
  set (a2 := aquicksort_from v f (cdepth - 1) a1 pl (pi - 1)) in *.
  assert (L2 : length a2 = length arr) by (rewrite <- L1; apply R2).
  destruct (IH (cdepth - 1) a2 (pi + 1)%nat pr) as [R3 S3]; [lia..|].
  set (a3 := aquicksort_from v f (cdepth - 1) a2 (pi + 1) pr) in *.
  assert (L3 : length a3 = length arr) by (rewrite <- L2; apply R3).
  replace (pi + 1)%nat with (S pi) in * by lia.
  split.
  - apply rearranged_trans with a1; [done|].
    apply rearranged_trans with a2.
    + apply (rearranged_mono _ _ pl (pi - 1)); [lia..|done].
    + apply (rearranged_mono _ _ (S pi) pr); [lia..|done].
  - set (p := a1 !!! pi).
    assert (E3 : a3 !!! pi = p).
    { rewrite (rearranged_lookup_total _ _ _ _ _ R3) by lia.
      apply (rearranged_lookup_total _ _ _ _ _ R2). lia. }
    assert (EL : segment a3 pl (pi - 1) = segment a2 pl (pi - 1)).
    { apply (segment_outside _ _ _ _ _ _ R3). lia. }
    assert (FL : Forall (λ a, v a ≤ v p) (segment a2 pl (pi - 1))).
    { rewrite (rearranged_segment pl (pi - 1) a1 a2 ltac:(lia) R2).
      apply Forall_segment; [lia|]. intros m Hm. apply Hlo. lia. }
    assert (FR : Forall (λ b, v p ≤ v b) (segment a3 (S pi) pr)).
    { rewrite (rearranged_segment (S pi) pr a2 a3 ltac:(lia) R3).
      rewrite (segment_outside _ _ _ _ _ _ R2) by lia.
      apply Forall_segment; [lia|]. intros m Hm. apply Hhi. lia. }
    rewrite (segment_split a3 pl pi pr) by lia. rewrite E3, EL.
    apply StronglySorted_app_2; [|done|by constructor].
    intros x1 x2 Hx1 Hx2. eapply Forall_forall in FL; [|exact Hx1].
    apply elem_of_cons in Hx2 as [->|Hx2]; [done|].
    eapply Forall_forall in FR; [|exact Hx2]. cbn in *. lia.
Qed.

End quicksort.

(** [np.argsort] gives a permutation of the positions that puts the
    keys in ascending order. *)
Lemma np_argsort_spec (keys : list Z) :
  np_argsort keys ≡ₚ seq 0 (length keys) ∧
  StronglySorted Z.le ((λ i, keys !!! i) <$> np_argsort keys).
Proof.
  destruct (decide (length keys = 0%nat)) as [Hn|Hn].
  { apply length_zero_iff_nil in Hn as ->. split; [done|constructor]. }
  unfold np_argsort. set (n := length keys) in *.
  destruct (aquicksort_from_spec (λ i, keys !!! i) n (2 * Z.log2 (Z.of_nat n))
              (seq 0 n) 0 (n - 1)) as [[Hl Hp _] Hs].
  { lia. }
  { rewrite length_seq. lia. }
  split; [done|].
  set (out := aquicksort_from _ _ _ _ _ _) in *.
  rewrite length_seq in Hl.
  assert (Hseg : segment out 0 (n - 1) = out).
  { unfold segment. rewrite drop_0. apply take_ge. lia. }
  rewrite Hseg in Hs.
  apply (StronglySorted_fmap (λ i, keys !!! i) (λ a b, keys !!! a ≤ keys !!! b) Z.le);
    [auto|done].
Qed.

Lemma fmap_lookup_total_seq {A} `{!Inhabited A} (l : list A) :
  (λ j, l !!! j) <$> seq 0 (length l) = l.
Proof.
  apply list_eq. intros i. rewrite list_lookup_fmap.
  destruct (decide (i < length l)%nat).
  - rewrite lookup_seq_lt by done. cbn. symmetry.
    by apply list_lookup_lookup_total_lt.
  - rewrite lookup_seq_ge by lia. cbn. symmetry. apply lookup_ge_None. lia.
Qed.

Lemma all_NaT_sorted (l : list (option Timestamp)) :
  Forall (λ k, k = None) l → StronglySorted key_desc l.
Proof.
  induction 1 as [|k l -> Hl IH]; constructor; [done|].
  eapply Forall_impl; [exact Hl|]. by intros ? ->.
Qed.

(** What pandas computes for [sort_values(ascending=False)] is a
    permutation of the positions that puts the keys in descending
    order, NaT last. *)
Lemma nargsort_desc_spec (keys : list (option Timestamp)) :
  nargsort_desc keys ≡ₚ seq 0 (length keys) ∧
  StronglySorted key_desc ((λ i, keys !!! i) <$> nargsort_desc keys).
Proof.
  unfold nargsort_desc.
  set (idx := seq 0 (length keys)).
  set (nn := filter (λ i, is_Some (keys !!! i)) idx).
  set (na := filter (λ i, ¬ is_Some (keys !!! i)) idx).
  set (ri := reverse nn).
  set (rk := (λ i, default 0 (keys !!! i)) <$> ri).
  destruct (np_argsort_spec rk) as [Hp Hs].
  set (out := np_argsort rk) in *.
  assert (Hlen : length rk = length ri) by (unfold rk; by rewrite length_fmap).
  rewrite Hlen in Hp.
  split.
  - rewrite reverse_Permutation, Hp, fmap_lookup_total_seq.
    unfold ri. rewrite reverse_Permutation. apply filter_app_complement.
  - rewrite fmap_app, fmap_reverse.
    assert (Hk : (λ i, keys !!! i) <$> ((λ j, ri !!! j) <$> out) =
                 Some <$> ((λ j, rk !!! j) <$> out)).
    { rewrite <- !list_fmap_compose. apply Forall_fmap_ext_1, Forall_forall.
      intros j Hj. unfold compose. rewrite Hp, elem_of_seq in Hj.
      assert (Hri : ri !!! j ∈ nn).
      { apply elem_of_reverse. change (ri !!! j ∈ ri).
        apply list_elem_of_lookup_total_2. lia. }
      apply list_elem_of_filter in Hri as [[t Ht] _].
      unfold rk.
      rewrite (list_lookup_total_fmap (λ i, default 0 (keys !!! i)) ri j) by lia.
      by rewrite Ht. }
    rewrite Hk, <- fmap_reverse.
    apply StronglySorted_app_2.
    + intros x1 x2 _ (i & -> & Hi)%list_elem_of_fmap_1.
      apply list_elem_of_filter in Hi as [Hi _].
      destruct (keys !!! i) eqn:E; [by destruct Hi|]. by destruct x1.
    + apply (StronglySorted_fmap Some (flip Z.le) key_desc); [auto|].
      by apply StronglySorted_reverse.
    + apply all_NaT_sorted, Forall_fmap, Forall_forall. intros i Hi.
      apply list_elem_of_filter in Hi as [Hi _]. cbn.
      destruct (keys !!! i); [by destruct Hi|done].
Qed.

Lemma iso_to_datetime_length col ts :
  iso_to_datetime col = Ok ts → length ts = length col.
Proof.
  revert ts. induction col as [|v col IH]; intros ts; cbn.
  - by intros [= <-].
  - destruct (iso_to_datetime_cell v); [|discriminate].
    destruct (iso_to_datetime col); [|discriminate].
    intros [= <-]. cbn. f_equal. by apply IH.
Qed.

Lemma reference_world_contract start answer :
  pandas_contract (world start answer nargsort_desc).
Proof.
  constructor; cbn [pd_to_datetime argsort_desc world].
  - apply iso_to_datetime_length.
  - intros keys. apply nargsort_desc_spec.
  - intros keys. apply nargsort_desc_spec.
Qed.

(** ** The day count *)

Lemma clamp_days_in_range (days : Z) : 1 ≤ days ≤ 10 → clamp_days days = days.
Proof.
  intros [H1 H2]. unfold clamp_days.
  destruct (days <? 1) eqn:E1; [apply Z.ltb_lt in E1; lia|].
  destruct (days >? 10) eqn:E2; [|reflexivity].
  rewrite Z.gtb_ltb in E2. apply Z.ltb_lt in E2. lia.
Qed.

Lemma clamp_days_out_of_range (days : Z) :
  days < 1 ∨ 10 < days → (days <? 1) || (days >? 10) = true.
Proof.
  intros [H|H].
  - apply Z.ltb_lt in H. by rewrite H.
  - rewrite Z.gtb_ltb. apply Z.ltb_lt in H. rewrite H. apply orb_true_r.
Qed.

Lemma validate_days_Some (q : option Z) (days : Z) :
  validate_days q = Some days → 1 ≤ days ≤ 10.
Proof.
  unfold validate_days, DAYS_DEFAULT. destruct q as [d|].
  - destruct ((1 <=? d) && (d <=? 10)) eqn:E; [|discriminate].
    intros [= <-]. apply andb_true_iff in E as [?%Z.leb_le ?%Z.leb_le]. lia.
  - intros [= <-]. lia.
Qed.

(** ** The fallback envelope *)

(** C1. For every feed-related failure (upstream unreachable, non-200
    status, too-short body, empty table, parse error) a request
    [GET /fire_data_brazil] with a valid day count is answered with
    status 200, never a 4xx or 5xx, and with the fallback envelope: in
    its metadata [total_records] is 0 and [period_start] and
    [period_end] are null, and [data] is the empty list. *)
Theorem read_fire_data_fallback_on_failure W G q days s :
  validate_days q = Some days →
  feed_failure W (build_url G days) →
  let reply := (serve (read_fire_data W G) q s).1 in
  status reply = 200 ∧
  content reply = fallback days (wall_clock W (tick s)) ∧
  py_path (content reply) "metadata" "total_records" = Some (PyInt 0) ∧
  py_path (content reply) "metadata" "period_start" = Some PyNone ∧
  py_path (content reply) "metadata" "period_end" = Some PyNone ∧
  py_item (content reply) "data" = Some (PyList []).
Proof.
  intros Hq Hfail.
  assert (Hserve : (serve (read_fire_data W G) q s).1 =
            {| status := 200; content := fallback days (wall_clock W (tick s));
               headers := CORS |}).
  { unfold serve. rewrite Hq. unfold read_fire_data, bind.
    pose proof (clamp_days_in_range days (validate_days_Some _ _ Hq)) as Hclamp.
    rewrite <- Hclamp in Hfail.
    destruct (get_fire_data_brazil_failure W G days s Hfail) as (l & ->).
    cbn [is_usable]. unfold datetime_now, add_log, sent. cbn [log fetched tick].
    reflexivity. }
  cbv zeta. rewrite Hserve. cbn [status content]. repeat split; reflexivity.
Qed.

Lemma read_fire_data_fallback_on_failure_witness :
  let reply := (serve (read_fire_data world_down (started world_down).1) (Some 5)
                      (started world_down).2).1 in
  status reply = 200 ∧
  content reply = fallback 5 (wall_clock world_down (tick (started world_down).2)) ∧
  py_path (content reply) "metadata" "total_records" = Some (PyInt 0) ∧
  py_path (content reply) "metadata" "period_start" = Some PyNone ∧
  py_path (content reply) "metadata" "period_end" = Some PyNone ∧
  py_item (content reply) "data" = Some (PyList []).
Proof.
  apply (read_fire_data_fallback_on_failure world_down _ (Some 5) 5).
  - reflexivity.
  - apply upstream_unreachable with (mkException ConnectionError "Connection refused").
    reflexivity.
Defined.

(** ** The adjusted day count *)

(** C7. For every integer [days] outside [1,10] given to
    [get_fire_data_brazil] directly, below 1 included, a warning is
    logged and the value is replaced by 10: from there on the call is
    the call with [days = 10]. *)
Theorem days_out_of_range_adjusted W G days s :
  days < 1 ∨ 10 < days →
  get_fire_data_brazil W G days s =
  get_fire_data_brazil W G 10
    (add_log s [mkLog WARNING "Days out of range 1-10. Adjusting to 10."]).
Proof.
  intros Hout. rewrite !get_fire_data_brazil_unfold.
  unfold preamble, clamp_days. rewrite (clamp_days_out_of_range _ Hout).
  change ((10 <? 1) || (10 >? 10)) with false. cbv iota.
  unfold add_log. cbn [log fetched tick app]. rewrite <- app_assoc. reflexivity.
Qed.

Lemma days_out_of_range_adjusted_witness :
  get_fire_data_brazil world_three_rows (started world_three_rows).1 (-3)
    (started world_three_rows).2 =
  get_fire_data_brazil world_three_rows (started world_three_rows).1 10
    (add_log (started world_three_rows).2
       [mkLog WARNING "Days out of range 1-10. Adjusting to 10."]).
Proof.
  apply (days_out_of_range_adjusted world_three_rows). left. lia.
Defined.

(** ** The order of the tests on the response *)

(** C8. A response is classified in this order: a status other than 200
    (400 and 403 included) gives the failure result whatever the body;
    otherwise a body of fewer than 10 characters after trimming gives
    the failure result; otherwise a parse with zero rows gives the "no
    data" result; only a 200 response whose body has at least 10 trimmed
    characters and parses to at least one row goes on to the
    transformation. *)
Theorem fetch_classification W url r s :
  requests_get W url = Ok r →
  let run := try_except (fetch W url) on_exception s in
  let after := add_log (sent s url) in
  (status_code r ≠ 200 →
     run = (Ok None, after [status_line r;
                            mkLog ERROR ("HTTP Error " +:+ pretty (status_code r))])) ∧
  (status_code r = 200 → len (strip (text r)) < 10 →
     run = (Ok None, after [status_line r;
                            mkLog WARNING "Response too short / no data"])) ∧
  (status_code r = 200 → 10 ≤ len (strip (text r)) →
   ∀ df, pd_read_csv W (text r) = Ok df → rows df = [] →
     run = (Ok None, after [status_line r; mkLog WARNING "Empty DataFrame"])) ∧
  (status_code r = 200 → 10 ≤ len (strip (text r)) →
   ∀ df, pd_read_csv W (text r) = Ok df → df_empty df = false →
     rows df ≠ [] ∧
     run = try_except (bind (transform W df) (λ df, ret (Some df))) on_exception
                      (after [status_line r])).
Proof.
  intros Hget. cbv zeta. split; [|split; [|split]].
  - intros Hst. by apply fetch_non_200.
  - intros Hst Hlen. by apply fetch_too_short.
  - intros Hst Hlen df Hcsv Hrows. unfold try_except.
    rewrite (fetch_long_200 _ _ _ _ Hget Hst Hlen), Hcsv.
    unfold df_empty. rewrite Hrows. by destruct (columns df).
  - intros Hst Hlen df Hcsv Hempty. split.
    + intros Hrows. unfold df_empty in Hempty. rewrite Hrows in Hempty.
      by destruct (columns df).
    + unfold try_except.
      rewrite (fetch_long_200 _ _ _ _ Hget Hst Hlen), Hcsv, Hempty. reflexivity.
Qed.

Lemma fetch_classification_witness :
  let W := world_three_rows in
  let url := build_url (started W).1 5 in
  let r := mkHTTPResponse 200 csv_three_rows in
  let s := (started W).2 in
  let run := try_except (fetch W url) on_exception s in
  let after := add_log (sent s url) in
  (status_code r ≠ 200 →
     run = (Ok None, after [status_line r;
                            mkLog ERROR ("HTTP Error " +:+ pretty (status_code r))])) ∧
  (status_code r = 200 → len (strip (text r)) < 10 →
     run = (Ok None, after [status_line r;
                            mkLog WARNING "Response too short / no data"])) ∧
  (status_code r = 200 → 10 ≤ len (strip (text r)) →
   ∀ df, pd_read_csv W (text r) = Ok df → rows df = [] →
     run = (Ok None, after [status_line r; mkLog WARNING "Empty DataFrame"])) ∧
  (status_code r = 200 → 10 ≤ len (strip (text r)) →
   ∀ df, pd_read_csv W (text r) = Ok df → df_empty df = false →
     rows df ≠ [] ∧
     run = try_except (bind (transform W df) (λ df, ret (Some df))) on_exception
                      (after [status_line r])).
Proof.
  apply (fetch_classification world_three_rows). reflexivity.
Defined.

(** ** The never-raise boundary *)

Lemma length_column df c : length (column df c) = length (rows df).
Proof. unfold column. apply length_fmap. Qed.

Lemma df_empty_false_rows df : df_empty df = false → rows df ≠ [].
Proof. unfold df_empty. intros H Hr. rewrite Hr in H. by destruct (columns df). Qed.

Lemma length_to_dict_records df : length (to_dict_records df) = length (rows df).
Proof. unfold to_dict_records. apply length_fmap. Qed.

Lemma returned_failure W G days s :
  feed_failure W (build_url G (clamp_days days)) →
  returned (get_fire_data_brazil W G days s) = Ok None.
Proof.
  intros Hf. destruct (get_fire_data_brazil_failure W G days s Hf) as (l & Hrun).
  unfold returned. by rewrite Hrun.
Qed.

Lemma returned_success W G days df ts s :
  feed_success W (build_url G (clamp_days days)) df ts →
  returned (get_fire_data_brazil W G days s) =
    Ok (Some (reshape W (wall_clock W (tick s)) df ts)).
Proof.
  intros Hs. destruct (get_fire_data_brazil_success W G days df ts s Hs) as (l & Hrun).
  unfold returned. by rewrite Hrun.
Qed.

Lemma reshape_records_nonempty W now df ts :
  pandas_contract W → df_empty df = false →
  pd_to_datetime W (column df "acq_date") = Ok ts →
  to_dict_records (reshape W now df ts) ≠ [].
Proof.
  intros HW Hne Hts.
  pose proof (to_datetime_length W HW _ _ Hts) as Hlen. rewrite length_column in Hlen.
  apply df_empty_false_rows in Hne.
  intros Hnil.
  pose proof (length_to_dict_records (reshape W now df ts)) as HL.
  rewrite Hnil, (length_reshape W _ df ts HW Hlen) in HL.
  destruct (rows df); [done|discriminate HL].
Qed.

(** C3. For every input [get_fire_data_brazil] returns and does not
    raise. For every failure (any transport or HTTP error, a body that
    does not parse, an empty table, a table whose [acq_date] column is
    missing or does not parse, which fails the whole transformation) it
    returns the "no data" signal [None]; on success it returns a frame
    with at least one record. *)
Theorem get_fire_data_brazil_never_raises W G days s :
  pandas_contract W →
  let url := build_url G (clamp_days days) in
  ∃ r, returned (get_fire_data_brazil W G days s) = Ok r ∧
       (feed_failure W url → r = None) ∧
       (∀ df ts, feed_success W url df ts →
          ∃ out, r = Some out ∧ to_dict_records out ≠ []) ∧
       (r = None → feed_failure W url).
Proof.
  intros HW url.
  destruct (feed_failure_or_success W url) as [Hf|(df & ts & Hs)].
  - exists None. split; [by apply returned_failure|]. split; [done|]. split; [|done].
    intros df ts Hs.
    pose proof (returned_failure W G days s Hf) as H1.
    pose proof (returned_success W G days df ts s Hs) as H2.
    rewrite H1 in H2. discriminate H2.
  - exists (Some (reshape W (wall_clock W (tick s)) df ts)).
    split; [by apply returned_success|]. split; [|split].
    + intros Hf.
      pose proof (returned_failure W G days s Hf) as H1.
      pose proof (returned_success W G days df ts s Hs) as H2.
      rewrite H1 in H2. discriminate H2.
    + intros _ _ _.
      exists (reshape W (wall_clock W (tick s)) df ts). split; [reflexivity|].
      destruct Hs as [_ Hne _ Hts]. by apply reshape_records_nonempty.
    + discriminate.
Qed.

Lemma get_fire_data_brazil_never_raises_witness :
  let url := build_url (started world_three_rows).1 (clamp_days 5) in
  ∃ r, returned (get_fire_data_brazil world_three_rows (started world_three_rows).1 5
                   (started world_three_rows).2) = Ok r ∧
       (feed_failure world_three_rows url → r = None) ∧
       (∀ df ts, feed_success world_three_rows url df ts →
          ∃ out, r = Some out ∧ to_dict_records out ≠ []) ∧
       (r = None → feed_failure world_three_rows url).
Proof.
  apply (get_fire_data_brazil_never_raises world_three_rows).
  apply reference_world_contract.
Defined.

(** ** The date in the URL *)

Lemma get_fire_data_brazil_fetched W G days s :
  fetched (final (get_fire_data_brazil W G days s)) =
  (fetched s ++ [build_url G (clamp_days days)])%list.
Proof.
  unfold final.
  destruct (feed_failure_or_success W (build_url G (clamp_days days)))
    as [Hf|(df & ts & Hs)].
  - destruct (get_fire_data_brazil_failure W G days s Hf) as (l & ->). reflexivity.
  - destruct (get_fire_data_brazil_success W G days df ts s Hs) as (l & ->). reflexivity.
Qed.

(** C9. The date in the date position of the upstream URL is computed
    once, when the process starts: it is the date of the clock reading
    taken at module load, the same for every later fetch whatever the
    state of the clock when the request comes (it is not computed again
    after midnight). *)
Theorem url_date_fixed_at_process_start W s_start :
  ∃ G s1,
    load_module W s_start = (Ok G, s1) ∧
    date_today G = strftime_Ymd (wall_clock W (tick s_start)) ∧
    ∀ days s,
      fetched (final (get_fire_data_brazil W G days s)) =
      (fetched s ++
       ["https://firms.modaps.eosdis.nasa.gov/api/area/csv/" +:+
        format_optional (environ_MAP_KEY W) +:+
        "/VIIRS_NOAA20_NRT/-53.1,-25.3,-44.1,-19.8/" +:+
        pretty (clamp_days days) +:+ "/" +:+
        strftime_Ymd (wall_clock W (tick s_start))])%list.
Proof.
  eexists _, _. split; [reflexivity|]. split; [reflexivity|].
  intros days s. rewrite get_fire_data_brazil_fetched. reflexivity.
Qed.

(** A process started one second before midnight still asks for the
    day it started on when the request comes on the next day. *)
Example stale_date_after_midnight :
  strftime_Ymd (wall_clock world_down (tick (started world_down).2)) = "2024-01-06" ∧
  fetched (final (get_fire_data_brazil world_down (started world_down).1 5
                    (started world_down).2)) =
  ["https://firms.modaps.eosdis.nasa.gov/api/area/csv/KEY/VIIRS_NOAA20_NRT/-53.1,-25.3,-44.1,-19.8/5/2024-01-05"].
Proof. vm_compute. split; reflexivity. Qed.

(** ** The records of a successful fetch *)

Lemma expected_cols_not_derived (c : string) :
  c ∈ expected_cols → c ≠ "acq_date" → c ≠ "semana_ano" → c ≠ "mes_ano" →
  c ∉ ["acq_date"; "data_coleta"; "semana_ano"; "mes_ano"; "dia_semana"].
Proof.
  intros Hc H0 H1 H2 Hd.
  apply elem_of_cons in Hd as [->|Hd]; [done|].
  apply elem_of_cons in Hd as [->|Hd].
  { revert Hc. apply (proj1 (bool_decide_eq_false ("data_coleta" ∈ expected_cols))).
    vm_compute. reflexivity. }
  apply elem_of_cons in Hd as [->|Hd]; [done|].
  apply elem_of_cons in Hd as [->|Hd]; [done|].
  apply elem_of_cons in Hd as [->|Hd].
  { revert Hc. apply (proj1 (bool_decide_eq_false ("dia_semana" ∈ expected_cols))).
    vm_compute. reflexivity. }
  by apply elem_of_nil in Hd.
Qed.

(** C2. For every raw CSV input with N data rows and a valid [acq_date]
    column the transformation produces exactly N records; each record
    holds all ten fixed columns (latitude, longitude, bright_ti4,
    acq_date, acq_time, confidence, frp, daynight, semana_ano, mes_ano);
    a fixed column that is absent upstream is there with the value null,
    never left out ([semana_ano] and [mes_ano] are computed from
    [acq_date] and are not null); and the records are ordered by
    [acq_date], descending (a missing date, NaT, sorts last). *)
Theorem transform_records W G days s df ts :
  pandas_contract W →
  feed_parsed W (build_url G (clamp_days days)) df →
  "acq_date" ∈ columns df →
  pd_to_datetime W (column df "acq_date") = Ok ts →
  ∃ r, returned (get_fire_data_brazil W G days s) = Ok r ∧
       let recs := records_of r in
       length recs = length (rows df) ∧
       (∀ rec c, rec ∈ recs →
          c ∈ ["latitude"; "longitude"; "bright_ti4"; "acq_date"; "acq_time";
               "confidence"; "frp"; "daynight"; "semana_ano"; "mes_ano"] →
          is_Some (dict_get rec c)) ∧
       (∀ rec c, rec ∈ recs →
          c ∈ ["latitude"; "longitude"; "bright_ti4"; "acq_date"; "acq_time";
               "confidence"; "frp"; "daynight"; "semana_ano"; "mes_ano"] →
          c ∉ columns df → c ≠ "semana_ano" → c ≠ "mes_ano" →
          dict_get rec c = Some VNone) ∧
       StronglySorted key_desc (record_key <$> recs).
Proof.
  intros HW Hparsed Hcol Hts. unfold returned.
  change ["latitude"; "longitude"; "bright_ti4"; "acq_date"; "acq_time";
          "confidence"; "frp"; "daynight"; "semana_ano"; "mes_ano"]
    with expected_cols.
  destruct (df_empty df) eqn:Hempty.
  - assert (Hrows : rows df = []).
    { unfold df_empty in Hempty. destruct (columns df) as [|c0 cs] eqn:Ec.
      - by apply elem_of_nil in Hcol.
      - by destruct (rows df). }
    destruct (get_fire_data_brazil_failure W G days s (empty_table _ _ df Hparsed Hempty))
      as (l & ->).
    exists None. split; [reflexivity|]. cbn [records_of]. rewrite Hrows.
    repeat split; try (intros rec c Hrec; by apply elem_of_nil in Hrec). constructor.
  - destruct (get_fire_data_brazil_success W G days df ts s
                (mkSuccess _ _ _ _ Hparsed Hempty Hcol Hts)) as (l & ->).
    eexists. split; [reflexivity|]. cbn [records_of].
    pose proof (to_datetime_length W HW _ _ Hts) as Hlen. rewrite length_column in Hlen.
    set (now := wall_clock W (tick s)).
    split; [|split; [|split]].
    + unfold to_dict_records. rewrite length_fmap. by apply length_reshape.
    + intros rec c (r & Hr & ->)%elem_of_to_dict_records Hc.
      rewrite dict_get_record; [eauto|]. by apply expected_in_reshape.
    + intros rec c (r & Hr & ->)%elem_of_to_dict_records Hc Habs Hs Hm.
      rewrite dict_get_record by by apply expected_in_reshape.
      f_equal. rewrite reshape_eq in Hr. cbn [rows] in Hr.
      apply list_elem_of_fmap_1 in Hr as (i & -> & _).
      apply cell_fill_row_absent; [done|].
      rewrite elem_of_columns_derive. intros [?|Hd]; [done|].
      assert (Hacq : c ≠ "acq_date") by (intros ->; done).
      by apply (expected_cols_not_derived c Hc Hacq Hs Hm).
    + rewrite record_keys by (apply expected_in_reshape; unfold expected_cols; set_solver).
      by apply sorted_reshape.
Qed.

Lemma csv_three_rows_parsed :
  feed_parsed world_three_rows (build_url (started world_three_rows).1 (clamp_days 5))
    frame_three_rows.
Proof.
  apply Parsed with (mkHTTPResponse 200 csv_three_rows).
  - reflexivity.
  - reflexivity.
  - vm_compute. discriminate.
  - vm_compute. reflexivity.
Qed.

Lemma csv_three_rows_success :
  feed_success world_three_rows (build_url (started world_three_rows).1 (clamp_days 5))
    frame_three_rows dates_three_rows.
Proof.
  constructor.
  - apply csv_three_rows_parsed.
  - reflexivity.
  - unfold frame_three_rows. cbn [columns]. set_solver.
  - vm_compute. reflexivity.
Qed.

Lemma csv_without_frp_parsed :
  feed_parsed world_without_frp (build_url (started world_without_frp).1 (clamp_days 5))
    frame_without_frp.
Proof.
  apply Parsed with (mkHTTPResponse 200 csv_without_frp).
  - reflexivity.
  - reflexivity.
  - vm_compute. discriminate.
  - vm_compute. reflexivity.
Qed.

(** The feed without [frp]: three records, each with the ten columns,
    [frp] among them and null. *)
Lemma transform_records_witness :
  "frp" ∉ columns frame_without_frp ∧
  ∃ r, returned (get_fire_data_brazil world_without_frp (started world_without_frp).1 5
                   (started world_without_frp).2) = Ok r ∧
       let recs := records_of r in
       length recs = length (rows frame_without_frp) ∧
       (∀ rec c, rec ∈ recs →
          c ∈ ["latitude"; "longitude"; "bright_ti4"; "acq_date"; "acq_time";
               "confidence"; "frp"; "daynight"; "semana_ano"; "mes_ano"] →
          is_Some (dict_get rec c)) ∧
       (∀ rec c, rec ∈ recs →
          c ∈ ["latitude"; "longitude"; "bright_ti4"; "acq_date"; "acq_time";
               "confidence"; "frp"; "daynight"; "semana_ano"; "mes_ano"] →
          c ∉ columns frame_without_frp → c ≠ "semana_ano" → c ≠ "mes_ano" →
          dict_get rec c = Some VNone) ∧
       StronglySorted key_desc (record_key <$> recs).
Proof.
  split.
  { unfold frame_without_frp. cbn [columns]. rewrite !elem_of_cons, elem_of_nil.
    intros H. repeat (destruct H as [H|H]; [discriminate|]). exact H. }
  apply (transform_records world_without_frp _ 5 _ frame_without_frp dates_three_rows).
  - apply reference_world_contract.
  - apply csv_without_frp_parsed.
  - unfold frame_without_frp. cbn [columns]. rewrite !elem_of_cons. tauto.
  - vm_compute. reflexivity.
Defined.

(** ** The order of the rows *)

Lemma sort_key_of_datetime (t : option Timestamp) : sort_key (of_datetime t) = t.
Proof. by destruct t. Qed.

Lemma cell_enrich_acq_date now r t : cell (enrich now r t) "acq_date" = of_datetime t.
Proof. unfold enrich. rewrite !cell_insert. reflexivity. Qed.

Lemma cell_enrich_other now r t c :
  c ∉ ["acq_date"; "data_coleta"; "semana_ano"; "mes_ano"; "dia_semana"] →
  cell (enrich now r t) c = cell r c.
Proof.
  rewrite !elem_of_cons, elem_of_nil. intros Hc. unfold enrich.
  rewrite !cell_insert. repeat (destruct (decide _) as [<-|_]; [tauto|]). reflexivity.
Qed.

Lemma lookup_total_rows_derive now df ts i :
  length ts = length (rows df) → (i < length (rows df))%nat →
  rows (derive now df ts) !!! i = enrich now (rows df !!! i) (ts !!! i).
Proof.
  intros Hlen Hi. rewrite rows_derive by done.
  apply list_lookup_total_correct, lookup_zip_with_Some.
  exists (rows df !!! i), (ts !!! i). split; [reflexivity|].
  split; apply list_lookup_lookup_total, lookup_lt_is_Some; lia.
Qed.

Lemma keys_derive now df ts :
  length ts = length (rows df) →
  sort_key <$> column (derive now df ts) "acq_date" = ts.
Proof.
  intros Hlen. unfold column. rewrite rows_derive by done.
  rewrite <- list_fmap_compose. revert ts Hlen. generalize (rows df) as l.
  induction l as [|r l IH]; intros [|t ts] Hlen; try discriminate; [reflexivity|].
  cbn [zip_with fmap list_fmap]. f_equal.
  - unfold compose. by rewrite cell_enrich_acq_date, sort_key_of_datetime.
  - apply IH. by injection Hlen.
Qed.

(** C5, as the code has it. The rows are put in descending [acq_date]
    order with no secondary key: the order is the indexer that
    [sort_values] computes from the [acq_date] column alone, a
    permutation of the upstream positions that makes the dates
    descending (NaT last), and the k-th record is the upstream row at
    the k-th position of that indexer. Which of two rows of equal date
    comes first is whatever that indexer (pandas' default quicksort)
    gives; the code does not ask for a stable one. *)
Theorem sort_rearranges_by_date_only W G days s df ts :
  pandas_contract W →
  feed_success W (build_url G (clamp_days days)) df ts →
  let idx := argsort_desc W ts in
  ∃ out, returned (get_fire_data_brazil W G days s) = Ok (Some out) ∧
    idx ≡ₚ seq 0 (length (rows df)) ∧
    StronglySorted key_desc ((λ i, ts !!! i) <$> idx) ∧
    ∀ k i, idx !! k = Some i →
      ∃ rec, to_dict_records out !! k = Some rec ∧
        record_key rec = ts !!! i ∧
        ∀ c, c ∈ columns df →
             c ∉ ["acq_date"; "data_coleta"; "semana_ano"; "mes_ano"; "dia_semana"] →
             dict_get rec c = Some (cell (rows df !!! i) c).
Proof.
  intros HW Hs idx. unfold returned.
  destruct (get_fire_data_brazil_success W G days df ts s Hs) as (l & ->).
  destruct Hs as [_ _ Hcol Hts].
  pose proof (to_datetime_length W HW _ _ Hts) as Hlen. rewrite length_column in Hlen.
  set (now := wall_clock W (tick s)).
  assert (Hidx : row_order W (derive now df ts) = idx).
  { unfold row_order. by rewrite keys_derive. }
  assert (Hperm : idx ≡ₚ seq 0 (length (rows df))).
  { rewrite <- Hidx. by apply row_order_perm. }
  eexists. split; [reflexivity|]. split; [exact Hperm|]. split.
  { apply (argsort_sorted W HW). }
  intros k i Hk.
  assert (Hi : (i < length (rows df))%nat).
  { apply list_elem_of_lookup_2 in Hk. rewrite Hperm, elem_of_seq in Hk. lia. }
  unfold to_dict_records. rewrite list_lookup_fmap.
  rewrite reshape_eq. cbn [rows columns]. rewrite list_lookup_fmap, Hidx, Hk.
  cbn [fmap option_fmap option_map].
  eexists. split; [reflexivity|].
  set (cols := columns (derive now df ts)).
  assert (Hacq : "acq_date" ∈ fill_columns cols expected_cols).
  { apply elem_of_fill_columns. left. apply acq_date_in_derive. }
  split.
  - unfold record_key. rewrite (dict_get_record _ _ _ Hacq). cbn [default].
    rewrite cell_fill_row_present by apply acq_date_in_derive.
    rewrite lookup_total_rows_derive by done.
    rewrite cell_enrich_acq_date. apply sort_key_of_datetime.
  - intros c Hc Hnd.
    assert (Hcd : c ∈ cols) by (apply elem_of_columns_derive; by left).
    rewrite dict_get_record by (apply elem_of_fill_columns; by left).
    f_equal. rewrite cell_fill_row_present by done.
    rewrite lookup_total_rows_derive by done.
    by apply cell_enrich_other.
Qed.

Lemma sort_rearranges_by_date_only_witness :
  let idx := argsort_desc world_three_rows dates_three_rows in
  ∃ out, returned (get_fire_data_brazil world_three_rows (started world_three_rows).1 5
                     (started world_three_rows).2) = Ok (Some out) ∧
    idx ≡ₚ seq 0 (length (rows frame_three_rows)) ∧
    StronglySorted key_desc ((λ i, dates_three_rows !!! i) <$> idx) ∧
    ∀ k i, idx !! k = Some i →
      ∃ rec, to_dict_records out !! k = Some rec ∧
        record_key rec = dates_three_rows !!! i ∧
        ∀ c, c ∈ columns frame_three_rows →
             c ∉ ["acq_date"; "data_coleta"; "semana_ano"; "mes_ano"; "dia_semana"] →
             dict_get rec c = Some (cell (rows frame_three_rows !!! i) c).
Proof.
  apply (sort_rearranges_by_date_only world_three_rows _ 5 _
           frame_three_rows dates_three_rows).
  - apply reference_world_contract.
  - apply csv_three_rows_success.
Defined.

(** Two rows of the same date keep their upstream order: numpy sorts so
    short a column by insertion. *)
Lemma same_day_pair_keeps_order :
  ∃ out, returned (get_fire_data_brazil world_same_day (started world_same_day).1 5
                     (started world_same_day).2) = Ok (Some out) ∧
         column out "latitude" = [VInt 1; VInt 2].
Proof. eexists. split; vm_compute; reflexivity. Qed.

(** Nor do three equal keys, or a NaT among dates, upset the order of
    the rows that tie. *)
Lemma three_ties_keep_order :
  nargsort_desc (replicate 3 (Some (midnight 2024 1 2))) = [0%nat; 1%nat; 2%nat] ∧
  nargsort_desc [Some (midnight 2024 1 2); None; Some (midnight 2024 1 3);
                 Some (midnight 2024 1 2)] = [2%nat; 0%nat; 3%nat; 1%nat].
Proof. split; vm_compute; reflexivity. Qed.

(** C5, as stated, fails on a feed of seventeen rows of one date, whose
    latitudes 1 to 17 number them in upstream order. Every record comes
    back with that date, and the records are the upstream rows, but not
    in upstream order: some record comes before a record that preceded
    it upstream. With seventeen keys numpy's quicksort partitions the
    column around a pivot, and the partition exchanges equal keys. *)
Lemma sort_ties_not_stable :
  pandas_contract world_seventeen_same_day ∧
  (∃ df, feed_parsed world_seventeen_same_day
           (build_url (started world_seventeen_same_day).1 (clamp_days 5)) df ∧
         column df "latitude" = latitudes_seventeen ∧
         column df "acq_date" = replicate 17 (VStr "2024-01-02")) ∧
  (∃ out, returned (get_fire_data_brazil world_seventeen_same_day
                      (started world_seventeen_same_day).1 5
                      (started world_seventeen_same_day).2) = Ok (Some out) ∧
          column out "acq_date" = replicate 17 (VTimestamp (midnight 2024 1 2)) ∧
          column out "latitude" ≡ₚ latitudes_seventeen ∧
          ∃ i j a b, (i < j)%nat ∧
            column out "latitude" !! i = Some (VInt a) ∧
            column out "latitude" !! j = Some (VInt b) ∧
            b < a).
Proof.
  split; [apply reference_world_contract|]. split.
  - eexists. split.
    + apply Parsed with (mkHTTPResponse 200 csv_seventeen_same_day).
      * reflexivity.
      * reflexivity.
      * vm_compute. discriminate.
      * vm_compute. reflexivity.
    + split; vm_compute; reflexivity.
  - eexists. split; [vm_compute; reflexivity|].
    split; [vm_compute; reflexivity|].
    match goal with |- context [column ?o "latitude"] => set (lat := column o "latitude") end.
    assert (Hlat : lat = VInt <$> [1; 10; 16; 15; 14; 13; 12; 11; 9; 2; 8; 7; 6; 5; 4; 3; 17])
      by (vm_compute; reflexivity).
    rewrite Hlat. clear Hlat lat. split.
    + unfold latitudes_seventeen. apply fmap_Permutation.
      apply (bool_decide_unpack _). vm_compute. exact I.
    + exists 2%nat, 3%nat, 16, 15. split; [lia|]. split; [reflexivity|].
      split; [reflexivity|]. lia.
Qed.

(** ** The summary *)

(** Whatever the upstream columns, a frame that [get_fire_data_brazil]
    returns has every expected column, [frp] among them: the test
    ['frp' in df.columns] of the summary never fails. *)
Lemma Ok_Some_inj {A} (a b : A) : Ok (Some a) = Ok (Some b) → a = b.
Proof. by intros [= ->]. Qed.

Lemma returned_frame_has_expected_cols W G days s df c :
  returned (get_fire_data_brazil W G days s) = Ok (Some df) →
  c ∈ expected_cols → has_column df c = true.
Proof.
  intros Hrun Hc.
  destruct (feed_failure_or_success W (build_url G (clamp_days days)))
    as [Hf|(df0 & ts & Hs)].
  - rewrite (returned_failure W G days s Hf) in Hrun. discriminate Hrun.
  - rewrite (returned_success W G days df0 ts s Hs) in Hrun.
    apply Ok_Some_inj in Hrun. subst df.
    apply has_column_true. by apply expected_in_reshape.
Qed.

(** C4, on a feed without the [frp] column. The returned frame has an
    [frp] column, all of it [None], that the fill loop added; the summary
    takes the mean of it and [avg_radiative_power] is the float NaN, not
    null; the encoder then refuses the NaN and the request ends in an
    unhandled [ValueError] (status 500). *)
Theorem summary_without_frp_is_not_null :
  (∃ df0, feed_parsed world_without_frp
            (build_url (started world_without_frp).1 (clamp_days 5)) df0 ∧
          "frp" ∉ columns df0) ∧
  ∃ df s', get_fire_data_brazil world_without_frp (started world_without_frp).1 5
             (started world_without_frp).2 = (Ok (Some df), s') ∧
    has_column df "frp" = true ∧
    column df "frp" = [VNone; VNone; VNone] ∧
    (∃ summary, returned (summary_of df s') = Ok summary ∧
       py_path summary "overall_summary" "avg_radiative_power" = Some PyNaN) ∧
    returned (fire_data_summary world_without_frp (started world_without_frp).1 5
                (started world_without_frp).2) =
      Raise (mkException ValueError "Out of range float values are not JSON compliant") ∧
    status (serve (fire_data_summary world_without_frp (started world_without_frp).1)
                  (Some 5) (started world_without_frp).2).1 = 500.
Proof.
  split.
  - eexists. split.
    + apply Parsed with (mkHTTPResponse 200 csv_without_frp).
      * reflexivity.
      * reflexivity.
      * vm_compute. discriminate.
      * vm_compute. reflexivity.
    + cbn [columns]. vm_compute. intros H. repeat (inversion H as [|? ? ? H']; clear H; rename H' into H; subst).
  - eexists _, _. split; [vm_compute; reflexivity|].
    split; [vm_compute; reflexivity|]. split; [vm_compute; reflexivity|].
    split; [eexists; split; vm_compute; reflexivity|].
    split; vm_compute; reflexivity.
Qed.

(** C6, on the feed with three rows on the dates D1, D1, D2. The handler
    does build [by_day] with exactly the two entries D1: 2 and D2: 1 and
    [total_fires] 3, but the keys of [by_day] are [datetime.date]
    objects, which the JSON encoder does not take as keys: building the
    response raises [TypeError] and the request ends with status 500
    instead of the summary. *)
Theorem summary_three_rows_is_not_returned :
  ∃ df s', get_fire_data_brazil world_three_rows (started world_three_rows).1 5
             (started world_three_rows).2 = (Ok (Some df), s') ∧
    (sort_key <$> column df "acq_date") =
      [Some (midnight 2024 1 3); Some (midnight 2024 1 2); Some (midnight 2024 1 2)] ∧
    (∃ summary, returned (summary_of df s') = Ok summary ∧
       py_item summary "by_day" = Some (PyDict [(PyDate D1, PyInt 2); (PyDate D2, PyInt 1)]) ∧
       py_path summary "overall_summary" "total_fires" = Some (PyInt 3) ∧
       json_dumps_error summary =
         Some (mkException TypeError "keys must be str, int, float, bool or None")) ∧
    returned (fire_data_summary world_three_rows (started world_three_rows).1 5
                (started world_three_rows).2) =
      Raise (mkException TypeError "keys must be str, int, float, bool or None") ∧
    status (serve (fire_data_summary world_three_rows (started world_three_rows).1)
                  (Some 5) (started world_three_rows).2).1 = 500.
Proof.
  eexists _, _. split; [vm_compute; reflexivity|].
  split; [vm_compute; reflexivity|].
  split; [eexists; repeat split; vm_compute; reflexivity|].
  split; vm_compute; reflexivity.
Qed.

(** C10. There is a well-formed feed, one that parses to three rows
    with a valid [acq_date] and no [bright_ti4] column, for which
    [get_fire_data_brazil] succeeds with [bright_ti4] filled with
    [None], and [fire_data_summary], which takes the mean of that
    column outside any exception handler, lets an exception through:
    the request ends with status 500, not with the empty summary and
    status 200. The mean itself is NaN; the exception is raised when
    the response is built from it. *)
Theorem summary_raises_without_bright_ti4 :
  ∃ W G s,
    pandas_contract W ∧
    (∃ df0, feed_success W (build_url G (clamp_days 5)) df0 dates_three_rows ∧
            "bright_ti4" ∉ columns df0 ∧ length (rows df0) = 3%nat) ∧
    (∃ df s', get_fire_data_brazil W G 5 s = (Ok (Some df), s') ∧
              column df "bright_ti4" = [VNone; VNone; VNone] ∧
              series_mean (column df "bright_ti4") = Ok VNaN) ∧
    (∃ e, returned (fire_data_summary W G 5 s) = Raise e) ∧
    let reply := (serve (fire_data_summary W G) (Some 5) s).1 in
    status reply = 500 ∧ content reply ≠ empty_summary.
Proof.
  exists world_without_bright_ti4, (started world_without_bright_ti4).1,
         (started world_without_bright_ti4).2.
  split; [apply reference_world_contract|]. split.
  - eexists. split; [|split].
    + constructor.
      * apply Parsed with (mkHTTPResponse 200 csv_without_bright_ti4).
        -- reflexivity.
        -- reflexivity.
        -- vm_compute. discriminate.
        -- vm_compute. reflexivity.
      * reflexivity.
      * cbn [columns]. set_solver.
      * vm_compute. reflexivity.
    + cbn [columns]. set_solver.
    + reflexivity.
  - split.
    + eexists _, _. split; [vm_compute; reflexivity|]. split; vm_compute; reflexivity.
    + split; [eexists; vm_compute; reflexivity|].
      split; [vm_compute; reflexivity|]. vm_compute. discriminate.
Qed.

(** * Further properties of the code *)

(** ** One request per call *)

Lemma clamp_days_spec (days : Z) :
  clamp_days days = if (1 <=? days) && (days <=? 10) then days else 10.
Proof.
  unfold clamp_days. rewrite Z.gtb_ltb.
  destruct (days <? 1) eqn:E1, (10 <? days) eqn:E2,
           (1 <=? days) eqn:E3, (days <=? 10) eqn:E4; try reflexivity;
    rewrite ?Z.ltb_lt, ?Z.ltb_ge, ?Z.leb_le, ?Z.leb_gt in *; lia.
Qed.

(** Whatever the outcome, a call of [get_fire_data_brazil] sends exactly
    one request (a single attempt, no retry), to the URL made of the API
    key, the fixed data set and bounding box, the day count and the
    date of the module global; the day count in it is [days] when that
    is within 1..10 and 10 otherwise. *)
Theorem one_request_per_call W G days s :
  fetched (final (get_fire_data_brazil W G days s)) =
  (fetched s ++
   ["https://firms.modaps.eosdis.nasa.gov/api/area/csv/" +:+
    format_optional (MAP_KEY G) +:+
    "/VIIRS_NOAA20_NRT/-53.1,-25.3,-44.1,-19.8/" +:+
    pretty (if (1 <=? days) && (days <=? 10) then days else 10) +:+
    "/" +:+ date_today G])%list.
Proof.
  rewrite get_fire_data_brazil_fetched, clamp_days_spec. reflexivity.
Qed.

(** ** A body of white space *)

Lemma lstrip_all_space (s : string) :
  Forall (λ a, py_isspace a = true) (list_ascii_of_string s) → lstrip s = "".
Proof.
  induction s as [|a s IH]; intros H; [reflexivity|].
  cbn [list_ascii_of_string] in H. apply Forall_cons in H as [Ha Hs].
  cbn [lstrip]. rewrite Ha. by apply IH.
Qed.

Lemma strip_all_space (s : string) :
  Forall (λ a, py_isspace a = true) (list_ascii_of_string s) → strip s = "".
Proof. intros H. unfold strip. rewrite (lstrip_all_space s H). reflexivity. Qed.

(** A 200 response whose body is white space only, however long, counts
    as too short: the call returns [None], logs the warning "Response
    too short / no data" last, and the body is never parsed (the outcome
    does not depend on [read_csv]). *)
Theorem whitespace_body_is_no_data W G days r s :
  requests_get W (build_url G (clamp_days days)) = Ok r →
  status_code r = 200 →
  Forall (λ a, py_isspace a = true) (list_ascii_of_string (text r)) →
  get_fire_data_brazil W G days s =
    (Ok None,
     add_log (sent (add_log s (preamble G days)) (build_url G (clamp_days days)))
       [status_line r; mkLog WARNING "Response too short / no data"]).
Proof.
  intros Hget Hst Hsp. rewrite get_fire_data_brazil_unfold.
  apply fetch_too_short; [done|done|].
  rewrite (strip_all_space _ Hsp). reflexivity.
Qed.

Lemma whitespace_body_is_no_data_witness :
  get_fire_data_brazil world_blank (started world_blank).1 5 (started world_blank).2 =
    (Ok None,
     add_log (sent (add_log (started world_blank).2 (preamble (started world_blank).1 5))
                   (build_url (started world_blank).1 (clamp_days 5)))
       [status_line (mkHTTPResponse 200 blank_body);
        mkLog WARNING "Response too short / no data"]).
Proof.
  apply (whitespace_body_is_no_data world_blank _ 5 (mkHTTPResponse 200 blank_body)).
  - reflexivity.
  - reflexivity.
  - vm_compute. repeat constructor.
Defined.

(** ** The summary on a failed fetch *)

(** For every feed-related failure, [GET /fire_data_brazil/summary] with
    a valid day count answers 200 with the three top-level fields
    present and empty: [{"overall_summary": {}, "by_day": {}, "by_week":
    {}}]. *)
Theorem summary_empty_on_failure W G q days s :
  validate_days q = Some days →
  feed_failure W (build_url G days) →
  (serve (fire_data_summary W G) q s).1 =
    {| status := 200; content := empty_summary; headers := CORS |}.
Proof.
  intros Hq Hfail. unfold serve. rewrite Hq. unfold fire_data_summary, bind.
  pose proof (clamp_days_in_range days (validate_days_Some _ _ Hq)) as Hclamp.
  rewrite <- Hclamp in Hfail.
  destruct (get_fire_data_brazil_failure W G days s Hfail) as (l & ->).
  reflexivity.
Qed.

Lemma summary_empty_on_failure_witness :
  (serve (fire_data_summary world_down (started world_down).1) (Some 5)
         (started world_down).2).1 =
    {| status := 200; content := empty_summary; headers := CORS |}.
Proof.
  apply (summary_empty_on_failure world_down _ (Some 5) 5).
  - reflexivity.
  - apply upstream_unreachable with (mkException ConnectionError "Connection refused").
    reflexivity.
Defined.

(** ** What the log tells *)

Lemma add_log_add_log s l1 l2 : add_log (add_log s l1) l2 = add_log s (l1 ++ l2).
Proof. unfold add_log. cbn [log fetched tick]. by rewrite <- app_assoc. Qed.

Lemma on_exception_last (e : Exception) (s : State) :
  ∃ l r, on_exception e s = (Ok None, add_log s (l ++ [r])) ∧ levelname r = ERROR.
Proof.
  unfold on_exception, bind, logger, ret, add_log.
  destruct (isinstance_Timeout e); [|destruct (isinstance_RequestException e)];
    cbn [log fetched tick].
  - eexists [], _. split; reflexivity.
  - eexists [], _. split; reflexivity.
  - rewrite <- app_assoc. eexists [_], _. split; reflexivity.
Qed.

Lemma fetch_failure_last W url s :
  feed_failure W url →
  ∃ l r, try_except (fetch W url) on_exception s =
           (Ok None, add_log (sent s url) (l ++ [r])) ∧
         levelname r ≠ INFO.
Proof.
  intros [e Hget | r Hget Hst | r Hget Hst Hlen | r e Hget Hst Hlen Hcsv
         | df [r Hget Hst Hlen Hcsv] Hempty
         | df [r Hget Hst Hlen Hcsv] Hempty Hcol
         | df e [r Hget Hst Hlen Hcsv] Hempty Hcol Hdates].
  - unfold try_except, fetch, bind, http_get. rewrite Hget.
    destruct (on_exception_last e (sent s url)) as (l & r & Hl & Hr).
    exists l, r. split; [exact Hl|]. by rewrite Hr.
  - eexists [_], _. split; [by apply fetch_non_200|done].
  - eexists [_], _. split; [by apply fetch_too_short|done].
  - unfold try_except. rewrite (fetch_long_200 _ _ _ _ Hget Hst Hlen), Hcsv.
    destruct (on_exception_last e (add_log (sent s url) [status_line r]))
      as (l & r' & -> & Hr).
    rewrite add_log_add_log. exists ([status_line r] ++ l)%list, r'.
    split; [by rewrite <- app_assoc|]. by rewrite Hr.
  - unfold try_except. rewrite (fetch_long_200 _ _ _ _ Hget Hst Hlen), Hcsv, Hempty.
    eexists [_], _. split; [reflexivity|done].
  - unfold try_except. rewrite (fetch_long_200 _ _ _ _ Hget Hst Hlen), Hcsv, Hempty.
    unfold bind. rewrite (transform_missing_column _ _ _ Hcol).
    destruct (on_exception_last (mkException KeyError "acq_date")
                (add_log (sent s url) [status_line r])) as (l & r' & -> & Hr).
    rewrite add_log_add_log. exists ([status_line r] ++ l)%list, r'.
    split; [by rewrite <- app_assoc|]. by rewrite Hr.
  - unfold try_except. rewrite (fetch_long_200 _ _ _ _ Hget Hst Hlen), Hcsv, Hempty.
    unfold bind. rewrite (transform_unparseable _ _ _ _ Hcol Hdates).
    destruct (on_exception_last e (add_log (sent s url) [status_line r]))
      as (l & r' & -> & Hr).
    rewrite add_log_add_log. exists ([status_line r] ++ l)%list, r'.
    split; [by rewrite <- app_assoc|]. by rewrite Hr.
Qed.

(** No failure is silent: whenever the fetch fails, in any of the ways
    of [feed_failure], the last record [get_fire_data_brazil] logs is a
    warning or an error. *)
Theorem failure_is_logged W G days s :
  feed_failure W (build_url G (clamp_days days)) →
  ∃ l r, log (final (get_fire_data_brazil W G days s)) = (log s ++ l ++ [r])%list ∧
         levelname r ≠ INFO.
Proof.
  intros Hf. rewrite get_fire_data_brazil_unfold.
  destruct (fetch_failure_last W _ (add_log s (preamble G days)) Hf)
    as (l & r & -> & Hr).
  exists (preamble G days ++ l)%list, r. split; [|done].
  unfold final, add_log, sent. cbn [snd log fetched tick].
  by rewrite <- !app_assoc.
Qed.

Lemma failure_is_logged_witness :
  ∃ l r, log (final (get_fire_data_brazil world_down (started world_down).1 5
                       (started world_down).2)) =
           (log (started world_down).2 ++ l ++ [r])%list ∧
         levelname r ≠ INFO.
Proof.
  apply (failure_is_logged world_down).
  apply upstream_unreachable with (mkException ConnectionError "Connection refused").
  reflexivity.
Defined.

(** On success with a day count in range nothing above INFO is logged:
    the call adds exactly three records, the request line, the status
    line and "Collected N records", N being the number of rows the
    upstream table has. *)
Theorem success_log W G days df ts s :
  pandas_contract W →
  1 ≤ days ≤ 10 →
  feed_success W (build_url G days) df ts →
  ∃ r, requests_get W (build_url G days) = Ok r ∧
    log (final (get_fire_data_brazil W G days s)) =
    (log s ++
     [mkLog INFO ("Requesting NASA FIRMS data: " +:+ build_url G days);
      status_line r;
      mkLog INFO ("Collected " +:+ pretty (Z.of_nat (length (rows df))) +:+ " records")])%list.
Proof.
  intros HW Hd [[r Hget Hst Hlen Hcsv] Hempty Hcol Hdates].
  exists r. split; [done|].
  rewrite get_fire_data_brazil_unfold.
  rewrite (clamp_days_in_range days Hd).
  unfold try_except. rewrite (fetch_long_200 _ _ _ _ Hget Hst Hlen), Hcsv, Hempty.
  unfold bind.
  rewrite (transform_reshape _ _ _ _ _ (getitem_column _ _ Hcol) Hdates).
  unfold ret, final. cbn [snd log].
  unfold df_len.
  pose proof (to_datetime_length W HW _ _ Hdates) as Hl. rewrite length_column in Hl.
  rewrite (length_reshape W _ df ts HW Hl).
  unfold add_log, sent, preamble. cbn [log fetched tick].
  assert (Hin : (days <? 1) || (days >? 10) = false).
  { rewrite Z.gtb_ltb. destruct Hd as [H1 H2].
    apply orb_false_iff. split; apply Z.ltb_ge; lia. }
  rewrite Hin, (clamp_days_in_range days Hd).
  rewrite <- !app_assoc. reflexivity.
Qed.

Lemma success_log_witness :
  ∃ r, requests_get world_three_rows (build_url (started world_three_rows).1 5) = Ok r ∧
    log (final (get_fire_data_brazil world_three_rows (started world_three_rows).1 5
                  (started world_three_rows).2)) =
    (log (started world_three_rows).2 ++
     [mkLog INFO ("Requesting NASA FIRMS data: " +:+
                  build_url (started world_three_rows).1 5);
      status_line r;
      mkLog INFO ("Collected " +:+ pretty (Z.of_nat (length (rows frame_three_rows))) +:+
                  " records")])%list.
Proof.
  apply (success_log world_three_rows _ 5 frame_three_rows dates_three_rows).
  - apply reference_world_contract.
  - lia.
  - apply csv_three_rows_success.
Defined.

(** ** The derived columns *)

Lemma cell_enrich_derived now r t :
  cell (enrich now r t) "data_coleta" = VStr (strftime_YmdHMS now) ∧
  cell (enrich now r t) "semana_ano" = dt_isocalendar_week (of_datetime t) ∧
  cell (enrich now r t) "mes_ano" = dt_strftime_Ym (of_datetime t) ∧
  cell (enrich now r t) "dia_semana" = dt_day_name (of_datetime t).
Proof. unfold enrich. rewrite !cell_insert. repeat split; reflexivity. Qed.

Lemma elem_of_rows_reshape W now df ts r :
  pandas_contract W → length ts = length (rows df) →
  r ∈ rows (reshape W now df ts) →
  ∃ i, (i < length (rows df))%nat ∧
       r = fill_row (columns (derive now df ts)) expected_cols
             (enrich now (rows df !!! i) (ts !!! i)).
Proof.
  intros HW Hlen Hr. rewrite reshape_eq in Hr. cbn [rows] in Hr.
  apply list_elem_of_fmap_1 in Hr as (i & -> & Hi).
  rewrite (row_order_perm W now df ts HW Hlen), elem_of_seq in Hi.
  exists i. split; [lia|]. rewrite lookup_total_rows_derive by (done || lia). reflexivity.
Qed.

Lemma derived_in_reshape W now df ts c :
  c ∈ ["acq_date"; "data_coleta"; "semana_ano"; "mes_ano"; "dia_semana"] →
  c ∈ columns (derive now df ts) ∧ c ∈ columns (reshape W now df ts).
Proof.
  intros Hc.
  assert (Hd : c ∈ columns (derive now df ts)) by (apply elem_of_columns_derive; by right).
  split; [done|]. rewrite reshape_eq. cbn [columns]. apply elem_of_fill_columns. by left.
Qed.

(** In every record of a successful result the derived fields agree
    with the record's own [acq_date], whatever the upstream table held
    under those names: [semana_ano] is its ISO week, [mes_ano] its
    year and month, [dia_semana] its day name (missing when the date is
    NaT), and [data_coleta] is the one clock reading taken during the
    call, the same in all records. *)
Theorem derived_columns_follow_acq_date W G days s df ts :
  pandas_contract W →
  feed_success W (build_url G (clamp_days days)) df ts →
  ∃ out, returned (get_fire_data_brazil W G days s) = Ok (Some out) ∧
    ∀ rec, rec ∈ to_dict_records out →
      ∃ t : option Timestamp,
        dict_get rec "acq_date" = Some (of_datetime t) ∧
        dict_get rec "data_coleta" =
          Some (VStr (strftime_YmdHMS (wall_clock W (tick s)))) ∧
        dict_get rec "semana_ano" = Some (dt_isocalendar_week (of_datetime t)) ∧
        dict_get rec "mes_ano" = Some (dt_strftime_Ym (of_datetime t)) ∧
        dict_get rec "dia_semana" = Some (dt_day_name (of_datetime t)).
Proof.
  intros HW Hs. exists (reshape W (wall_clock W (tick s)) df ts).
  split; [by apply returned_success|].
  destruct Hs as [_ _ _ Hts].
  pose proof (to_datetime_length W HW _ _ Hts) as Hlen. rewrite length_column in Hlen.
  set (now := wall_clock W (tick s)).
  intros rec (r & Hr & ->)%elem_of_to_dict_records.
  apply (elem_of_rows_reshape W now df ts r HW Hlen) in Hr as (i & Hi & ->).
  exists (ts !!! i).
  destruct (cell_enrich_derived now (rows df !!! i) (ts !!! i)) as (H1 & H2 & H3 & H4).
  assert (Hget : ∀ c v,
    c ∈ ["acq_date"; "data_coleta"; "semana_ano"; "mes_ano"; "dia_semana"] →
    cell (enrich now (rows df !!! i) (ts !!! i)) c = v →
    dict_get ((λ c, (c, cell (fill_row (columns (derive now df ts)) expected_cols
                               (enrich now (rows df !!! i) (ts !!! i))) c))
              <$> columns (reshape W now df ts)) c = Some v).
  { intros c v Hc <-. destruct (derived_in_reshape W now df ts c Hc) as [Hd Hin].
    rewrite (dict_get_record _ _ _ Hin). f_equal. by apply cell_fill_row_present. }
  split; [apply (Hget "acq_date"); [rewrite !elem_of_cons; tauto|apply cell_enrich_acq_date]|].
  split; [apply (Hget "data_coleta"); [rewrite !elem_of_cons; tauto|exact H1]|].
  split; [apply (Hget "semana_ano"); [rewrite !elem_of_cons; tauto|exact H2]|].
  split; [apply (Hget "mes_ano"); [rewrite !elem_of_cons; tauto|exact H3]|].
  apply (Hget "dia_semana"); [rewrite !elem_of_cons; tauto|exact H4].
Qed.

Lemma derived_columns_follow_acq_date_witness :
  ∃ out, returned (get_fire_data_brazil world_three_rows (started world_three_rows).1 5
                     (started world_three_rows).2) = Ok (Some out) ∧
    ∀ rec, rec ∈ to_dict_records out →
      ∃ t : option Timestamp,
        dict_get rec "acq_date" = Some (of_datetime t) ∧
        dict_get rec "data_coleta" =
          Some (VStr (strftime_YmdHMS
                        (wall_clock world_three_rows (tick (started world_three_rows).2)))) ∧
        dict_get rec "semana_ano" = Some (dt_isocalendar_week (of_datetime t)) ∧
        dict_get rec "mes_ano" = Some (dt_strftime_Ym (of_datetime t)) ∧
        dict_get rec "dia_semana" = Some (dt_day_name (of_datetime t)).
Proof.
  apply (derived_columns_follow_acq_date world_three_rows _ 5 _
           frame_three_rows dates_three_rows).
  - apply reference_world_contract.
  - apply csv_three_rows_success.
Defined.

(** ** The expected columns *)

Lemma returned_frame_has_expected_cols_witness :
  has_column (reshape world_without_frp
                (wall_clock world_without_frp (tick (started world_without_frp).2))
                {| columns := ["latitude"; "longitude"; "bright_ti4"; "acq_date";
                               "acq_time"; "confidence"; "daynight"];
                   rows := parse_row ["latitude"; "longitude"; "bright_ti4"; "acq_date";
                                      "acq_time"; "confidence"; "daynight"]
                           <$> ["-20.5,-50.25,330.5,2024-01-02,1630,n,D";
                                "-21.5,-51.25,310.5,2024-01-02,1631,h,D";
                                "-22.5,-52.25,300.0,2024-01-03,430,l,N"] |}
                dates_three_rows) "frp" = true.
Proof.
  apply (returned_frame_has_expected_cols world_without_frp
           (started world_without_frp).1 5 (started world_without_frp).2).
  - vm_compute. reflexivity.
  - apply (bool_decide_unpack _). vm_compute. exact I.
Defined.

(** ** What the JSON encoder refuses *)

Lemma json_list_cons x l :
  json_dumps_error (PyList (x :: l)) =
  match json_dumps_error x with
  | Some e => Some e
  | None => json_dumps_error (PyList l)
  end.
Proof. reflexivity. Qed.

Lemma json_dict_cons k x items :
  json_dumps_error (PyDict ((k, x) :: items)) =
  if json_key_ok k then
    match json_dumps_error x with
    | Some e => Some e
    | None => json_dumps_error (PyDict items)
    end
  else Some (mkException TypeError "keys must be str, int, float, bool or None").
Proof. reflexivity. Qed.

Lemma json_list_error l x :
  x ∈ l → is_Some (json_dumps_error x) → is_Some (json_dumps_error (PyList l)).
Proof.
  induction l as [|y l IH]; intros Hx Hs; [by apply elem_of_nil in Hx|].
  rewrite json_list_cons. apply elem_of_cons in Hx as [<-|Hx].
  - destruct Hs as [e ->]. eauto.
  - destruct (json_dumps_error y); [eauto|by apply IH].
Qed.

Lemma json_dict_error items k x :
  (k, x) ∈ items → is_Some (json_dumps_error x) →
  is_Some (json_dumps_error (PyDict items)).
Proof.
  induction items as [|[k' y] items IH]; intros Hx Hs; [by apply elem_of_nil in Hx|].
  rewrite json_dict_cons. destruct (json_key_ok k'); [|eauto].
  apply elem_of_cons in Hx as [[= <- <-]|Hx].
  - destruct Hs as [e ->]. eauto.
  - destruct (json_dumps_error y); [eauto|by apply IH].
Qed.

Lemma json_datetime_error (t : option Timestamp) :
  is_Some (json_dumps_error (box (of_datetime t))).
Proof. destruct t; cbn; eauto. Qed.

(** A record that holds a datetime cannot be encoded. *)
Lemma json_record_error (rec : list (string * value)) (c : string) (t : option Timestamp) :
  (c, of_datetime t) ∈ rec → is_Some (json_dumps_error (box_record rec)).
Proof.
  intros Hin. unfold box_record.
  apply json_dict_error with (PyStr c) (box (of_datetime t)).
  - apply (list_elem_of_fmap_2 (λ kv : string * value, (PyStr kv.1, box kv.2)) _ _ Hin).
  - apply json_datetime_error.
Qed.

(** ** The handlers on a successful fetch *)

Lemma df_empty_reshape W now df ts :
  pandas_contract W → length ts = length (rows df) → df_empty df = false →
  df_empty (reshape W now df ts) = false.
Proof.
  intros HW Hlen Hne. unfold df_empty.
  pose proof (expected_in_reshape W now df ts "frp") as Hc.
  pose proof (length_reshape W now df ts HW Hlen) as Hl.
  apply df_empty_false_rows in Hne.
  destruct (columns (reshape W now df ts)) as [|c0 cs].
  - exfalso. eapply elem_of_nil, Hc. apply (bool_decide_unpack _). vm_compute. exact I.
  - destruct (rows (reshape W now df ts)) as [|r0 rs]; [|reflexivity].
    destruct (rows df); [done|discriminate Hl].
Qed.

Lemma is_usable_reshape W now df ts :
  pandas_contract W → length ts = length (rows df) → df_empty df = false →
  is_usable (Some (reshape W now df ts)) = Some (reshape W now df ts).
Proof.
  intros HW Hlen Hne. unfold is_usable.
  by rewrite (df_empty_reshape W now df ts HW Hlen Hne).
Qed.

Lemma acq_date_in_reshape W now df ts : "acq_date" ∈ columns (reshape W now df ts).
Proof. apply expected_in_reshape. apply (bool_decide_unpack _). vm_compute. exact I. Qed.

(** Every record of the reshaped frame holds a datetime under
    [acq_date]. *)
Lemma records_hold_datetime W now df ts rec :
  pandas_contract W → length ts = length (rows df) →
  rec ∈ to_dict_records (reshape W now df ts) →
  ∃ t, ("acq_date", of_datetime t) ∈ rec.
Proof.
  intros HW Hlen (r & Hr & ->)%elem_of_to_dict_records.
  apply (elem_of_rows_reshape W now df ts r HW Hlen) in Hr as (i & Hi & ->).
  exists (ts !!! i).
  apply list_elem_of_fmap. exists "acq_date". split; [|apply acq_date_in_reshape].
  f_equal. rewrite cell_fill_row_present by apply acq_date_in_derive.
  by rewrite cell_enrich_acq_date.
Qed.

(** On every successful fetch [read_fire_data] lets an exception
    through and the request ends with status 500: the records it hands
    to [JSONResponse] hold pandas timestamps under [acq_date], which the
    JSON encoder does not take (and when every date is NaT, [strftime]
    on the period bounds fails first). The endpoint returns records for
    no input. *)
Theorem read_fire_data_raises_on_success W G days df ts s :
  pandas_contract W →
  feed_success W (build_url G (clamp_days days)) df ts →
  ∃ e, returned (read_fire_data W G days s) = Raise e.
Proof.
  intros HW Hs.
  destruct (get_fire_data_brazil_success W G days df ts s Hs) as (l & Hrun).
  destruct Hs as [_ Hne _ Hts].
  pose proof (to_datetime_length W HW _ _ Hts) as Hlen. rewrite length_column in Hlen.
  set (now := wall_clock W (tick s)) in *.
  unfold returned, read_fire_data, bind. rewrite Hrun.
  rewrite (is_usable_reshape W now df ts HW Hlen Hne).
  unfold lift. rewrite (getitem_column _ _ (acq_date_in_reshape W now df ts)).
  destruct (timestamp_strftime_Ymd (datetime_min _)) as [p1|e1]; [|eauto].
  destruct (timestamp_strftime_Ymd (datetime_max _)) as [p2|e2]; [|eauto].
  unfold datetime_now, JSONResponse. cbn [log fetched tick].
  match goal with |- context [json_dumps_error ?c] =>
    assert (Herr : is_Some (json_dumps_error c)) end.
  { eapply json_dict_error; [apply list_elem_of_further, list_elem_of_here|].
    pose proof (reshape_records_nonempty W now df ts HW Hne Hts) as Hrec.
    destruct (to_dict_records (reshape W now df ts)) as [|rec recs] eqn:Erecs; [done|].
    destruct (records_hold_datetime W now df ts rec HW Hlen) as (t & Ht).
    { rewrite Erecs. apply list_elem_of_here. }
    cbn [fmap list_fmap]. rewrite json_list_cons.
    destruct (json_record_error rec "acq_date" t Ht) as [e ->]. eauto. }
  destruct Herr as [e ->]. eauto.
Qed.

Lemma read_fire_data_raises_on_success_witness :
  ∃ e, returned (read_fire_data world_three_rows (started world_three_rows).1 5
                   (started world_three_rows).2) = Raise e.
Proof.
  apply (read_fire_data_raises_on_success world_three_rows _ 5
           frame_three_rows dates_three_rows).
  - apply reference_world_contract.
  - apply csv_three_rows_success.
Defined.

(** ** Grouping and counting *)

Lemma count_key_nonempty k acc : count_key k acc ≠ [].
Proof.
  destruct acc as [|[k' n] acc]; cbn; [done|].
  destruct (k <? k'); [done|]. by destruct (k =? k').
Qed.

Lemma groupby_fold_nonempty keys acc :
  acc ≠ [] →
  fold_left (λ acc k, match k with Some k => count_key k acc | None => acc end)
            keys acc ≠ [].
Proof.
  revert acc. induction keys as [|[k|] keys IH]; intros acc Hacc; cbn; [done| |by apply IH].
  apply IH, count_key_nonempty.
Qed.

Lemma groupby_fold_some keys k acc :
  Some k ∈ keys →
  fold_left (λ acc k, match k with Some k => count_key k acc | None => acc end)
            keys acc ≠ [].
Proof.
  revert acc. induction keys as [|[k'|] keys IH]; intros acc Hin; cbn.
  - by apply elem_of_nil in Hin.
  - apply groupby_fold_nonempty, count_key_nonempty.
  - apply IH. apply elem_of_cons in Hin as [?|?]; [discriminate|done].
Qed.

Lemma groupby_size_nonempty keys k : Some k ∈ keys → groupby_size keys ≠ [].
Proof. apply groupby_fold_some. Qed.

(** The keys of the accumulator stay strictly ascending. *)
Lemma count_key_keys k acc x :
  x ∈ (count_key k acc).*1 → x = k ∨ x ∈ acc.*1.
Proof.
  induction acc as [|[k' n] acc IH]; cbn.
  - rewrite list_elem_of_singleton. auto.
  - destruct (k <? k'); [|destruct (k =? k')]; cbn; rewrite !elem_of_cons; intros H.
    + tauto.
    + tauto.
    + destruct H as [->|H]; [auto|]. destruct (IH H); auto.
Qed.

Lemma count_key_sorted k acc :
  StronglySorted Z.lt acc.*1 → StronglySorted Z.lt (count_key k acc).*1.
Proof.
  induction acc as [|[k' n] acc IH]; intros Hs; cbn.
  - repeat constructor.
  - apply StronglySorted_inv in Hs as [Hs Hall]. cbn in Hs, Hall.
    destruct (k <? k') eqn:E1; [|destruct (k =? k') eqn:E2]; cbn.
    + apply Z.ltb_lt in E1. constructor; [by constructor|].
      constructor; [done|]. eapply Forall_impl; [exact Hall|]. cbn. intros; lia.
    + by constructor.
    + apply Z.ltb_ge in E1. apply Z.eqb_neq in E2. constructor; [by apply IH|].
      apply Forall_forall. intros x Hx. apply count_key_keys in Hx as [->|Hx]; [lia|].
      by eapply Forall_forall in Hall.
Qed.

Lemma count_of_absent acc k :
  Forall (Z.lt k) acc.*1 → count_of acc k = 0.
Proof.
  induction acc as [|[k' n] acc IH]; cbn; [done|]. intros H.
  apply Forall_cons in H as [H1 H2]. cbn in H1.
  destruct (k =? k') eqn:E; [apply Z.eqb_eq in E; lia|]. by apply IH.
Qed.

Lemma count_of_count_key k acc x :
  StronglySorted Z.lt acc.*1 →
  count_of (count_key k acc) x = count_of acc x + (if x =? k then 1 else 0).
Proof.
  induction acc as [|[k' n] acc IH]; intros Hs; cbn.
  - destruct (x =? k); lia.
  - apply StronglySorted_inv in Hs as [Hs Hall]. cbn in Hs, Hall.
    destruct (k <? k') eqn:E1; [|destruct (k =? k') eqn:E2]; cbn.
    + apply Z.ltb_lt in E1. destruct (x =? k) eqn:E3; [|lia].
      apply Z.eqb_eq in E3. subst x.
      destruct (k =? k') eqn:E4; [apply Z.eqb_eq in E4; lia|].
      rewrite count_of_absent; [lia|].
      eapply Forall_impl; [exact Hall|]. cbn. intros; lia.
    + apply Z.eqb_eq in E2. subst k'.
      destruct (x =? k); lia.
    + apply Z.eqb_neq in E2. destruct (x =? k') eqn:E3.
      * apply Z.eqb_eq in E3. subst x.
        destruct (k' =? k) eqn:E4; [apply Z.eqb_eq in E4; lia|lia].
      * by apply IH.
Qed.

Lemma groupby_fold_spec keys acc :
  StronglySorted Z.lt acc.*1 →
  let out := fold_left (λ acc k, match k with Some k => count_key k acc | None => acc end)
                       keys acc in
  StronglySorted Z.lt out.*1 ∧
  ∀ x, count_of out x = count_of acc x + occurrences x keys.
Proof.
  revert acc. induction keys as [|[k|] keys IH]; intros acc Hs; cbn [fold_left occurrences].
  - split; [done|]. intros; lia.
  - destruct (IH (count_key k acc) (count_key_sorted k acc Hs)) as [H1 H2].
    split; [done|]. intros x. rewrite H2, count_of_count_key by done. lia.
  - by apply IH.
Qed.

(** [groupby(keys).size()] holds, for every key, the number of elements
    with that key, under keys that are strictly ascending (so each key
    is there once) and that all occur. *)
Lemma groupby_size_spec keys :
  StronglySorted Z.lt (groupby_size keys).*1 ∧
  (∀ x, count_of (groupby_size keys) x = occurrences x keys) ∧
  (∀ x n, (x, n) ∈ groupby_size keys → n = occurrences x keys ∧ 0 < n).
Proof.
  destruct (groupby_fold_spec keys [] (SSorted_nil _)) as [Hs Hc].
  fold (groupby_size keys) in Hs, Hc.
  assert (Hc' : ∀ x, count_of (groupby_size keys) x = occurrences x keys).
  { intros x. rewrite Hc. cbn [count_of]. lia. }
  clear Hc. rename Hc' into Hc.
  split; [done|]. split; [done|].
  assert (Hpos : ∀ acc, Forall (λ kn : Z * Z, 0 < kn.2) acc →
    Forall (λ kn : Z * Z, 0 < kn.2)
      (fold_left (λ acc k, match k with Some k => count_key k acc | None => acc end)
                 keys acc)).
  { clear. induction keys as [|[k|] keys IH]; intros acc Hacc; cbn; [done| |by apply IH].
    apply IH. clear IH. induction Hacc as [|[k' n] acc Hn Hacc IHacc]; cbn.
    - by repeat constructor.
    - cbn in Hn. destruct (k <? k'); [|destruct (k =? k')].
      + constructor; [done|]. by constructor.
      + constructor; [cbn; lia|done].
      + by constructor. }
  specialize (Hpos [] (Forall_nil_2 _)). fold (groupby_size keys) in Hpos.
  intros x n Hin. split; [|by eapply Forall_forall in Hpos; [|exact Hin]].
  rewrite <- Hc. clear Hc Hpos. revert Hs Hin.
  generalize (groupby_size keys) as d.
  induction d as [|[k' n'] d IH]; intros Hs Hin; [by apply elem_of_nil in Hin|].
  cbn in Hs. apply StronglySorted_inv in Hs as [Hs Hall]. cbn.
  apply elem_of_cons in Hin as [[= <- <-]|Hin].
  - by rewrite Z.eqb_refl.
  - destruct (x =? k') eqn:E; [|by apply IH].
    apply Z.eqb_eq in E. subst k'. exfalso.
    apply (list_elem_of_fmap_2 fst) in Hin. cbn in Hin.
    eapply Forall_forall in Hall; [|exact Hin]. lia.
Qed.

(** ** The summary on a successful fetch *)

Lemma summary_of_Ok df s v s' :
  summary_of df s = (Ok v, s') →
  ∃ acq week t1 t2 ab ar,
    getitem df "acq_date" = Ok acq ∧ getitem df "semana_ano" = Ok week ∧
    datetime_min acq = Some t1 ∧ datetime_max acq = Some t2 ∧ s' = s ∧
    v = PyDict
          [(PyStr "overall_summary",
            PyDict [(PyStr "total_fires", PyInt (df_len df));
                    (PyStr "period_start", PyStr (strftime_Ymd t1));
                    (PyStr "period_end", PyStr (strftime_Ymd t2));
                    (PyStr "avg_brightness", ab);
                    (PyStr "avg_radiative_power", ar)]);
           (PyStr "by_day",
            PyDict ((λ kn, (PyDate kn.1, PyInt kn.2)) <$> groupby_size (dt_date <$> acq)));
           (PyStr "by_week",
            PyDict ((λ kn, (PyInt kn.1, PyInt kn.2)) <$> groupby_size (week_key <$> week)))].
Proof.
  unfold summary_of, bind, lift, ret.
  destruct (getitem df "acq_date") as [acq|] eqn:Hacq; [|discriminate].
  destruct (datetime_min acq) as [t1|] eqn:Hmin; cbn [timestamp_strftime_Ymd]; [|discriminate].
  destruct (datetime_max acq) as [t2|] eqn:Hmax; cbn [timestamp_strftime_Ymd]; [|discriminate].
  destruct (getitem df "bright_ti4") as [bright|]; [|discriminate].
  destruct (series_mean bright) as [bm|]; [|discriminate].
  destruct (py_float bm) as [ab|]; [|discriminate].
  destruct (has_column df "frp").
  - destruct (getitem df "frp") as [frp|]; [|discriminate].
    destruct (series_mean frp) as [fm|]; [|discriminate].
    destruct (py_float fm) as [ar|]; [|discriminate].
    destruct (getitem df "semana_ano") as [week|]; [|discriminate].
    intros [= <- <-]. exists acq, week, t1, t2, ab, ar. repeat split; assumption.
  - destruct (getitem df "semana_ano") as [week|]; [|discriminate].
    intros [= <- <-]. exists acq, week, t1, t2, ab, PyNone. repeat split; assumption.
Qed.

(** The dict [fire_data_summary] builds, before it is encoded:
    [total_fires] is the number of rows of the frame, and [by_day] has
    one entry per calendar date that occurs in [acq_date], in ascending
    order of date, whose count is the number of rows of that date (rows
    without a date are left out). *)
Theorem summary_counts_rows_per_day df s v s' :
  summary_of df s = (Ok v, s') →
  py_path v "overall_summary" "total_fires" = Some (PyInt (Z.of_nat (length (rows df)))) ∧
  ∃ by_day,
    py_item v "by_day" = Some (PyDict ((λ kn, (PyDate kn.1, PyInt kn.2)) <$> by_day)) ∧
    StronglySorted Z.lt by_day.*1 ∧
    (∀ d n, (d, n) ∈ by_day →
       n = occurrences d (dt_date <$> column df "acq_date") ∧ 0 < n) ∧
    (∀ d, count_of by_day d = occurrences d (dt_date <$> column df "acq_date")).
Proof.
  intros (acq & week & t1 & t2 & ab & ar & Hacq & _ & _ & _ & _ & ->)%summary_of_Ok.
  apply getitem_Ok in Hacq as [_ ->].
  split; [reflexivity|].
  exists (groupby_size (dt_date <$> column df "acq_date")).
  split; [reflexivity|].
  destruct (groupby_size_spec (dt_date <$> column df "acq_date")) as (H1 & H2 & H3).
  auto.
Qed.

Lemma datetime_min_Some acq t :
  datetime_min acq = Some t → ∃ t', VTimestamp t' ∈ acq.
Proof.
  unfold datetime_min. destruct (omap sort_key acq) as [|x xs] eqn:E; [discriminate|].
  intros _. assert (Hx : x ∈ omap sort_key acq) by (rewrite E; apply list_elem_of_here).
  apply list_elem_of_omap in Hx as (v & Hv & Hk).
  destruct v; try discriminate. injection Hk as ->. eauto.
Qed.

Lemma summary_not_encodable df s v s' :
  summary_of df s = (Ok v, s') → is_Some (json_dumps_error v).
Proof.
  intros (acq & week & t1 & t2 & ab & ar & _ & _ & Hmin & _ & _ & ->)%summary_of_Ok.
  apply datetime_min_Some in Hmin as (t' & Ht').
  assert (Hne : groupby_size (dt_date <$> acq) ≠ []).
  { apply groupby_size_nonempty with (epoch_day t').
    apply (list_elem_of_fmap_2 dt_date _ _ Ht'). }
  rewrite json_dict_cons. cbn [json_key_ok].
  destruct (json_dumps_error (PyDict _)); [eauto|].
  rewrite json_dict_cons. cbn [json_key_ok].
  destruct (groupby_size (dt_date <$> acq)) as [|[k n] rest]; [done|].
  cbn [fmap list_fmap]. rewrite json_dict_cons. cbn. eauto.
Qed.

(** On every successful fetch [fire_data_summary] lets an exception
    through and the request ends with status 500: when the summary dict
    can be built at all, its [by_day] has [datetime.date] keys, which
    the JSON encoder refuses. The endpoint returns a non-empty summary
    for no input. *)
Theorem fire_data_summary_raises_on_success W G days df ts s :
  pandas_contract W →
  feed_success W (build_url G (clamp_days days)) df ts →
  ∃ e, returned (fire_data_summary W G days s) = Raise e.
Proof.
  intros HW Hs.
  destruct (get_fire_data_brazil_success W G days df ts s Hs) as (l & Hrun).
  destruct Hs as [_ Hne _ Hts].
  pose proof (to_datetime_length W HW _ _ Hts) as Hlen. rewrite length_column in Hlen.
  set (now := wall_clock W (tick s)) in *.
  unfold returned, fire_data_summary, bind. rewrite Hrun.
  rewrite (is_usable_reshape W now df ts HW Hlen Hne).
  destruct (summary_of (reshape W now df ts) _) as [[v|e] s2] eqn:Hsum; [|eauto].
  unfold JSONResponse.
  destruct (summary_not_encodable _ _ _ _ Hsum) as [e ->]. eauto.
Qed.

Lemma fire_data_summary_raises_on_success_witness :
  ∃ e, returned (fire_data_summary world_three_rows (started world_three_rows).1 5
                   (started world_three_rows).2) = Raise e.
Proof.
  apply (fire_data_summary_raises_on_success world_three_rows _ 5
           frame_three_rows dates_three_rows).
  - apply reference_world_contract.
  - apply csv_three_rows_success.
Defined.

Lemma summary_counts_rows_per_day_witness :
  py_path summary_three_rows "overall_summary" "total_fires" =
    Some (PyInt (Z.of_nat (length (rows returned_three_rows)))) ∧
  ∃ by_day,
    py_item summary_three_rows "by_day" =
      Some (PyDict ((λ kn, (PyDate kn.1, PyInt kn.2)) <$> by_day)) ∧
    StronglySorted Z.lt by_day.*1 ∧
    (∀ d n, (d, n) ∈ by_day →
       n = occurrences d (dt_date <$> column returned_three_rows "acq_date") ∧ 0 < n) ∧
    (∀ d, count_of by_day d =
          occurrences d (dt_date <$> column returned_three_rows "acq_date")).
Proof.
  apply (summary_counts_rows_per_day returned_three_rows s0 summary_three_rows s0).
  vm_compute. reflexivity.
Defined.

(** ** A feed without dates *)

Lemma lookup_total_all_None (ts : list (option Timestamp)) (i : nat) :
  Forall (λ t, t = None) ts → ts !!! i = None.
Proof.
  intros H. rewrite list_lookup_total_alt.
  destruct (ts !! i) as [t|] eqn:E; [|reflexivity].
  apply list_elem_of_lookup_2 in E. cbn. by eapply Forall_forall in H; [|exact E].
Qed.

Lemma omap_all_None {A B} (f : A → option B) (l : list A) :
  Forall (λ x, x = None) (f <$> l) → omap f l = [].
Proof.
  induction l as [|x l IH]; [reflexivity|]. cbn [fmap list_fmap].
  intros [Hx Hl]%Forall_cons. cbn. rewrite Hx. by apply IH.
Qed.

Lemma no_dates_in_reshape W now df ts :
  pandas_contract W → length ts = length (rows df) →
  Forall (λ t, t = None) ts →
  omap sort_key (column (reshape W now df ts) "acq_date") = [].
Proof.
  intros HW Hlen Hnone. apply omap_all_None.
  rewrite (keys_reshape W now df ts HW Hlen), (keys_derive now df ts Hlen).
  apply Forall_fmap, Forall_forall. intros i _. cbn. by apply lookup_total_all_None.
Qed.

(** A table whose [acq_date] cells are all missing is not a failure for
    [get_fire_data_brazil]: [to_datetime] turns them into NaT and a
    frame is returned. Both handlers then fail on it, outside any
    handler of exceptions: the smallest date is NaT, and NaT has no
    [strftime]. *)
Theorem missing_dates_break_the_handlers W G days df ts s :
  pandas_contract W →
  feed_success W (build_url G (clamp_days days)) df ts →
  Forall (λ t, t = None) ts →
  (∃ out, returned (get_fire_data_brazil W G days s) = Ok (Some out) ∧
          length (rows out) = length (rows df)) ∧
  returned (read_fire_data W G days s) =
    Raise (mkException ValueError "NaTType does not support strftime") ∧
  returned (fire_data_summary W G days s) =
    Raise (mkException ValueError "NaTType does not support strftime").
Proof.
  intros HW Hs Hnone.
  destruct (get_fire_data_brazil_success W G days df ts s Hs) as (l & Hrun).
  pose proof (returned_success W G days df ts s Hs) as Hret.
  destruct Hs as [_ Hne _ Hts].
  pose proof (to_datetime_length W HW _ _ Hts) as Hlen. rewrite length_column in Hlen.
  set (now := wall_clock W (tick s)) in *.
  pose proof (no_dates_in_reshape W now df ts HW Hlen Hnone) as Hom.
  split; [|split].
  - exists (reshape W now df ts). split; [done|]. by apply length_reshape.
  - unfold returned, read_fire_data, bind. rewrite Hrun.
    rewrite (is_usable_reshape W now df ts HW Hlen Hne).
    unfold lift. rewrite (getitem_column _ _ (acq_date_in_reshape W now df ts)).
    unfold datetime_min. rewrite Hom. reflexivity.
  - unfold returned, fire_data_summary, bind. rewrite Hrun.
    rewrite (is_usable_reshape W now df ts HW Hlen Hne).
    unfold summary_of, bind, lift.
    rewrite (getitem_column _ _ (acq_date_in_reshape W now df ts)).
    unfold datetime_min. rewrite Hom. reflexivity.
Qed.

Lemma csv_no_dates_success :
  feed_success world_no_dates (build_url (started world_no_dates).1 (clamp_days 5))
    frame_no_dates [None; None].
Proof.
  constructor.
  - apply Parsed with (mkHTTPResponse 200 csv_no_dates).
    + reflexivity.
    + reflexivity.
    + vm_compute. discriminate.
    + vm_compute. reflexivity.
  - reflexivity.
  - unfold frame_no_dates. cbn [columns]. rewrite !elem_of_cons. tauto.
  - vm_compute. reflexivity.
Qed.

Lemma missing_dates_break_the_handlers_witness :
  (∃ out, returned (get_fire_data_brazil world_no_dates (started world_no_dates).1 5
                      (started world_no_dates).2) = Ok (Some out) ∧
          length (rows out) = length (rows frame_no_dates)) ∧
  returned (read_fire_data world_no_dates (started world_no_dates).1 5
              (started world_no_dates).2) =
    Raise (mkException ValueError "NaTType does not support strftime") ∧
  returned (fire_data_summary world_no_dates (started world_no_dates).1 5
              (started world_no_dates).2) =
    Raise (mkException ValueError "NaTType does not support strftime").
Proof.
  apply (missing_dates_break_the_handlers world_no_dates _ 5 frame_no_dates [None; None]).
  - apply reference_world_contract.
  - apply csv_no_dates_success.
  - repeat constructor.
Defined.

(** ** Which [except] clause answers *)

Lemma on_exception_report (e : Exception) (s : State) :
  on_exception e s = (Ok None, add_log s (exception_report e)).
Proof.
  unfold on_exception, exception_report, isinstance_Timeout,
    isinstance_RequestException, bind, logger, ret, add_log.
  destruct (exc_class e); cbn [log fetched tick]; rewrite <- ?app_assoc; reflexivity.
Qed.

(** When [requests.get] raises, the call returns [None] and what it
    logs depends on the class of the exception alone: a [Timeout] is
    reported by the one record "Timeout connecting to NASA FIRMS
    (60s)." (the first clause wins, though a [Timeout] is also a
    [RequestException]), any other exception of [requests] by "Request
    error: ..." and anything else by "Unexpected error: ..." followed
    by the traceback. *)
Theorem request_exception_report W G days e s :
  requests_get W (build_url G (clamp_days days)) = Raise e →
  get_fire_data_brazil W G days s =
    (Ok None,
     add_log (sent (add_log s (preamble G days)) (build_url G (clamp_days days)))
             (exception_report e)).
Proof.
  intros Hget. rewrite get_fire_data_brazil_unfold.
  unfold try_except, fetch, bind, http_get. rewrite Hget.
  apply on_exception_report.
Qed.

Lemma request_exception_report_witness :
  get_fire_data_brazil world_timeout (started world_timeout).1 5 (started world_timeout).2 =
    (Ok None,
     add_log (sent (add_log (started world_timeout).2 (preamble (started world_timeout).1 5))
                   (build_url (started world_timeout).1 (clamp_days 5)))
             [mkLog ERROR "Timeout connecting to NASA FIRMS (60s)."]).
Proof.
  apply (request_exception_report world_timeout _ 5
           (mkException Timeout "Read timed out. (read timeout=60)")).
  reflexivity.
Defined.

(** ** The period bounds *)

Lemma fold_min_spec (ts : list Z) (t : Z) :
  let m := fold_left Z.min ts t in
  (m = t ∨ m ∈ ts) ∧ m ≤ t ∧ Forall (λ x, m ≤ x) ts.
Proof.
  revert t. induction ts as [|x ts IH]; intros t; cbn.
  - repeat split; [by left|lia|constructor].
  - destruct (IH (Z.min t x)) as ([Hm|Hm] & Hle & Hall).
    + split; [|split].
      * rewrite Hm. destruct (Z.min_spec t x) as [[_ ->]|[_ ->]];
          [by left|right; apply list_elem_of_here].
      * lia.
      * constructor; [lia|done].
    + split; [right; by apply list_elem_of_further|]. split; [lia|].
      constructor; [lia|done].
Qed.

Lemma fold_max_spec (ts : list Z) (t : Z) :
  let m := fold_left Z.max ts t in
  (m = t ∨ m ∈ ts) ∧ t ≤ m ∧ Forall (λ x, x ≤ m) ts.
Proof.
  revert t. induction ts as [|x ts IH]; intros t; cbn.
  - repeat split; [by left|lia|constructor].
  - destruct (IH (Z.max t x)) as ([Hm|Hm] & Hle & Hall).
    + split; [|split].
      * rewrite Hm. destruct (Z.max_spec t x) as [[_ ->]|[_ ->]];
          [right; apply list_elem_of_here|by left].
      * lia.
      * constructor; [lia|done].
    + split; [right; by apply list_elem_of_further|]. split; [lia|].
      constructor; [lia|done].
Qed.

Lemma sort_key_Some (v : value) (t : Timestamp) :
  sort_key v = Some t ↔ v = VTimestamp t.
Proof. destruct v; cbn; split; intros H; try discriminate; by injection H as ->. Qed.

Lemma datetime_min_spec col t :
  datetime_min col = Some t →
  VTimestamp t ∈ col ∧ ∀ t', VTimestamp t' ∈ col → t ≤ t'.
Proof.
  unfold datetime_min. destruct (omap sort_key col) as [|x xs] eqn:E; [discriminate|].
  intros [= <-]. destruct (fold_min_spec xs x) as (Hin & Hle & Hall).
  assert (Hmem : ∀ y, y ∈ x :: xs ↔ VTimestamp y ∈ col).
  { intros y. rewrite <- E, list_elem_of_omap. split.
    - intros (v & Hv & ->%sort_key_Some). done.
    - intros Hy. exists (VTimestamp y). done. }
  split.
  - apply Hmem. destruct Hin as [->|Hin]; [apply list_elem_of_here|by apply list_elem_of_further].
  - intros t' [->|Ht']%Hmem%elem_of_cons; [done|].
    by eapply Forall_forall in Hall; [|exact Ht'].
Qed.

Lemma datetime_max_spec col t :
  datetime_max col = Some t →
  VTimestamp t ∈ col ∧ ∀ t', VTimestamp t' ∈ col → t' ≤ t.
Proof.
  unfold datetime_max. destruct (omap sort_key col) as [|x xs] eqn:E; [discriminate|].
  intros [= <-]. destruct (fold_max_spec xs x) as (Hin & Hle & Hall).
  assert (Hmem : ∀ y, y ∈ x :: xs ↔ VTimestamp y ∈ col).
  { intros y. rewrite <- E, list_elem_of_omap. split.
    - intros (v & Hv & ->%sort_key_Some). done.
    - intros Hy. exists (VTimestamp y). done. }
  split.
  - apply Hmem. destruct Hin as [->|Hin]; [apply list_elem_of_here|by apply list_elem_of_further].
  - intros t' [->|Ht']%Hmem%elem_of_cons; [done|].
    by eapply Forall_forall in Hall; [|exact Ht'].
Qed.

(** In the dict [fire_data_summary] builds, [period_start] and
    [period_end] are the dates of the earliest and of the latest of the
    timestamps in [acq_date]: both occur in the column and every
    timestamp of the column lies between them. *)
Theorem summary_period_bounds df s v s' :
  summary_of df s = (Ok v, s') →
  ∃ t1 t2,
    py_path v "overall_summary" "period_start" = Some (PyStr (strftime_Ymd t1)) ∧
    py_path v "overall_summary" "period_end" = Some (PyStr (strftime_Ymd t2)) ∧
    VTimestamp t1 ∈ column df "acq_date" ∧ VTimestamp t2 ∈ column df "acq_date" ∧
    ∀ t, VTimestamp t ∈ column df "acq_date" → t1 ≤ t ≤ t2.
Proof.
  intros (acq & week & t1 & t2 & ab & ar & Hacq & _ & Hmin & Hmax & _ & ->)%summary_of_Ok.
  apply getitem_Ok in Hacq as [_ ->].
  apply datetime_min_spec in Hmin as [Hin1 Hle1].
  apply datetime_max_spec in Hmax as [Hin2 Hle2].
  exists t1, t2. split; [reflexivity|]. split; [reflexivity|].
  split; [done|]. split; [done|]. intros t Ht. split; auto.
Qed.

Lemma summary_period_bounds_witness :
  ∃ t1 t2,
    py_path summary_three_rows "overall_summary" "period_start" =
      Some (PyStr (strftime_Ymd t1)) ∧
    py_path summary_three_rows "overall_summary" "period_end" =
      Some (PyStr (strftime_Ymd t2)) ∧
    VTimestamp t1 ∈ column returned_three_rows "acq_date" ∧
    VTimestamp t2 ∈ column returned_three_rows "acq_date" ∧
    ∀ t, VTimestamp t ∈ column returned_three_rows "acq_date" → t1 ≤ t ≤ t2.
Proof.
  apply (summary_period_bounds returned_three_rows s0 summary_three_rows s0).
  vm_compute. reflexivity.
Defined.
